(** * The SQS queue resource provider of LocalStack

    A shallow embedding of
    [localstack/services/sqs/resource_providers/aws_sqs_queue.py]
    (class [SQSQueueProvider]) together with the Python operations it
    relies on: dictionaries, truthiness, [==], [str], [json.dumps] and
    [json.loads].

    Layout: Python values and dictionaries; the JSON encoder and decoder;
    the error and service-call monad; the provider; lemmas; the
    properties of the specification. *)

From Stdlib Require Import List String Ascii ZArith Lia Bool Arith.
From Stdlib Require Import DecimalString DecimalZ DecimalFacts.
Import ListNotations.
Local Open Scope list_scope.
Local Open Scope string_scope.

(* ================================================================== *)
(** ** Python values *)

(** The values a property bag can hold: what a CloudFormation template
    deserialises to.  Dictionaries keep their insertion order (it is
    visible in the output of [json.dumps]) and are keyed by strings; a
    well-formed dictionary has no repeated key ([wf_pyval]).  A character
    of a [string] stands for the code point of the same number.  Floating
    point numbers are left out. *)
#[warnings="-register-all"]
Inductive pyval : Type :=
| PNone
| PBool (b : bool)
| PInt (n : Z)
| PStr (s : string)
| PList (items : list pyval)
| PDict (entries : list (string * pyval)).

(** A Python [dict] with [str] keys. *)
Definition dict : Type := list (string * pyval).

Section PyvalInduction.
Variable P : pyval -> Prop.
Hypothesis HNone : P PNone.
Hypothesis HBool : forall b, P (PBool b).
Hypothesis HInt : forall n, P (PInt n).
Hypothesis HStr : forall s, P (PStr s).
Hypothesis HList : forall l, Forall P l -> P (PList l).
Hypothesis HDict : forall d, Forall (fun kv => P (snd kv)) d -> P (PDict d).

Fixpoint pyval_nested_ind (v : pyval) : P v :=
  match v with
  | PNone => HNone
  | PBool b => HBool b
  | PInt n => HInt n
  | PStr s => HStr s
  | PList l =>
      HList l ((fix go (l : list pyval) : Forall P l :=
                match l with
                | [] => Forall_nil _
                | x :: l' => Forall_cons x (pyval_nested_ind x) (go l')
                end) l)
  | PDict d =>
      HDict d ((fix go (d : dict) : Forall (fun kv => P (snd kv)) d :=
                match d with
                | [] => Forall_nil _
                | kv :: d' =>
                    Forall_cons kv (pyval_nested_ind (snd kv)) (go d')
                end) d)
  end.
End PyvalInduction.

(* ------------------------------------------------------------------ *)
(** *** Dictionaries *)

Section Dict.
Variable V : Type.

(** [d.get(k)], with [None] for a missing key. *)
Fixpoint dict_get (d : list (string * V)) (k : string) : option V :=
  match d with
  | [] => None
  | (k', v) :: d' => if String.eqb k k' then Some v else dict_get d' k
  end.

(** [d[k] = v]: an existing key keeps its position, a new one goes last. *)
Fixpoint dict_set (d : list (string * V)) (k : string) (v : V)
  : list (string * V) :=
  match d with
  | [] => [(k, v)]
  | (k', v') :: d' =>
      if String.eqb k k' then (k', v) :: d'
      else (k', v') :: dict_set d' k v
  end.

(** [dict(pairs)]: the pairs are inserted from left to right. *)
Definition dict_of_pairs (pairs : list (string * V)) : list (string * V) :=
  fold_left (fun d kv => dict_set d (fst kv) (snd kv)) pairs [].

End Dict.
Arguments dict_get {V} d k.
Arguments dict_set {V} d k v.
Arguments dict_of_pairs {V} pairs.

(** [d.get(k, default)]. *)
Definition dict_get_default (d : dict) (k : string) (default : pyval) : pyval :=
  match dict_get d k with
  | Some v => v
  | None => default
  end.

(** [d.get(k)] as a Python value. *)
Definition py_get (d : dict) (k : string) : pyval :=
  dict_get_default d k PNone.

Fixpoint nodupb (l : list string) : bool :=
  match l with
  | [] => true
  | x :: l' => negb (existsb (String.eqb x) l') && nodupb l'
  end.

(** Keys are unique, at every depth: what every Python dictionary
    satisfies. *)
Fixpoint wf_pyval (v : pyval) : bool :=
  match v with
  | PList l => forallb wf_pyval l
  | PDict d => nodupb (map fst d) && forallb (fun kv => wf_pyval (snd kv)) d
  | _ => true
  end.

Definition wf_dict (d : dict) : bool := wf_pyval (PDict d).

(* ------------------------------------------------------------------ *)
(** *** Truthiness, equality, [str] *)

(** [bool(v)]. *)
Definition py_truthy (v : pyval) : bool :=
  match v with
  | PNone => false
  | PBool b => b
  | PInt n => negb (Z.eqb n 0)
  | PStr s => negb (String.eqb s "")
  | PList l => match l with [] => false | _ => true end
  | PDict d => match d with [] => false | _ => true end
  end.

(** [a == b].  [bool] is a subclass of [int], so [True == 1]; dictionaries
    compare without regard to order. *)
Fixpoint py_eq (a b : pyval) {struct a} : bool :=
  match a, b with
  | PNone, PNone => true
  | PBool x, PBool y => Bool.eqb x y
  | PBool x, PInt y => Z.eqb (Z.b2z x) y
  | PInt x, PBool y => Z.eqb x (Z.b2z y)
  | PInt x, PInt y => Z.eqb x y
  | PStr x, PStr y => String.eqb x y
  | PList xs, PList ys =>
      (fix go (xs ys : list pyval) : bool :=
         match xs, ys with
         | [], [] => true
         | x :: xs', y :: ys' => py_eq x y && go xs' ys'
         | _, _ => false
         end) xs ys
  | PDict da, PDict db =>
      Nat.eqb (List.length da) (List.length db) &&
      (fix go (d : dict) : bool :=
         match d with
         | [] => true
         | (k, v) :: d' =>
             match dict_get db k with
             | Some w => py_eq v w
             | None => false
             end && go d'
         end) da
  | _, _ => false
  end.

(** [a != b]. *)
Definition py_ne (a b : pyval) : bool := negb (py_eq a b).

(** [str(n)] for an [int]. *)
Definition py_str_int (n : Z) : string := NilZero.string_of_int (Z.to_int n).

(** [str(b)] for a [bool]. *)
Definition py_str_bool (b : bool) : string := if b then "True" else "False".

Definition lower_ascii (c : ascii) : ascii :=
  let n := nat_of_ascii c in
  if (65 <=? n)%nat && (n <=? 90)%nat then ascii_of_nat (n + 32) else c.

(** [s.lower()]. *)
Fixpoint py_lower (s : string) : string :=
  match s with
  | EmptyString => EmptyString
  | String c s' => String (lower_ascii c) (py_lower s')
  end.

(** [s[:-n]]. *)
Definition py_slice_drop_last (n : nat) (s : string) : string :=
  substring 0 (String.length s - n) s.

(** [type(v)] as an f-string prints it. *)
Definition py_type_repr (v : pyval) : string :=
  match v with
  | PNone => "<class 'NoneType'>"
  | PBool _ => "<class 'bool'>"
  | PInt _ => "<class 'int'>"
  | PStr _ => "<class 'str'>"
  | PList _ => "<class 'list'>"
  | PDict _ => "<class 'dict'>"
  end.

(* ================================================================== *)
(** ** [json.dumps] and [json.loads] *)

Module Json.

Definition quote : ascii := "034"%char.
Definition backslash : ascii := "\"%char.

Definition hex_digit (n : nat) : ascii :=
  match n with
  | 0 => "0" | 1 => "1" | 2 => "2" | 3 => "3" | 4 => "4" | 5 => "5"
  | 6 => "6" | 7 => "7" | 8 => "8" | 9 => "9" | 10 => "a" | 11 => "b"
  | 12 => "c" | 13 => "d" | 14 => "e" | _ => "f"
  end%char.

(** ['\\u{0:04x}'.format(n)] for a code point below 256. *)
Definition escape_u (n : nat) : string :=
  String backslash
    (String "u" (String "0" (String "0"
       (String (hex_digit (n / 16)) (String (hex_digit (n mod 16)) ""))))).

(** One character of [encode_basestring_ascii]: the table [ESCAPE_DCT],
    printable ASCII as it is, [\uXXXX] for the rest. *)
Definition escape_char (c : ascii) : string :=
  let n := nat_of_ascii c in
  if Ascii.eqb c quote then String backslash (String quote "")
  else if Ascii.eqb c backslash then String backslash (String backslash "")
  else if (n =? 8)%nat then String backslash "b"
  else if (n =? 12)%nat then String backslash "f"
  else if (n =? 10)%nat then String backslash "n"
  else if (n =? 13)%nat then String backslash "r"
  else if (n =? 9)%nat then String backslash "t"
  else if (32 <=? n)%nat && (n <=? 126)%nat then String c ""
  else escape_u n.

Fixpoint escape_string (s : string) : string :=
  match s with
  | EmptyString => EmptyString
  | String c s' => escape_char c ++ escape_string s'
  end.

(** [encode_basestring_ascii(s)]. *)
Definition encode_string (s : string) : string :=
  String quote (escape_string s ++ String quote "").

(** The encoder with its default settings: [ensure_ascii=True],
    separators [", "] and [": "], keys in insertion order. *)
Fixpoint encode (v : pyval) : string :=
  match v with
  | PNone => "null"
  | PBool true => "true"
  | PBool false => "false"
  | PInt n => py_str_int n
  | PStr s => encode_string s
  | PList l =>
      match l with
      | [] => "[]"
      | x :: l' =>
          "[" ++ encode x ++
          (fix tail (l : list pyval) : string :=
             match l with
             | [] => "]"
             | y :: l'' => ", " ++ encode y ++ tail l''
             end) l'
      end
  | PDict d =>
      match d with
      | [] => "{}"
      | (k, x) :: d' =>
          "{" ++ encode_string k ++ ": " ++ encode x ++
          (fix tail (d : dict) : string :=
             match d with
             | [] => "}"
             | (k', y) :: d'' =>
                 ", " ++ encode_string k' ++ ": " ++ encode y ++ tail d''
             end) d'
      end
  end.

(** [json.dumps(v)]. *)
Definition dumps (v : pyval) : string := encode v.

(* ---------------------------------------------------------------- *)
(** *** The decoder *)

Definition is_ws (c : ascii) : bool :=
  let n := nat_of_ascii c in
  (n =? 32)%nat || (n =? 9)%nat || (n =? 10)%nat || (n =? 13)%nat.

Fixpoint skip_ws (s : string) : string :=
  match s with
  | String c s' => if is_ws c then skip_ws s' else s
  | EmptyString => EmptyString
  end.

Definition hex_value (c : ascii) : option nat :=
  let n := nat_of_ascii c in
  if (48 <=? n)%nat && (n <=? 57)%nat then Some (n - 48)
  else if (97 <=? n)%nat && (n <=? 102)%nat then Some (n - 87)
  else if (65 <=? n)%nat && (n <=? 70)%nat then Some (n - 55)
  else None.

(** [_decode_uXXXX]: four hexadecimal digits. *)
Definition decode_u (a b c d : ascii) : option nat :=
  match hex_value a, hex_value b, hex_value c, hex_value d with
  | Some x, Some y, Some z, Some w => Some (((x * 16 + y) * 16 + z) * 16 + w)
  | _, _, _, _ => None
  end.

(** The table [BACKSLASH]. *)
Definition unescape (e : ascii) : option ascii :=
  if Ascii.eqb e quote then Some quote
  else if Ascii.eqb e backslash then Some backslash
  else if Ascii.eqb e "/" then Some "/"%char
  else if Ascii.eqb e "b" then Some (ascii_of_nat 8)
  else if Ascii.eqb e "f" then Some (ascii_of_nat 12)
  else if Ascii.eqb e "n" then Some (ascii_of_nat 10)
  else if Ascii.eqb e "r" then Some (ascii_of_nat 13)
  else if Ascii.eqb e "t" then Some (ascii_of_nat 9)
  else None.

(** [scanstring] in strict mode, from just after the opening quote: the
    decoded text and what follows the closing quote.  A [\uXXXX] escape
    above 255 has no counterpart in [string] and is not decoded. *)
Fixpoint scan_string (s : string) : option (string * string) :=
  match s with
  | EmptyString => None
  | String c r =>
      if Ascii.eqb c quote then Some (EmptyString, r)
      else if Ascii.eqb c backslash then
        match r with
        | EmptyString => None
        | String e r' =>
            if Ascii.eqb e "u" then
              match r' with
              | String h1 (String h2 (String h3 (String h4 r''))) =>
                  match decode_u h1 h2 h3 h4 with
                  | Some n =>
                      if (n <? 256)%nat then
                        match scan_string r'' with
                        | Some (t, rest) =>
                            Some (String (ascii_of_nat n) t, rest)
                        | None => None
                        end
                      else None
                  | None => None
                  end
              | _ => None
              end
            else
              match unescape e with
              | Some ch =>
                  match scan_string r' with
                  | Some (t, rest) => Some (String ch t, rest)
                  | None => None
                  end
              | None => None
              end
        end
      else if (nat_of_ascii c <? 32)%nat then None
      else
        match scan_string r with
        | Some (t, rest) => Some (String c t, rest)
        | None => None
        end
  end.

Definition digit_of (c : ascii) : option (Decimal.uint -> Decimal.uint) :=
  match nat_of_ascii c - 48, (48 <=? nat_of_ascii c)%nat with
  | 0, true => Some Decimal.D0 | 1, _ => Some Decimal.D1
  | 2, _ => Some Decimal.D2 | 3, _ => Some Decimal.D3
  | 4, _ => Some Decimal.D4 | 5, _ => Some Decimal.D5
  | 6, _ => Some Decimal.D6 | 7, _ => Some Decimal.D7
  | 8, _ => Some Decimal.D8 | 9, _ => Some Decimal.D9
  | _, _ => None
  end.

(** The longest run of decimal digits at the front of [s]. *)
Fixpoint scan_digits (s : string) : Decimal.uint * string :=
  match s with
  | EmptyString => (Decimal.Nil, EmptyString)
  | String c r =>
      match digit_of c with
      | Some dg => let (d, rest) := scan_digits r in (dg d, rest)
      | None => (Decimal.Nil, s)
      end
  end.

(** The integer part of [NUMBER_RE], [0|[1-9][0-9]*]. *)
Definition scan_natural (s : string) : option (Decimal.uint * string) :=
  match s with
  | EmptyString => None
  | String c r =>
      if Ascii.eqb c "0" then Some (Decimal.D0 Decimal.Nil, r)
      else
        match digit_of c with
        | Some _ => Some (scan_digits s)
        | None => None
        end
  end.

(** What may not follow an [int]: a fraction or an exponent would make
    the number a [float], which [pyval] does not have. *)
Definition starts_float_part (s : string) : bool :=
  match s with
  | String c _ =>
      Ascii.eqb c "." || Ascii.eqb c "e" || Ascii.eqb c "E"
  | EmptyString => false
  end.

(** A number, by [NUMBER_RE] and [int]. *)
Definition scan_number (s : string) : option (pyval * string) :=
  let finish (neg : bool) (r : option (Decimal.uint * string)) :=
    match r with
    | Some (d, rest) =>
        if starts_float_part rest then None
        else Some (PInt (Z.of_int (if neg then Decimal.Neg d
                                   else Decimal.Pos d)), rest)
    | None => None
    end in
  match s with
  | String c r =>
      if Ascii.eqb c "-" then finish true (scan_natural r)
      else finish false (scan_natural s)
  | EmptyString => None
  end.

(** [s] without the prefix [p], when it starts with it. *)
Fixpoint strip_prefix (p s : string) : option string :=
  match p, s with
  | EmptyString, _ => Some s
  | String a p', String b s' =>
      if Ascii.eqb a b then strip_prefix p' s' else None
  | String _ _, EmptyString => None
  end.

(** [scan_once], [JSONArray] and [JSONObject].  [fuel] bounds the nesting
    and the number of elements; [loads] gives one more than the length of
    the text.  [parse_items] starts at an element, [parse_members] just
    after the opening quote of a key.  [NaN] and [Infinity] are floats and
    are not decoded. *)
Fixpoint parse_value (fuel : nat) (s : string) : option (pyval * string) :=
  match fuel with
  | O => None
  | S f =>
      match s with
      | EmptyString => None
      | String c r =>
          if Ascii.eqb c quote then
            match scan_string r with
            | Some (t, rest) => Some (PStr t, rest)
            | None => None
            end
          else if Ascii.eqb c "{" then
            match skip_ws r with
            | String c' r' =>
                if Ascii.eqb c' "}" then Some (PDict [], r')
                else if Ascii.eqb c' quote then parse_members f r' []
                else None
            | EmptyString => None
            end
          else if Ascii.eqb c "[" then
            match skip_ws r with
            | String c' r' =>
                if Ascii.eqb c' "]" then Some (PList [], r')
                else parse_items f (String c' r') []
            | EmptyString => None
            end
          else if Ascii.eqb c "n" then
            option_map (pair PNone) (strip_prefix "null" s)
          else if Ascii.eqb c "t" then
            option_map (pair (PBool true)) (strip_prefix "true" s)
          else if Ascii.eqb c "f" then
            option_map (pair (PBool false)) (strip_prefix "false" s)
          else scan_number s
      end
  end
with parse_items (fuel : nat) (s : string) (acc : list pyval)
  : option (pyval * string) :=
  match fuel with
  | O => None
  | S f =>
      match parse_value f s with
      | Some (v, r) =>
          match skip_ws r with
          | String c r' =>
              if Ascii.eqb c "]" then Some (PList (acc ++ [v])%list, r')
              else if Ascii.eqb c "," then
                parse_items f (skip_ws r') (acc ++ [v])%list
              else None
          | EmptyString => None
          end
      | None => None
      end
  end
with parse_members (fuel : nat) (s : string) (acc : list (string * pyval))
  : option (pyval * string) :=
  match fuel with
  | O => None
  | S f =>
      match scan_string s with
      | Some (k, r) =>
          match skip_ws r with
          | String c r' =>
              if Ascii.eqb c ":" then
                match parse_value f (skip_ws r') with
                | Some (v, r2) =>
                    match skip_ws r2 with
                    | String c2 r3 =>
                        if Ascii.eqb c2 "}" then
                          Some (PDict (dict_of_pairs (acc ++ [(k, v)])%list), r3)
                        else if Ascii.eqb c2 "," then
                          match skip_ws r3 with
                          | String c3 r4 =>
                              if Ascii.eqb c3 quote then
                                parse_members f r4 (acc ++ [(k, v)])%list
                              else None
                          | EmptyString => None
                          end
                        else None
                    | EmptyString => None
                    end
                | None => None
                end
              else None
          | EmptyString => None
          end
      | None => None
      end
  end.

(** [json.loads(s)]: one value, white space around it, nothing else.
    [None] stands for [JSONDecodeError] and for a text whose value is
    outside [pyval] (floats, code points above 255). *)
Definition loads (s : string) : option pyval :=
  match parse_value (S (String.length s)) (skip_ws s) with
  | Some (v, rest) =>
      match skip_ws rest with
      | EmptyString => Some v
      | String _ _ => None
      end
  | None => None
  end.

End Json.


(* ================================================================== *)
(** ** Exceptions and fallible expressions *)

(** What the SQS client raises for a failed call.  [QueueDoesNotExist] is
    the one class the provider catches; [ClientError] stands for every
    other failure (permissions, throttling, parameter validation). *)
Inductive service_error : Type :=
| QueueDoesNotExist
| ClientError (code : string).

(** The exceptions of the provider's own code, and the client's. *)
Inductive exn : Type :=
| KeyError (key : string)
| TypeError (msg : string)
| AssertionError
| NotImplementedError
| ServiceError (e : service_error).

Inductive outcome (A : Type) : Type :=
| Ok (a : A)
| Raise (e : exn).
Arguments Ok {A} a.
Arguments Raise {A} e.

Notation "'let?' x ':=' e 'in' k" :=
  (match e with
   | Ok x => k
   | Raise ex => Raise ex
   end)
  (at level 10, x name, e at level 100, k at level 200, only parsing).

(** [d[k]] on a dictionary. *)
Definition getitem (d : dict) (k : string) : outcome pyval :=
  match dict_get d k with
  | Some v => Ok v
  | None => Raise (KeyError k)
  end.

(** [v[k]] with a string [k], on any value. *)
Definition py_subscript (v : pyval) (k : string) : outcome pyval :=
  match v with
  | PDict d => getitem d k
  | PStr _ => Raise (TypeError "string indices must be integers, not 'str'")
  | PList _ =>
      Raise (TypeError "list indices must be integers or slices, not str")
  | PNone => Raise (TypeError "'NoneType' object is not subscriptable")
  | PBool _ => Raise (TypeError "'bool' object is not subscriptable")
  | PInt _ => Raise (TypeError "'int' object is not subscriptable")
  end.

Fixpoint string_chars (s : string) : list pyval :=
  match s with
  | EmptyString => []
  | String c s' => PStr (String c EmptyString) :: string_chars s'
  end.

(** [for t in v]: the items a value yields. *)
Definition py_iter (v : pyval) : outcome (list pyval) :=
  match v with
  | PList l => Ok l
  | PDict d => Ok (map (fun kv => PStr (fst kv)) d)
  | PStr s => Ok (string_chars s)
  | PNone => Raise (TypeError "'NoneType' object is not iterable")
  | PBool _ => Raise (TypeError "'bool' object is not iterable")
  | PInt _ => Raise (TypeError "'int' object is not iterable")
  end.

Definition py_hashable (v : pyval) : bool :=
  match v with
  | PList _ | PDict _ => false
  | _ => true
  end.

(** [d[k] = v] on a dictionary keyed by arbitrary hashable values: keys are
    compared with [==], and the first key of a kind stays. *)
Fixpoint anydict_set (d : list (pyval * pyval)) (k v : pyval)
  : list (pyval * pyval) :=
  match d with
  | [] => [(k, v)]
  | (k', v') :: d' =>
      if py_eq k k' then (k', v) :: d' else (k', v') :: anydict_set d' k v
  end.

(* ================================================================== *)
(** ** The SQS client *)

(** The operations the provider calls, with their keyword arguments; an
    argument that the call site leaves out is [None]. *)
Inductive sqs_request : Type :=
| CreateQueue (QueueName : pyval)
              (Attributes : option (list (string * string)))
              (tags : option (list (pyval * pyval)))
| GetQueueAttributes (QueueUrl : pyval) (AttributeNames : list string)
| GetQueueUrl (QueueName : pyval)
| DeleteQueue (QueueUrl : pyval)
| ListQueues.

Inductive sqs_reply : Type :=
| Reply (response : pyval)
| Fault (e : service_error).

(** [request.aws_client_factory.sqs]: a service with a state of its own. *)
Class SqsClient (Sqs : Type) : Type :=
  { sqs_call : sqs_request -> Sqs -> sqs_reply * Sqs }.

(** The calls of a run with their replies, oldest first. *)
Definition trace : Type := list (sqs_request * sqs_reply).

(** Modelled from the spec: [util.generate_default_name] of
    [localstack.services.cloudformation.provider_utils], which is not among
    the sources at hand.  The specification describes the helper as a pure
    function of the stack name and the logical resource id that yields a
    name; nothing else is assumed of it. *)
Definition name_generator : Type := string -> string -> string.

(* ------------------------------------------------------------------ *)
(** *** Requests and events *)

Inductive OperationStatus : Type := SUCCESS | FAILED | IN_PROGRESS.

Record ResourceRequest : Type :=
  { desired_state : dict;
    previous_state : option dict;
    stack_name : string;
    logical_resource_id : string;
    custom_context : pyval }.

(** The fields of [ProgressEvent] that the provider sets; [None] where the
    constructor is left to its default. *)
Record ProgressEvent : Type :=
  { status : OperationStatus;
    resource_model : option dict;
    resource_models : option (list dict);
    event_custom_context : option pyval }.

(** [type(v).__name__]. *)
Definition py_type_name (v : pyval) : string :=
  match v with
  | PNone => "NoneType"
  | PBool _ => "bool"
  | PInt _ => "int"
  | PStr _ => "str"
  | PList _ => "list"
  | PDict _ => "dict"
  end.

(** How a run of [list] ends.  [AttributeError] is raised by no other
    operation of the provider and is kept apart from [exn]. *)
Inductive list_outcome : Type :=
| Listed (event : ProgressEvent)
| ListRaise (e : exn)
| ListAttributeError (msg : string).

(** [request.previous_state] as a value. *)
Definition state_value (st : option dict) : pyval :=
  match st with
  | Some d => PDict d
  | None => PNone
  end.

(* ================================================================== *)
(** ** The provider *)

Definition _queue_attribute_list : list string :=
  [ "ContentBasedDeduplication";
    "DeduplicationScope";
    "DelaySeconds";
    "FifoQueue";
    "FifoThroughputLimit";
    "KmsDataKeyReusePeriodSeconds";
    "KmsMasterKeyId";
    "MaximumMessageSize";
    "MessageRetentionPeriod";
    "ReceiveMessageWaitTimeSeconds";
    "RedriveAllowPolicy";
    "RedrivePolicy";
    "SqsManagedSseEnabled";
    "VisibilityTimeout" ].

(** The loop of [_compile_sqs_queue_attributes] over the attribute names
    that are left, [result] being the dictionary built so far. *)
Fixpoint compile_attributes_loop (ks : list string) (properties : dict)
    (result : list (string * string)) : outcome (list (string * string)) :=
  match ks with
  | [] => Ok result
  | k :: ks' =>
      match py_get properties k with
      | PNone => compile_attributes_loop ks' properties result
      | PStr s => compile_attributes_loop ks' properties (dict_set result k s)
      | PBool b =>
          compile_attributes_loop ks' properties
            (dict_set result k (py_lower (py_str_bool b)))
      | PDict d =>
          compile_attributes_loop ks' properties
            (dict_set result k (Json.dumps (PDict d)))
      | PInt n =>
          compile_attributes_loop ks' properties
            (dict_set result k (py_str_int n))
      | PList l =>
          Raise (TypeError ("cannot convert attribute " ++ k ++
                            ", unhandled type " ++ py_type_repr (PList l)))
      end
  end.

Definition _compile_sqs_queue_attributes (properties : dict)
  : outcome (list (string * string)) :=
  compile_attributes_loop _queue_attribute_list properties [].

(** The comprehension [{t["Key"]: t["Value"] for t in ...}] over the items
    that are left. *)
Fixpoint tags_loop (ts : list pyval) (acc : list (pyval * pyval))
  : outcome (list (pyval * pyval)) :=
  match ts with
  | [] => Ok acc
  | t :: ts' =>
      let? k := py_subscript t "Key" in
      let? v := py_subscript t "Value" in
      if py_hashable k then tags_loop ts' (anydict_set acc k v)
      else Raise (TypeError ("unhashable type: '" ++ py_type_name k ++ "'"))
  end.

(** [{t["Key"]: t["Value"] for t in model.get("Tags", [])}]. *)
Definition compile_tags (model : dict) : outcome (list (pyval * pyval)) :=
  let? ts := py_iter (dict_get_default model "Tags" (PList [])) in
  tags_loop ts [].

(** Lines 190-196 of [update]: the value of [should_replace]. *)
Definition should_replace (desired previous : dict) : outcome bool :=
  let? previous_name := getitem previous "QueueName" in
  Ok (py_ne (dict_get_default desired "QueueName" previous_name) previous_name
      || py_ne (dict_get_default desired "FifoQueue" (py_get previous "FifoQueue"))
               (py_get previous "FifoQueue")).

Module SQSQueueProvider.
Section Provider.

Context {Sqs : Type} {client : SqsClient Sqs}.
Variable generate_default_name : name_generator.

(** A step of the provider: it may call the service, changes the state of
    the service, and returns or raises. *)
Definition M (A : Type) : Type := Sqs -> outcome A * Sqs * trace.

Definition ret {A} (a : A) : M A := fun s => (Ok a, s, []).

Definition bind {A B} (m : M A) (k : A -> M B) : M B :=
  fun s =>
    match m s with
    | (Ok a, s1, t1) => let '(r, s2, t2) := k a s1 in (r, s2, (t1 ++ t2)%list)
    | (Raise e, s1, t1) => (Raise e, s1, t1)
    end.

Definition lift {A} (o : outcome A) : M A := fun s => (o, s, []).

(** A method call on the client. *)
Definition call (rq : sqs_request) : M pyval :=
  fun s =>
    let (rp, s') := sqs_call rq s in
    (match rp with
     | Reply v => Ok v
     | Fault e => Raise (ServiceError e)
     end, s', [(rq, rp)]).

(** [try: body  except sqs.exceptions.QueueDoesNotExist: handler]. *)
Definition try_except_QueueDoesNotExist {A} (body handler : M A) : M A :=
  fun s =>
    match body s with
    | (Raise (ServiceError QueueDoesNotExist), s1, t1) =>
        let '(r, s2, t2) := handler s1 in (r, s2, (t1 ++ t2)%list)
    | other => other
    end.

Notation "x <- c1 ;; c2" := (bind c1 (fun x => c2))
  (at level 61, c1 at next level, right associativity).

Definition create (request : ResourceRequest) : M ProgressEvent :=
  let model := desired_state request in
  model <- (if py_truthy (dict_get_default model "FifoQueue" (PBool false))
            then v <- lift (getitem model "FifoQueue") ;;
                 ret (dict_set model "FifoQueue" v)
            else ret model) ;;
  let queue_name := py_get model "QueueName" in
  let model :=
    if negb (py_truthy queue_name) then
      let queue_name :=
        if py_truthy (py_get model "FifoQueue") then
          py_slice_drop_last 5
            (generate_default_name (stack_name request)
                                   (logical_resource_id request)) ++ ".fifo"
        else
          generate_default_name (stack_name request)
                                (logical_resource_id request) in
      dict_set model "QueueName" (PStr queue_name)
    else model in
  attributes <- lift (_compile_sqs_queue_attributes model) ;;
  name <- lift (getitem model "QueueName") ;;
  tags <- lift (compile_tags model) ;;
  result <- call (CreateQueue name (Some attributes) (Some tags)) ;;
  url <- lift (py_subscript result "QueueUrl") ;;
  let model := dict_set model "QueueUrl" url in
  result <- call (GetQueueAttributes url ["QueueArn"]) ;;
  attrs <- lift (py_subscript result "Attributes") ;;
  arn <- lift (py_subscript attrs "QueueArn") ;;
  let model := dict_set model "Arn" arn in
  ret {| status := SUCCESS;
         resource_model := Some model;
         resource_models := None;
         event_custom_context := Some (custom_context request) |}.

Definition read (request : ResourceRequest) : M ProgressEvent :=
  lift (Raise NotImplementedError).

Definition delete (request : ResourceRequest) : M ProgressEvent :=
  let done :=
    {| status := SUCCESS;
       resource_model := Some (desired_state request);
       resource_models := None;
       event_custom_context := None |} in
  early <- try_except_QueueDoesNotExist
             (name <- lift (py_subscript
                              (state_value (previous_state request))
                              "QueueName") ;;
              result <- call (GetQueueUrl name) ;;
              queue_url <- lift (py_subscript result "QueueUrl") ;;
              _ <- call (DeleteQueue queue_url) ;;
              ret None)
             (ret (Some done)) ;;
  match early with
  | Some event => ret event
  | None => ret done
  end.

Definition update (request : ResourceRequest) : M ProgressEvent :=
  let model := desired_state request in
  match previous_state request with
  | None => lift (Raise AssertionError)
  | Some previous =>
      replace <- lift (should_replace (desired_state request) previous) ;;
      if negb replace then
        ret {| status := SUCCESS;
               resource_model := Some previous;
               resource_models := None;
               event_custom_context := None |}
      else
        let queue_name :=
          if py_truthy (py_get model "FifoQueue") then
            py_slice_drop_last 5
              (generate_default_name (stack_name request)
                                     (logical_resource_id request)) ++ ".fifo"
          else
            generate_default_name (stack_name request)
                                  (logical_resource_id request) in
        old_url <- lift (getitem previous "QueueUrl") ;;
        _ <- call (DeleteQueue old_url) ;;
        result <- call (CreateQueue (PStr queue_name) None None) ;;
        url <- lift (py_subscript result "QueueUrl") ;;
        let model := dict_set model "QueueUrl" url in
        url <- lift (getitem model "QueueUrl") ;;
        result <- call (GetQueueAttributes url ["QueueArn"]) ;;
        attrs <- lift (py_subscript result "Attributes") ;;
        arn <- lift (py_subscript attrs "QueueArn") ;;
        let model := dict_set model "Arn" arn in
        ret {| status := SUCCESS;
               resource_model := Some model;
               resource_models := None;
               event_custom_context := None |}
  end.

(** [list]; the name of the method is taken by the type of lists.  The
    request is not looked at.  [resources.get] is a method of dictionaries:
    on any other response the attribute lookup fails. *)
Definition list_ (request : ResourceRequest)
  : Sqs -> list_outcome * Sqs * trace :=
  fun s =>
    let (rp, s1) := sqs_call ListQueues s in
    (match rp with
     | Fault e => ListRaise (ServiceError e)
     | Reply resources =>
         match resources with
         | PDict d =>
             match py_iter (dict_get_default d "QueueUrls" (PList [])) with
             | Ok urls =>
                 Listed
                   {| status := SUCCESS;
                      resource_model := None;
                      resource_models :=
                        Some (map (fun url => [("QueueUrl", url)]) urls);
                      event_custom_context := None |}
             | Raise e => ListRaise e
             end
         | _ =>
             ListAttributeError
               ("'" ++ py_type_name resources ++
                "' object has no attribute 'get'")
         end
     end, s1, [(ListQueues, rp)]).

End Provider.
End SQSQueueProvider.

(* ================================================================== *)
(** ** Auxiliary definitions for the proofs *)

(** What [Json.encode] puts after the first element of a list. *)
Fixpoint encode_list_tail (l : list pyval) : string :=
  match l with
  | [] => "]"
  | y :: l' => ", " ++ Json.encode y ++ encode_list_tail l'
  end.

(** What [Json.encode] puts after the first entry of a dictionary. *)
Fixpoint encode_dict_tail (d : dict) : string :=
  match d with
  | [] => "}"
  | (k, y) :: d' =>
      ", " ++ Json.encode_string k ++ ": " ++ Json.encode y ++
      encode_dict_tail d'
  end.

(** Fuel that [Json.parse_value] needs to read [Json.encode v] back. *)
Fixpoint fuel_need (v : pyval) : nat :=
  match v with
  | PList l =>
      S ((fix go (l : list pyval) : nat :=
            match l with
            | [] => 0
            | x :: l' => S (fuel_need x + go l')
            end) l)
  | PDict d =>
      S ((fix go (d : dict) : nat :=
            match d with
            | [] => 0
            | kv :: d' => S (fuel_need (snd kv) + go d')
            end) d)
  | _ => 1
  end.

Fixpoint items_need (l : list pyval) : nat :=
  match l with
  | [] => 0
  | x :: l' => S (fuel_need x + items_need l')
  end.

Fixpoint members_need (d : dict) : nat :=
  match d with
  | [] => 0
  | kv :: d' => S (fuel_need (snd kv) + members_need d')
  end.

Definition is_digit (c : ascii) : bool :=
  match Json.digit_of c with
  | Some _ => true
  | None => false
  end.

(** The characters a JSON value can start with. *)
Definition value_start (c : ascii) : bool :=
  Ascii.eqb c Json.quote || Ascii.eqb c "{" || Ascii.eqb c "[" ||
  Ascii.eqb c "n" || Ascii.eqb c "t" || Ascii.eqb c "f" ||
  Ascii.eqb c "-" || is_digit c.

(** A text before which a number ends: it does not go on with a digit, a
    fraction or an exponent. *)
Definition ends_number (rest : string) : bool :=
  match rest with
  | EmptyString => true
  | String c _ => negb (is_digit c) && negb (Json.starts_float_part rest)
  end.

(** The name that [create] and [update] derive when they name the queue
    themselves: the generated default name, with its last five characters
    replaced by [.fifo] for a FIFO queue. *)
Definition derived_queue_name (generate_default_name : name_generator)
    (stack logical_id : string) (fifo : bool) : string :=
  if fifo then
    py_slice_drop_last 5 (generate_default_name stack logical_id) ++ ".fifo"
  else generate_default_name stack logical_id.

(** The [QueueName] argument of the [CreateQueue] call of [create]. *)
Definition create_queue_name (generate_default_name : name_generator)
    (request : ResourceRequest) : pyval :=
  let model := desired_state request in
  if negb (py_truthy (py_get model "QueueName")) then
    PStr (derived_queue_name generate_default_name (stack_name request)
            (logical_resource_id request)
            (py_truthy (py_get model "FifoQueue")))
  else py_get model "QueueName".

(** The model of [create] once the queue is named. *)
Definition named_model (generate_default_name : name_generator)
    (request : ResourceRequest) : dict :=
  let model := desired_state request in
  if negb (py_truthy (py_get model "QueueName")) then
    dict_set model "QueueName"
      (PStr (derived_queue_name generate_default_name (stack_name request)
               (logical_resource_id request)
               (py_truthy (py_get model "FifoQueue"))))
  else model.

(** [response["Attributes"]["QueueArn"]]. *)
Definition response_arn (response : pyval) : outcome pyval :=
  let? attrs := py_subscript response "Attributes" in
  py_subscript attrs "QueueArn".

(** What one declared attribute compiles to: nothing, a text, or an error. *)
Definition attribute_text (k : string) (v : pyval) : outcome (option string) :=
  match v with
  | PNone => Ok None
  | PStr s => Ok (Some s)
  | PBool b => Ok (Some (py_lower (py_str_bool b)))
  | PDict d => Ok (Some (Json.dumps (PDict d)))
  | PInt n => Ok (Some (py_str_int n))
  | PList l =>
      Raise (TypeError ("cannot convert attribute " ++ k ++
                        ", unhandled type " ++ py_type_repr (PList l)))
  end.

(** The result of a run, and its trace. *)
Definition run_result {Sqs A} (r : outcome A * Sqs * trace) : outcome A :=
  fst (fst r).
Definition run_trace {Sqs A} (r : outcome A * Sqs * trace) : trace := snd r.

(** The event that every path of [delete] returns. *)
Definition delete_done (request : ResourceRequest) : ProgressEvent :=
  {| status := SUCCESS;
     resource_model := Some (desired_state request);
     resource_models := None;
     event_custom_context := None |}.

(* ------------------------------------------------------------------ *)
(** *** A small SQS for examples *)

Definition mock_url (name : string) : string :=
  "http://sqs.localhost/000000000000/" ++ name.

Definition mock_arn (name : string) : string :=
  "arn:aws:sqs:us-east-1:000000000000:" ++ name.

Definition mock_find (url : string) (queues : list string) : option string :=
  find (fun n => String.eqb (mock_url n) url) queues.

(** Queues are known by their names; a queue exists from [CreateQueue] to
    [DeleteQueue]. *)
Definition mock_sqs_call (rq : sqs_request) (queues : list string)
  : sqs_reply * list string :=
  match rq with
  | CreateQueue (PStr n) _ _ =>
      (Reply (PDict [("QueueUrl", PStr (mock_url n))]),
       if existsb (String.eqb n) queues then queues else (queues ++ [n])%list)
  | GetQueueUrl (PStr n) =>
      if existsb (String.eqb n) queues
      then (Reply (PDict [("QueueUrl", PStr (mock_url n))]), queues)
      else (Fault QueueDoesNotExist, queues)
  | GetQueueAttributes (PStr u) _ =>
      match mock_find u queues with
      | Some n =>
          (Reply (PDict [("Attributes",
                          PDict [("QueueArn", PStr (mock_arn n))])]), queues)
      | None => (Fault QueueDoesNotExist, queues)
      end
  | DeleteQueue (PStr u) =>
      match mock_find u queues with
      | Some n =>
          (Reply (PDict []), filter (fun m => negb (String.eqb m n)) queues)
      | None => (Fault QueueDoesNotExist, queues)
      end
  | ListQueues =>
      (Reply (PDict [("QueueUrls",
                      PList (map (fun n => PStr (mock_url n)) queues))]),
       queues)
  | _ => (Fault (ClientError "ParamValidationError"), queues)
  end.

#[local] Instance mock_client : SqsClient (list string) :=
  {| sqs_call := mock_sqs_call |}.

(** A service that refuses every call. *)
#[local] Instance denying_client : SqsClient unit :=
  {| sqs_call := fun _ s => (Fault (ClientError "AccessDenied"), s) |}.

Definition sample_generator : name_generator :=
  fun stack logical_id => stack ++ "-" ++ logical_id ++ "-0a1b2c3d".

Definition sample_policy : pyval :=
  PDict [("deadLetterTargetArn",
          PStr "arn:aws:sqs:us-east-1:000000000000:dlq");
         ("maxReceiveCount", PInt 5)].

Definition sample_properties : dict :=
  [("QueueName", PStr "orders");
   ("VisibilityTimeout", PInt 300);
   ("ContentBasedDeduplication", PBool true);
   ("SqsManagedSseEnabled", PBool false);
   ("KmsMasterKeyId", PStr "alias/aws/sqs");
   ("DelaySeconds", PNone);
   ("RedrivePolicy", sample_policy);
   ("Tags", PList [PDict [("Key", PStr "team"); ("Value", PStr "billing")]])].

Definition sample_request (desired : dict) (previous : option dict)
  : ResourceRequest :=
  {| desired_state := desired;
     previous_state := previous;
     stack_name := "stack";
     logical_resource_id := "Queue";
     custom_context := PDict [] |}.

(** A previous state as [create] leaves it. *)
Definition sample_previous : dict :=
  [("QueueName", PStr "orders");
   ("VisibilityTimeout", PInt 30);
   ("QueueUrl", PStr (mock_url "orders"));
   ("Arn", PStr (mock_arn "orders"))].

(** The life of one queue of the example stack: created without a name,
    then turned into a FIFO queue by a replacing [update]. *)
Definition created_state : dict :=
  [("QueueName", PStr "stack-Queue-0a1b2c3d");
   ("QueueUrl", PStr (mock_url "stack-Queue-0a1b2c3d"));
   ("Arn", PStr (mock_arn "stack-Queue-0a1b2c3d"))].

Definition replaced_state : dict :=
  [("FifoQueue", PBool true);
   ("QueueUrl", PStr (mock_url "stack-Queue-0a1.fifo"));
   ("Arn", PStr (mock_arn "stack-Queue-0a1.fifo"))].

(** Splits a hypothesis that a call belongs to a trace into its cases. *)
Ltac trace_cases :=
  repeat match goal with
    | H : In _ [] |- _ => destruct H
    | H : In _ (_ :: _) |- _ =>
        destruct H as [H|H];
        [ try discriminate H; try (injection H; intros; subst) | ]
    end.




Definition renamed_request : ResourceRequest :=
  sample_request [("QueueName", PStr "orders-v2")] (Some sample_previous).

(** [v is None]. *)
Definition is_none (v : pyval) : bool :=
  match v with
  | PNone => true
  | _ => false
  end.

(** A request that differs from [request] in its two states only. *)
Definition with_states (request : ResourceRequest) (desired : dict)
    (previous : option dict) : ResourceRequest :=
  {| desired_state := desired;
     previous_state := previous;
     stack_name := stack_name request;
     logical_resource_id := logical_resource_id request;
     custom_context := custom_context request |}.

(** A well-formed tag: a dictionary with a string under [Key] and a value
    under [Value]. *)
Definition tag_of (kv : string * pyval) : pyval :=
  PDict [("Key", PStr (fst kv)); ("Value", snd kv)].

(** A service for the failure paths: it creates and resolves every queue,
    lists none, reports every queue as gone when asked to delete it, and
    refuses the lookup of attributes. *)
#[local] Instance flaky_client : SqsClient unit :=
  {| sqs_call := fun rq s =>
       (match rq with
        | CreateQueue _ _ _ | GetQueueUrl _ =>
            Reply (PDict [("QueueUrl", PStr "http://sqs.localhost/q")])
        | DeleteQueue _ => Fault QueueDoesNotExist
        | GetQueueAttributes _ _ => Fault (ClientError "AccessDenied")
        | ListQueues => Reply (PDict [])
        end, s) |}.

(** A service that deletes, and creates nothing. *)
#[local] Instance quota_client : SqsClient unit :=
  {| sqs_call := fun rq s =>
       (match rq with
        | DeleteQueue _ => Reply (PDict [])
        | _ => Fault (ClientError "OverLimit")
        end, s) |}.

Definition plain_desired : dict :=
  [("QueueName", PStr "orders"); ("VisibilityTimeout", PInt 300)].

Definition plain_model : dict :=
  [("QueueName", PStr "orders");
   ("VisibilityTimeout", PInt 300);
   ("QueueUrl", PStr (mock_url "orders"));
   ("Arn", PStr (mock_arn "orders"))].

Definition success_event (model : dict) (context : option pyval)
  : ProgressEvent :=
  {| status := SUCCESS;
     resource_model := Some model;
     resource_models := None;
     event_custom_context := context |}.

Definition sample_tags : list (string * pyval) :=
  [("team", PStr "billing"); ("env", PStr "prod"); ("team", PStr "orders")].

(** The event of [list]. *)
Definition success_event_list (models : list dict) : ProgressEvent :=
  {| status := SUCCESS;
     resource_model := None;
     resource_models := Some models;
     event_custom_context := None |}.

(** [Json.parse_value] reads [Json.encode v] back, whatever follows it. *)
Definition reads_back (v : pyval) : Prop :=
  wf_pyval v = true ->
  forall (fuel : nat) (rest : string),
    fuel_need v <= fuel -> ends_number rest = true ->
    Json.parse_value fuel (Json.encode v ++ rest) = Some (v, rest).

(* ================================================================== *)
(** ** Strings *)

Lemma append_assoc (a b c : string) : (a ++ b) ++ c = a ++ (b ++ c).
Proof.
  induction a as [|x a IH]; simpl; [reflexivity | now rewrite IH].
Qed.

Lemma append_nil_r (a : string) : a ++ "" = a.
Proof.
  induction a as [|x a IH]; simpl; [reflexivity | now rewrite IH].
Qed.

Lemma length_append (a b : string) :
  String.length (a ++ b) = String.length a + String.length b.
Proof.
  induction a as [|x a IH]; simpl; [reflexivity | now rewrite IH].
Qed.




(* ================================================================== *)
(** ** The decoder reads back what the encoder writes *)

Lemma scan_escape_char (c : ascii) (tail : string) :
  Json.scan_string (Json.escape_char c ++ tail) =
  match Json.scan_string tail with
  | Some (t, rest) => Some (String c t, rest)
  | None => None
  end.
Proof.
  destruct c as [[] [] [] [] [] [] [] []]; reflexivity.
Qed.

Lemma scan_string_escape (s rest : string) :
  Json.scan_string (Json.escape_string s ++ String Json.quote rest) =
  Some (s, rest).
Proof.
  induction s as [|c s IH].
  - reflexivity.
  - cbn [Json.escape_string]. rewrite append_assoc, scan_escape_char.
    now rewrite IH.
Qed.

Lemma encode_string_append (s rest : string) :
  Json.encode_string s ++ rest =
  String Json.quote (Json.escape_string s ++ String Json.quote rest).
Proof.
  unfold Json.encode_string. cbn [append]. now rewrite append_assoc.
Qed.

(* ------------------------------------------------------------------ *)
(** *** Numbers *)

Lemma scan_digits_stop (rest : string) :
  ends_number rest = true -> Json.scan_digits rest = (Decimal.Nil, rest).
Proof.
  destruct rest as [|c r]; [reflexivity|].
  unfold ends_number, is_digit. cbn [Json.scan_digits].
  destruct (Json.digit_of c); [discriminate | reflexivity].
Qed.

Lemma scan_digits_string_of_uint (d : Decimal.uint) (rest : string) :
  ends_number rest = true ->
  Json.scan_digits (NilEmpty.string_of_uint d ++ rest) = (d, rest).
Proof.
  intros Hrest.
  induction d as [|d IH|d IH|d IH|d IH|d IH|d IH|d IH|d IH|d IH|d IH];
    cbn [NilEmpty.string_of_uint append];
    [now apply scan_digits_stop | ..];
    cbn [Json.scan_digits]; rewrite IH; reflexivity.
Qed.

(** A normalised numeral other than zero does not start with [0]. *)
Lemma unorm_fixed_D0 (d : Decimal.uint) :
  Decimal.unorm (Decimal.D0 d) = Decimal.D0 d -> d = Decimal.Nil.
Proof.
  intros H. destruct (Decimal.uint_eq_dec d Decimal.Nil) as [E|NE];
    [assumption|].
  rewrite DecimalFacts.unorm_D0 in H.
  pose proof (DecimalFacts.nb_digits_unorm d NE) as L.
  rewrite H in L. cbn in L. lia.
Qed.

Lemma scan_natural_normal (d : Decimal.uint) (rest : string) :
  d <> Decimal.Nil -> Decimal.unorm d = d -> ends_number rest = true ->
  Json.scan_natural (NilEmpty.string_of_uint d ++ rest) = Some (d, rest).
Proof.
  intros Hnil Hnorm Hrest.
  destruct d as [|d|d|d|d|d|d|d|d|d|d]; [congruence | ..].
  - apply unorm_fixed_D0 in Hnorm. subst d. reflexivity.
  - exact (f_equal Some (scan_digits_string_of_uint (Decimal.D1 d) rest Hrest)).
  - exact (f_equal Some (scan_digits_string_of_uint (Decimal.D2 d) rest Hrest)).
  - exact (f_equal Some (scan_digits_string_of_uint (Decimal.D3 d) rest Hrest)).
  - exact (f_equal Some (scan_digits_string_of_uint (Decimal.D4 d) rest Hrest)).
  - exact (f_equal Some (scan_digits_string_of_uint (Decimal.D5 d) rest Hrest)).
  - exact (f_equal Some (scan_digits_string_of_uint (Decimal.D6 d) rest Hrest)).
  - exact (f_equal Some (scan_digits_string_of_uint (Decimal.D7 d) rest Hrest)).
  - exact (f_equal Some (scan_digits_string_of_uint (Decimal.D8 d) rest Hrest)).
  - exact (f_equal Some (scan_digits_string_of_uint (Decimal.D9 d) rest Hrest)).
Qed.

Lemma pos_to_uint_normal (p : positive) :
  Decimal.unorm (Pos.to_uint p) = Pos.to_uint p.
Proof.
  pose proof (DecimalPos.Unsigned.to_of (Pos.to_uint p)) as H.
  rewrite DecimalPos.Unsigned.of_to in H. symmetry. exact H.
Qed.

Lemma ends_number_no_float (rest : string) :
  ends_number rest = true -> Json.starts_float_part rest = false.
Proof.
  destruct rest as [|c r]; [reflexivity|].
  unfold ends_number. intros H.
  apply andb_true_iff in H. destruct H as [_ H].
  now apply negb_true_iff in H.
Qed.

(** The head of a numeral that is not empty is a digit. *)
Lemma string_of_uint_head (d : Decimal.uint) :
  d <> Decimal.Nil ->
  exists c s, NilEmpty.string_of_uint d = String c s /\
              is_digit c = true /\ Ascii.eqb c "-" = false.
Proof.
  intros Hnil.
  destruct d; [congruence | ..]; cbn [NilEmpty.string_of_uint];
    eexists; eexists; (split; [reflexivity | split; reflexivity]).
Qed.

Lemma scan_number_str_int (n : Z) (rest : string) :
  ends_number rest = true ->
  Json.scan_number (py_str_int n ++ rest) = Some (PInt n, rest).
Proof.
  intros Hrest. pose proof (ends_number_no_float _ Hrest) as Hfl.
  unfold py_str_int. destruct n as [|p|p]; cbn [Z.to_int].
  - cbn. rewrite Hfl. reflexivity.
  - cbn [NilZero.string_of_int NilZero.string_of_uint].
    pose proof (DecimalPos.Unsigned.to_uint_nonnil p) as Hnil.
    destruct (string_of_uint_head _ Hnil) as (c & s & Hs & Hd & Hm).
    assert (Hstr : NilZero.string_of_uint (Pos.to_uint p) =
                   NilEmpty.string_of_uint (Pos.to_uint p)).
    { unfold NilZero.string_of_uint. destruct (Pos.to_uint p); congruence. }
    rewrite Hstr. unfold Json.scan_number.
    pose proof (scan_natural_normal (Pos.to_uint p) rest Hnil (pos_to_uint_normal p) Hrest)
      as Hscan.
    rewrite Hs in *. cbn [append] in *. rewrite Hm, Hscan, Hfl.
    change (Decimal.Pos (Pos.to_uint p)) with (Z.to_int (Zpos p)).
    now rewrite DecimalZ.of_to.
  - cbn [NilZero.string_of_int].
    pose proof (DecimalPos.Unsigned.to_uint_nonnil p) as Hnil.
    assert (Hstr : NilZero.string_of_uint (Pos.to_uint p) =
                   NilEmpty.string_of_uint (Pos.to_uint p)).
    { unfold NilZero.string_of_uint. destruct (Pos.to_uint p); congruence. }
    rewrite Hstr. unfold Json.scan_number. cbn [append].
    change (Ascii.eqb "-" "-") with true. cbv iota.
    rewrite (scan_natural_normal (Pos.to_uint p) rest Hnil (pos_to_uint_normal p) Hrest), Hfl.
    change (Decimal.Neg (Pos.to_uint p)) with (Z.to_int (Zneg p)).
    now rewrite DecimalZ.of_to.
Qed.

(* ------------------------------------------------------------------ *)
(** *** Dictionaries without repeated keys *)

Lemma nodupb_NoDup (l : list string) : nodupb l = true <-> NoDup l.
Proof.
  induction l as [|x l IH]; cbn [nodupb].
  - split; [constructor | reflexivity].
  - rewrite andb_true_iff, negb_true_iff, IH. split.
    + intros [Hx Hl]. constructor; [|assumption].
      intros Hin. assert (existsb (String.eqb x) l = true) as E.
      { apply existsb_exists. exists x. split; [assumption|].
        apply String.eqb_refl. }
      congruence.
    + intros H. inversion H as [|? ? Hx Hl]; subst. split; [|assumption].
      destruct (existsb (String.eqb x) l) eqn:E; [|reflexivity].
      apply existsb_exists in E. destruct E as (y & Hy & Exy).
      apply String.eqb_eq in Exy. subst y. contradiction.
Qed.

Lemma dict_set_fresh {V} (d : list (string * V)) (k : string) (v : V) :
  ~ In k (map fst d) -> dict_set d k v = (d ++ [(k, v)])%list.
Proof.
  induction d as [|[k' v'] d IH]; cbn [dict_set map fst In app]; intros H.
  - reflexivity.
  - destruct (String.eqb_spec k k') as [E|NE].
    + exfalso. apply H. left. congruence.
    + rewrite IH; [reflexivity|]. intros Hin. apply H. now right.
Qed.

Lemma dict_of_pairs_acc {V} (d acc : list (string * V)) :
  NoDup (map fst (acc ++ d)%list) ->
  fold_left (fun a kv => dict_set a (fst kv) (snd kv)) d acc = (acc ++ d)%list.
Proof.
  revert acc. induction d as [|[k v] d IH]; intros acc H; cbn [fold_left].
  - now rewrite List.app_nil_r.
  - cbn [fst snd]. rewrite dict_set_fresh.
    + rewrite IH; rewrite <- List.app_assoc; [reflexivity | exact H].
    + rewrite map_app in H. cbn [map fst] in H.
      apply NoDup_remove_2 in H. intros Hin. apply H.
      apply in_or_app. now left.
Qed.

Lemma dict_of_pairs_nodup {V} (d : list (string * V)) :
  nodupb (map fst d) = true -> dict_of_pairs d = d.
Proof.
  intros H. unfold dict_of_pairs. rewrite dict_of_pairs_acc; [reflexivity|].
  now apply nodupb_NoDup.
Qed.

(* ------------------------------------------------------------------ *)
(** *** Values *)

Lemma value_start_facts (c : ascii) :
  value_start c = true ->
  Json.is_ws c = false /\ Ascii.eqb c "]" = false /\ Ascii.eqb c "}" = false.
Proof.
  destruct c as [[] [] [] [] [] [] [] []]; intros H; vm_compute in H;
    try discriminate H; repeat split; reflexivity.
Qed.

Lemma skip_ws_value_start (c : ascii) (s : string) :
  value_start c = true -> Json.skip_ws (String c s) = String c s.
Proof.
  intros H. apply value_start_facts in H. destruct H as (H & _).
  cbn [Json.skip_ws]. now rewrite H.
Qed.

Lemma py_str_int_head (n : Z) :
  exists c s, py_str_int n = String c s /\
              (is_digit c || Ascii.eqb c "-") = true.
Proof.
  unfold py_str_int. destruct n as [|p|p]; cbn [Z.to_int].
  - eexists; eexists; split; reflexivity.
  - cbn [NilZero.string_of_int]. unfold NilZero.string_of_uint.
    pose proof (DecimalPos.Unsigned.to_uint_nonnil p) as Hnil.
    destruct (string_of_uint_head _ Hnil) as (c & s & Hs & Hd & _).
    exists c, s. split; [|now rewrite Hd].
    destruct (Pos.to_uint p); [congruence | ..]; exact Hs.
  - eexists; eexists; split; reflexivity.
Qed.

Lemma number_start_value_start (c : ascii) :
  (is_digit c || Ascii.eqb c "-") = true -> value_start c = true.
Proof.
  unfold value_start. intros H. apply orb_true_iff in H.
  destruct H as [H|H]; rewrite H; now rewrite ?orb_true_r.
Qed.

Lemma encode_head (v : pyval) :
  exists c s, Json.encode v = String c s /\ value_start c = true.
Proof.
  destruct v as [|[|]|n|s|[|x l]|[|[k x] d]];
    try (eexists; eexists; split; reflexivity).
  destruct (py_str_int_head n) as (c & s & Hs & Hc).
  exists c, s. split; [exact Hs | now apply number_start_value_start].
Qed.

Lemma parse_value_number (f : nat) (c : ascii) (r : string) :
  (is_digit c || Ascii.eqb c "-") = true ->
  Json.parse_value (S f) (String c r) = Json.scan_number (String c r).
Proof.
  destruct c as [[] [] [] [] [] [] [] []]; intros H; vm_compute in H;
    try discriminate H; reflexivity.
Qed.

Lemma parse_items_eq (f : nat) (s : string) (acc : list pyval) :
  Json.parse_items (S f) s acc =
  match Json.parse_value f s with
  | Some (v, r) =>
      match Json.skip_ws r with
      | String c r' =>
          if Ascii.eqb c "]" then Some (PList (acc ++ [v])%list, r')
          else if Ascii.eqb c "," then
            Json.parse_items f (Json.skip_ws r') (acc ++ [v])%list
          else None
      | EmptyString => None
      end
  | None => None
  end.
Proof. reflexivity. Qed.

Lemma parse_members_eq (f : nat) (s : string) (acc : list (string * pyval)) :
  Json.parse_members (S f) s acc =
  match Json.scan_string s with
  | Some (k, r) =>
      match Json.skip_ws r with
      | String c r' =>
          if Ascii.eqb c ":" then
            match Json.parse_value f (Json.skip_ws r') with
            | Some (v, r2) =>
                match Json.skip_ws r2 with
                | String c2 r3 =>
                    if Ascii.eqb c2 "}" then
                      Some (PDict (dict_of_pairs (acc ++ [(k, v)])%list), r3)
                    else if Ascii.eqb c2 "," then
                      match Json.skip_ws r3 with
                      | String c3 r4 =>
                          if Ascii.eqb c3 Json.quote then
                            Json.parse_members f r4 (acc ++ [(k, v)])%list
                          else None
                      | EmptyString => None
                      end
                    else None
                | EmptyString => None
                end
            | None => None
            end
          else None
      | EmptyString => None
      end
  | None => None
  end.
Proof. reflexivity. Qed.

Lemma parse_value_list_eq (f : nat) (r : string) :
  Json.parse_value (S f) (String "[" r) =
  match Json.skip_ws r with
  | String c' r' =>
      if Ascii.eqb c' "]" then Some (PList [], r')
      else Json.parse_items f (String c' r') []
  | EmptyString => None
  end.
Proof. reflexivity. Qed.

Lemma parse_value_dict_eq (f : nat) (r : string) :
  Json.parse_value (S f) (String "{" r) =
  match Json.skip_ws r with
  | String c' r' =>
      if Ascii.eqb c' "}" then Some (PDict [], r')
      else if Ascii.eqb c' Json.quote then Json.parse_members f r' []
      else None
  | EmptyString => None
  end.
Proof. reflexivity. Qed.

Lemma encode_list_cons (x : pyval) (l : list pyval) :
  Json.encode (PList (x :: l)) = "[" ++ Json.encode x ++ encode_list_tail l.
Proof.
  reflexivity.
Qed.

Lemma encode_dict_cons (k : string) (x : pyval) (d : dict) :
  Json.encode (PDict ((k, x) :: d)) =
  "{" ++ Json.encode_string k ++ ": " ++ Json.encode x ++ encode_dict_tail d.
Proof.
  reflexivity.
Qed.

Lemma fuel_need_list (l : list pyval) : fuel_need (PList l) = S (items_need l).
Proof.
  reflexivity.
Qed.

Lemma fuel_need_dict (d : dict) : fuel_need (PDict d) = S (members_need d).
Proof.
  reflexivity.
Qed.

Lemma skip_ws_encode (v : pyval) (rest : string) :
  Json.skip_ws (Json.encode v ++ rest) = Json.encode v ++ rest.
Proof.
  destruct (encode_head v) as (c & s & Hs & Hc). rewrite Hs.
  cbn [append]. now apply skip_ws_value_start.
Qed.

Lemma skip_ws_space (s : string) :
  Json.skip_ws (String " " s) = Json.skip_ws s.
Proof. reflexivity. Qed.

Lemma parse_items_encode (l : list pyval) :
  forall (x : pyval) (acc : list pyval) (fuel : nat) (rest : string),
    Forall reads_back (x :: l) ->
    forallb wf_pyval (x :: l) = true ->
    items_need (x :: l) <= fuel ->
    ends_number rest = true ->
    Json.parse_items fuel (Json.encode x ++ encode_list_tail l ++ rest) acc =
    Some (PList (acc ++ x :: l)%list, rest).
Proof.
  induction l as [|y l IH]; intros x acc fuel rest Hall Hwf Hfuel Hrest.
  - inversion Hall as [|? ? Hx _]; subst.
    cbn [forallb] in Hwf. apply andb_true_iff in Hwf. destruct Hwf as [Hwx _].
    cbn [items_need] in Hfuel. destruct fuel as [|f]; [lia|].
    rewrite parse_items_eq.
    rewrite (Hx Hwx f (encode_list_tail [] ++ rest));
      [reflexivity | lia | reflexivity].
  - inversion Hall as [|? ? Hx Hall']; subst.
    cbn [forallb] in Hwf. apply andb_true_iff in Hwf. destruct Hwf as [Hwx Hwl].
    cbn [items_need] in Hfuel. destruct fuel as [|f]; [lia|].
    rewrite parse_items_eq.
    rewrite (Hx Hwx f (encode_list_tail (y :: l) ++ rest));
      [| lia | reflexivity].
    cbn [encode_list_tail]. rewrite !append_assoc.
    change (Json.skip_ws (", " ++ Json.encode y ++ encode_list_tail l ++ rest))
      with (String "," (String " " (Json.encode y ++ encode_list_tail l ++ rest))).
    change (Ascii.eqb "," "]") with false.
    change (Ascii.eqb "," ",") with true. cbv iota.
    rewrite skip_ws_space, skip_ws_encode.
    rewrite (IH y (acc ++ [x])%list f rest Hall' Hwl); [| cbn [items_need]; lia
                                                        | assumption].
    now rewrite <- List.app_assoc.
Qed.

Lemma parse_members_encode (d : dict) :
  forall (k : string) (x : pyval) (acc : dict) (fuel : nat) (rest : string),
    Forall (fun kv => reads_back (snd kv)) ((k, x) :: d) ->
    forallb (fun kv => wf_pyval (snd kv)) ((k, x) :: d) = true ->
    members_need ((k, x) :: d) <= fuel ->
    ends_number rest = true ->
    Json.parse_members fuel
      (Json.escape_string k ++
       String Json.quote (": " ++ Json.encode x ++ encode_dict_tail d ++ rest))
      acc =
    Some (PDict (dict_of_pairs (acc ++ (k, x) :: d)%list), rest).
Proof.
  induction d as [|[k' y] d IH]; intros k x acc fuel rest Hall Hwf Hfuel Hrest.
  - inversion Hall as [|? ? Hx _]; subst. cbn [snd] in Hx.
    cbn [forallb snd] in Hwf. apply andb_true_iff in Hwf.
    destruct Hwf as [Hwx _].
    cbn [members_need snd] in Hfuel. destruct fuel as [|f]; [lia|].
    rewrite parse_members_eq, scan_string_escape.
    change (Json.skip_ws (": " ++ Json.encode x ++ encode_dict_tail [] ++ rest))
      with (String ":" (String " " (Json.encode x ++ encode_dict_tail [] ++ rest))).
    change (Ascii.eqb ":" ":") with true. cbv iota.
    rewrite skip_ws_space, skip_ws_encode.
    rewrite (Hx Hwx f (encode_dict_tail [] ++ rest));
      [reflexivity | lia | reflexivity].
  - inversion Hall as [|? ? Hx Hall']; subst. cbn [snd] in Hx.
    cbn [forallb snd] in Hwf. apply andb_true_iff in Hwf.
    destruct Hwf as [Hwx Hwl].
    cbn [members_need snd] in Hfuel. destruct fuel as [|f]; [lia|].
    rewrite parse_members_eq, scan_string_escape.
    change (Json.skip_ws
              (": " ++ Json.encode x ++ encode_dict_tail ((k', y) :: d) ++ rest))
      with (String ":" (String " "
              (Json.encode x ++ encode_dict_tail ((k', y) :: d) ++ rest))).
    change (Ascii.eqb ":" ":") with true. cbv iota.
    rewrite skip_ws_space, skip_ws_encode.
    rewrite (Hx Hwx f (encode_dict_tail ((k', y) :: d) ++ rest));
      [| lia | reflexivity].
    transitivity
      (Json.parse_members f
         (Json.escape_string k' ++
          String Json.quote
            (": " ++ Json.encode y ++ encode_dict_tail d ++ rest))
         (acc ++ [(k, x)])%list).
    { cbn [encode_dict_tail]. rewrite !append_assoc, encode_string_append.
      reflexivity. }
    rewrite (IH k' y (acc ++ [(k, x)])%list f rest Hall' Hwl);
      [| cbn [members_need snd]; lia | assumption].
    now rewrite <- List.app_assoc.
Qed.

Lemma parse_value_encode (v : pyval) : reads_back v.
Proof.
  induction v as [ |b|n|s|l IHl|d IHd] using pyval_nested_ind;
    intros Hwf fuel rest Hfuel Hrest.
  - destruct fuel as [|f]; [cbn in Hfuel; lia | reflexivity].
  - destruct fuel as [|f]; [cbn in Hfuel; lia | destruct b; reflexivity].
  - destruct fuel as [|f]; [cbn in Hfuel; lia |].
    destruct (py_str_int_head n) as (c & s & Hs & Hc).
    cbn [Json.encode]. pose proof (scan_number_str_int n rest Hrest) as Hn.
    rewrite Hs in *. cbn [append] in *. now rewrite parse_value_number.
  - destruct fuel as [|f]; [cbn in Hfuel; lia |].
    cbn [Json.encode]. rewrite encode_string_append.
    cbn [Json.parse_value]. change (Ascii.eqb Json.quote Json.quote) with true.
    cbv iota. now rewrite scan_string_escape.
  - rewrite fuel_need_list in Hfuel.
    destruct fuel as [|f]; [lia|]. destruct l as [|x l]; [reflexivity|].
    rewrite encode_list_cons, !append_assoc. cbn [append].
    rewrite parse_value_list_eq, skip_ws_encode.
    destruct (encode_head x) as (c & s & Hs & Hc).
    pose proof (parse_items_encode l x [] f rest IHl Hwf) as H.
    rewrite Hs in *. cbn [append] in *.
    apply value_start_facts in Hc. destruct Hc as (_ & Hc & _).
    rewrite Hc. apply H; [lia | assumption].
  - rewrite fuel_need_dict in Hfuel. cbn [wf_pyval] in Hwf.
    apply andb_true_iff in Hwf. destruct Hwf as [Hnd Hwf].
    destruct fuel as [|f]; [lia|]. destruct d as [|[k x] d]; [reflexivity|].
    rewrite encode_dict_cons, !append_assoc, encode_string_append.
    cbn [append]. rewrite parse_value_dict_eq.
    change (Json.skip_ws (String Json.quote ?s)) with (String Json.quote s).
    cbn [Json.skip_ws]. change (Json.is_ws Json.quote) with false. cbv iota.
    change (Ascii.eqb Json.quote "}") with false.
    change (Ascii.eqb Json.quote Json.quote) with true. cbv iota.
    transitivity
      (Json.parse_members f
         (Json.escape_string k ++
          String Json.quote
            (": " ++ Json.encode x ++ encode_dict_tail d ++ rest)) []).
    { reflexivity. }
    rewrite (parse_members_encode d k x [] f rest IHd Hwf); [| lia | assumption].
    cbn [app]. now rewrite dict_of_pairs_nodup.
Qed.

Lemma fuel_need_le_length (v : pyval) :
  fuel_need v <= String.length (Json.encode v).
Proof.
  induction v as [ |b|n|s|l IHl|d IHd] using pyval_nested_ind.
  - cbn. lia.
  - destruct b; cbn; lia.
  - destruct (py_str_int_head n) as (c & s & Hs & _).
    cbn [Json.encode fuel_need]. rewrite Hs. cbn. lia.
  - cbn. lia.
  - rewrite fuel_need_list. destruct l as [|x l]; [cbn; lia|].
    rewrite encode_list_cons. inversion IHl as [|? ? Hx Hl]; subst.
    cbn [append String.length items_need]. rewrite length_append.
    enough (items_need l < String.length (encode_list_tail l)) by lia.
    clear Hx IHl. induction Hl as [|y l Hy Hl IH]; [cbn; lia|].
    cbn [items_need encode_list_tail append String.length].
    rewrite length_append. lia.
  - rewrite fuel_need_dict. destruct d as [|[k x] d]; [cbn; lia|].
    rewrite encode_dict_cons. inversion IHd as [|? ? Hx Hd]; subst.
    cbn [snd] in Hx.
    cbn [append String.length members_need snd].
    rewrite !length_append. cbn [append String.length].
    rewrite !length_append.
    enough (members_need d < String.length (encode_dict_tail d)) by lia.
    clear Hx IHd. induction Hd as [|[k' y] d Hy Hd IH]; [cbn; lia|].
    cbn [snd] in Hy.
    cbn [members_need encode_dict_tail append String.length snd].
    rewrite !length_append. cbn [append String.length].
    rewrite !length_append. lia.
Qed.

(** [json.loads(json.dumps(v)) == v], structurally, for every value. *)
Lemma loads_dumps (v : pyval) :
  wf_pyval v = true -> Json.loads (Json.dumps v) = Some v.
Proof.
  intros Hwf. unfold Json.loads, Json.dumps.
  pose proof (skip_ws_encode v "") as Hs. rewrite append_nil_r in Hs.
  rewrite Hs.
  pose proof (parse_value_encode v Hwf (S (String.length (Json.encode v))) "")
    as H.
  rewrite append_nil_r in H. rewrite H; [reflexivity | | reflexivity].
  pose proof (fuel_need_le_length v). lia.
Qed.

(* ================================================================== *)
(** ** Dictionary updates *)

Lemma dict_get_set_same {V} (d : list (string * V)) (k : string) (v : V) :
  dict_get (dict_set d k v) k = Some v.
Proof.
  induction d as [|[k' v'] d IH]; cbn [dict_set dict_get].
  - now rewrite String.eqb_refl.
  - destruct (String.eqb k k') eqn:E; cbn [dict_get]; rewrite E;
      [reflexivity | exact IH].
Qed.

Lemma dict_get_set_other {V} (d : list (string * V)) (k k' : string) (v : V) :
  k <> k' -> dict_get (dict_set d k v) k' = dict_get d k'.
Proof.
  intros Hne. induction d as [|[k0 v0] d IH]; cbn [dict_set dict_get].
  - destruct (String.eqb_spec k' k); [congruence | reflexivity].
  - destruct (String.eqb_spec k k0) as [E|NE]; cbn [dict_get].
    + subst k0. destruct (String.eqb_spec k' k); [congruence | reflexivity].
    + now rewrite IH.
Qed.

Lemma dict_set_same_value (d : dict) (k : string) (v : pyval) :
  dict_get d k = Some v -> dict_set d k v = d.
Proof.
  induction d as [|[k' v'] d IH]; cbn [dict_set dict_get]; [discriminate|].
  destruct (String.eqb k k') eqn:E; intros H.
  - congruence.
  - now rewrite IH.
Qed.

Lemma py_get_set_other (d : dict) (k k' : string) (v : pyval) :
  k <> k' -> py_get (dict_set d k v) k' = py_get d k'.
Proof.
  intros H. unfold py_get, dict_get_default. now rewrite dict_get_set_other.
Qed.

(* ================================================================== *)
(** ** Attribute compilation *)

Lemma compile_loop_step (k : string) (ks : list string) (properties : dict)
    (result : list (string * string)) :
  compile_attributes_loop (k :: ks) properties result =
  match attribute_text k (py_get properties k) with
  | Ok None => compile_attributes_loop ks properties result
  | Ok (Some text) =>
      compile_attributes_loop ks properties (dict_set result k text)
  | Raise e => Raise e
  end.
Proof.
  cbn [compile_attributes_loop]. now destruct (py_get properties k).
Qed.

(** The loop looks at the declared attributes only. *)
Lemma compile_loop_ext (ks : list string) (p q : dict)
    (result : list (string * string)) :
  (forall k, In k ks -> py_get p k = py_get q k) ->
  compile_attributes_loop ks p result = compile_attributes_loop ks q result.
Proof.
  revert result. induction ks as [|k ks IH]; intros result H; [reflexivity|].
  rewrite !compile_loop_step, (H k (or_introl eq_refl)).
  destruct (attribute_text k (py_get q k)) as [[text|]|e];
    [apply IH | apply IH | reflexivity];
    intros k' Hk'; apply H; now right.
Qed.

(** What the loop leaves in the dictionary, attribute by attribute. *)
Lemma compile_loop_ok (ks : list string) (properties : dict) :
  NoDup ks ->
  forall result out,
    (forall k, In k ks -> dict_get result k = None) ->
    compile_attributes_loop ks properties result = Ok out ->
    (forall k, In k ks ->
               attribute_text k (py_get properties k) = Ok (dict_get out k)) /\
    (forall k, ~ In k ks -> dict_get out k = dict_get result k).
Proof.
  induction 1 as [|k ks Hk Hnd IH]; intros result out Hfresh Hrun.
  - cbn in Hrun. injection Hrun as <-. split; [intros k [] | reflexivity].
  - rewrite compile_loop_step in Hrun.
    destruct (attribute_text k (py_get properties k)) as [[text|]|e] eqn:Ek;
      [| | discriminate].
    + assert (Hfresh' : forall k', In k' ks ->
                                   dict_get (dict_set result k text) k' = None).
      { intros k' Hk'. rewrite dict_get_set_other.
        - apply Hfresh. now right.
        - intros ->. contradiction. }
      destruct (IH _ _ Hfresh' Hrun) as [Hin Hout]. split.
      * intros k' [<-|Hk']; [|now apply Hin].
        rewrite (Hout k Hk), dict_get_set_same. exact Ek.
      * intros k' Hk'. rewrite Hout; [|intros ?; apply Hk'; now right].
        apply dict_get_set_other. intros ->. apply Hk'. now left.
    + assert (Hfresh' : forall k', In k' ks -> dict_get result k' = None).
      { intros k' Hk'. apply Hfresh. now right. }
      destruct (IH _ _ Hfresh' Hrun) as [Hin Hout]. split.
      * intros k' [<-|Hk']; [|now apply Hin].
        rewrite (Hout k Hk), (Hfresh k (or_introl eq_refl)). exact Ek.
      * intros k' Hk'. apply Hout. intros ?. apply Hk'. now right.
Qed.

(** The loop fails exactly at the first declared attribute that has no
    text. *)
Lemma compile_loop_raise (ks : list string) (properties : dict) :
  forall result e,
    compile_attributes_loop ks properties result = Raise e ->
    exists k, In k ks /\ attribute_text k (py_get properties k) = Raise e.
Proof.
  induction ks as [|k ks IH]; intros result e Hrun; [discriminate|].
  rewrite compile_loop_step in Hrun.
  destruct (attribute_text k (py_get properties k)) as [[text|]|e'] eqn:Ek.
  - destruct (IH _ _ Hrun) as (k' & Hin & Hk'). exists k'. split; [now right | exact Hk'].
  - destruct (IH _ _ Hrun) as (k' & Hin & Hk'). exists k'. split; [now right | exact Hk'].
  - exists k. split; [now left | congruence].
Qed.

Lemma queue_attribute_list_nodup : NoDup _queue_attribute_list.
Proof. apply nodupb_NoDup. reflexivity. Qed.

Lemma queue_name_not_attribute : ~ In "QueueName" _queue_attribute_list.
Proof.
  intros H. cbn in H. repeat (destruct H as [H|H]; [discriminate H|]).
  exact H.
Qed.

Lemma wf_dict_get (d : dict) (k : string) (v : pyval) :
  wf_dict d = true -> dict_get d k = Some v -> wf_pyval v = true.
Proof.
  unfold wf_dict. cbn [wf_pyval]. intros H. apply andb_true_iff in H.
  destruct H as [_ H]. induction d as [|[k' v'] d IH]; cbn [dict_get];
    [discriminate|].
  cbn [forallb snd] in H. apply andb_true_iff in H. destruct H as [Hv Hd].
  destruct (String.eqb k k'); [congruence | now apply IH].
Qed.

(** Subscripting raises [KeyError] or [TypeError], nothing else. *)
Lemma py_subscript_raises (v : pyval) (k : string) (e : exn) :
  py_subscript v k = Raise e ->
  match e with
  | KeyError _ | TypeError _ => True
  | _ => False
  end.
Proof.
  destruct v; cbn [py_subscript]; unfold getitem;
    try (intros H; injection H as <-; exact I).
  destruct (dict_get entries k); intros H; [discriminate|].
  injection H as <-. exact I.
Qed.

(* ================================================================== *)
(** ** Runs of the provider *)

Section Runs.

Context {Sqs : Type} {client : SqsClient Sqs}.
Variable generate_default_name : name_generator.

#[local] Abbreviation create := (SQSQueueProvider.create generate_default_name).
#[local] Abbreviation update := (SQSQueueProvider.update generate_default_name).
#[local] Abbreviation delete := SQSQueueProvider.delete.
#[local] Abbreviation bind := SQSQueueProvider.bind.
#[local] Abbreviation lift := SQSQueueProvider.lift.
#[local] Abbreviation ret := SQSQueueProvider.ret.
#[local] Abbreviation call := SQSQueueProvider.call.
#[local] Abbreviation M := (@SQSQueueProvider.M Sqs).

Lemma bind_ret {A B} (a : A) (k : A -> M B) (s : Sqs) :
  bind (ret a) k s = k a s.
Proof.
  unfold SQSQueueProvider.bind, SQSQueueProvider.ret.
  now destruct (k a s) as [[r s2] t2].
Qed.

Lemma bind_lift_ok {A B} (a : A) (k : A -> M B) (s : Sqs) :
  bind (lift (Ok a)) k s = k a s.
Proof.
  unfold SQSQueueProvider.bind, SQSQueueProvider.lift.
  now destruct (k a s) as [[r s2] t2].
Qed.

Lemma bind_lift_raise {A B} (e : exn) (k : A -> M B) (s : Sqs) :
  bind (lift (Raise e)) k s = (Raise e, s, []).
Proof. reflexivity. Qed.

Lemma bind_call_reply {B} (rq : sqs_request) (k : pyval -> M B) (s s1 : Sqs)
    (v : pyval) :
  sqs_call rq s = (Reply v, s1) ->
  bind (call rq) k s =
  let '(r, s2, t2) := k v s1 in (r, s2, (rq, Reply v) :: t2).
Proof.
  intros H. unfold SQSQueueProvider.bind, SQSQueueProvider.call.
  rewrite H. reflexivity.
Qed.

Lemma bind_call_fault {B} (rq : sqs_request) (k : pyval -> M B) (s s1 : Sqs)
    (e : service_error) :
  sqs_call rq s = (Fault e, s1) ->
  bind (call rq) k s = (Raise (ServiceError e), s1, [(rq, Fault e)]).
Proof.
  intros H. unfold SQSQueueProvider.bind, SQSQueueProvider.call.
  rewrite H. reflexivity.
Qed.

(** Naming the queue leaves its attributes and tags as they are. *)
Lemma compile_named_model (request : ResourceRequest) :
  _compile_sqs_queue_attributes (named_model generate_default_name request) =
  _compile_sqs_queue_attributes (desired_state request).
Proof.
  unfold _compile_sqs_queue_attributes, named_model.
  destruct (negb (py_truthy (py_get (desired_state request) "QueueName")));
    [|reflexivity].
  apply compile_loop_ext. intros k Hk. apply py_get_set_other.
  intros <-. now apply queue_name_not_attribute.
Qed.

Lemma compile_tags_named_model (request : ResourceRequest) :
  compile_tags (named_model generate_default_name request) =
  compile_tags (desired_state request).
Proof.
  unfold compile_tags, named_model, dict_get_default.
  destruct (negb (py_truthy (py_get (desired_state request) "QueueName")));
    [|reflexivity].
  rewrite dict_get_set_other; [reflexivity | discriminate].
Qed.

Lemma getitem_named_model (request : ResourceRequest) :
  getitem (named_model generate_default_name request) "QueueName" =
  Ok (create_queue_name generate_default_name request).
Proof.
  unfold getitem, named_model, create_queue_name.
  destruct (py_truthy (py_get (desired_state request) "QueueName")) eqn:E;
    cbn [negb].
  - unfold py_get, dict_get_default in *.
    destruct (dict_get (desired_state request) "QueueName");
      [reflexivity | discriminate].
  - now rewrite dict_get_set_same.
Qed.

(** The first statement of [create] changes nothing. *)
Lemma fifo_self_assignment (model : dict) (s : Sqs) {B} (k : dict -> M B) :
  bind (if py_truthy (dict_get_default model "FifoQueue" (PBool false))
        then bind (lift (getitem model "FifoQueue"))
               (fun v => ret (dict_set model "FifoQueue" v))
        else ret model) k s = k model s.
Proof.
  unfold dict_get_default, getitem.
  destruct (dict_get model "FifoQueue") as [v|] eqn:E.
  - destruct (py_truthy v); [|apply bind_ret].
    unfold SQSQueueProvider.bind at 1. rewrite bind_lift_ok.
    unfold SQSQueueProvider.ret at 1. rewrite (dict_set_same_value _ _ _ E).
    now destruct (k model s) as [[r s2] t2].
  - cbn [py_truthy]. apply bind_ret.
Qed.

(** [create], path by path. *)
Lemma create_run (request : ResourceRequest) (s : Sqs) :
  create request s =
  match _compile_sqs_queue_attributes (desired_state request) with
  | Raise e => (Raise e, s, [])
  | Ok attributes =>
      match compile_tags (desired_state request) with
      | Raise e => (Raise e, s, [])
      | Ok tags =>
          let rq1 :=
            CreateQueue (create_queue_name generate_default_name request)
                        (Some attributes) (Some tags) in
          match sqs_call rq1 s with
          | (Fault e, s1) => (Raise (ServiceError e), s1, [(rq1, Fault e)])
          | (Reply r1, s1) =>
              match py_subscript r1 "QueueUrl" with
              | Raise e => (Raise e, s1, [(rq1, Reply r1)])
              | Ok url =>
                  let rq2 := GetQueueAttributes url ["QueueArn"] in
                  match sqs_call rq2 s1 with
                  | (Fault e, s2) =>
                      (Raise (ServiceError e), s2,
                       [(rq1, Reply r1); (rq2, Fault e)])
                  | (Reply r2, s2) =>
                      match response_arn r2 with
                      | Raise e =>
                          (Raise e, s2, [(rq1, Reply r1); (rq2, Reply r2)])
                      | Ok arn =>
                          (Ok {| status := SUCCESS;
                                 resource_model :=
                                   Some (dict_set
                                           (dict_set
                                              (named_model
                                                 generate_default_name request)
                                              "QueueUrl" url)
                                           "Arn" arn);
                                 resource_models := None;
                                 event_custom_context :=
                                   Some (custom_context request) |},
                           s2, [(rq1, Reply r1); (rq2, Reply r2)])
                      end
                  end
              end
          end
      end
  end.
Proof.
  unfold SQSQueueProvider.create. rewrite fifo_self_assignment.
  change (if negb (py_truthy (py_get (desired_state request) "QueueName"))
          then dict_set (desired_state request) "QueueName"
                 (PStr (if py_truthy (py_get (desired_state request) "FifoQueue")
                        then py_slice_drop_last 5
                               (generate_default_name (stack_name request)
                                  (logical_resource_id request)) ++ ".fifo"
                        else generate_default_name (stack_name request)
                               (logical_resource_id request)))
          else desired_state request)
    with (named_model generate_default_name request).
  rewrite compile_named_model.
  destruct (_compile_sqs_queue_attributes (desired_state request))
    as [attributes|e]; [|reflexivity].
  rewrite bind_lift_ok, getitem_named_model, bind_lift_ok.
  rewrite compile_tags_named_model.
  destruct (compile_tags (desired_state request)) as [tags|e]; [|reflexivity].
  rewrite bind_lift_ok. cbv zeta.
  destruct (sqs_call (CreateQueue _ _ _) s) as [[r1|e] s1] eqn:E1;
    [|now rewrite (bind_call_fault _ _ _ _ _ E1)].
  rewrite (bind_call_reply _ _ _ _ _ E1).
  destruct (py_subscript r1 "QueueUrl") as [url|e]; [|reflexivity].
  rewrite bind_lift_ok.
  destruct (sqs_call (GetQueueAttributes _ _) s1) as [[r2|e] s2] eqn:E2;
    [|now rewrite (bind_call_fault _ _ _ _ _ E2)].
  rewrite (bind_call_reply _ _ _ _ _ E2). unfold response_arn.
  destruct (py_subscript r2 "Attributes") as [attrs|e]; [|reflexivity].
  rewrite bind_lift_ok.
  destruct (py_subscript attrs "QueueArn") as [arn|e]; reflexivity.
Qed.

Lemma try_except_run {A} (body handler : M A) (s : Sqs) :
  SQSQueueProvider.try_except_QueueDoesNotExist body handler s =
  match body s with
  | (Raise (ServiceError QueueDoesNotExist), s1, t1) =>
      let '(r, s2, t2) := handler s1 in (r, s2, (t1 ++ t2)%list)
  | other => other
  end.
Proof. reflexivity. Qed.

(** [delete], path by path. *)
Lemma delete_run (request : ResourceRequest) (s : Sqs) :
  delete request s =
  match py_subscript (state_value (previous_state request)) "QueueName" with
  | Raise e => (Raise e, s, [])
  | Ok name =>
      let rq1 := GetQueueUrl name in
      match sqs_call rq1 s with
      | (Fault e, s1) =>
          (match e with
           | QueueDoesNotExist => Ok (delete_done request)
           | ClientError _ => Raise (ServiceError e)
           end, s1, [(rq1, Fault e)])
      | (Reply r1, s1) =>
          match py_subscript r1 "QueueUrl" with
          | Raise e => (Raise e, s1, [(rq1, Reply r1)])
          | Ok url =>
              let rq2 := DeleteQueue url in
              match sqs_call rq2 s1 with
              | (Fault e, s2) =>
                  (match e with
                   | QueueDoesNotExist => Ok (delete_done request)
                   | ClientError _ => Raise (ServiceError e)
                   end, s2, [(rq1, Reply r1); (rq2, Fault e)])
              | (Reply r2, s2) =>
                  (Ok (delete_done request), s2,
                   [(rq1, Reply r1); (rq2, Reply r2)])
              end
          end
      end
  end.
Proof.
  unfold SQSQueueProvider.delete.
  unfold SQSQueueProvider.bind at 1. rewrite try_except_run.
  destruct (py_subscript (state_value (previous_state request)) "QueueName")
    as [name|e] eqn:E0;
    [|apply py_subscript_raises in E0; now destruct e].
  rewrite bind_lift_ok. cbv zeta.
  destruct (sqs_call (GetQueueUrl name) s) as [[r1|e] s1] eqn:E1.
  2:{ rewrite (bind_call_fault _ _ _ _ _ E1). now destruct e. }
  rewrite (bind_call_reply _ _ _ _ _ E1).
  destruct (py_subscript r1 "QueueUrl") as [url|e] eqn:Eu;
    [|apply py_subscript_raises in Eu; now destruct e].
  rewrite bind_lift_ok.
  destruct (sqs_call (DeleteQueue url) s1) as [[r2|e] s2] eqn:E2.
  2:{ rewrite (bind_call_fault _ _ _ _ _ E2). now destruct e. }
  rewrite (bind_call_reply _ _ _ _ _ E2). reflexivity.
Qed.

(** [update], path by path. *)
Lemma update_run (request : ResourceRequest) (s : Sqs) :
  update request s =
  match previous_state request with
  | None => (Raise AssertionError, s, [])
  | Some previous =>
      match should_replace (desired_state request) previous with
      | Raise e => (Raise e, s, [])
      | Ok false =>
          (Ok {| status := SUCCESS;
                 resource_model := Some previous;
                 resource_models := None;
                 event_custom_context := None |}, s, [])
      | Ok true =>
          match getitem previous "QueueUrl" with
          | Raise e => (Raise e, s, [])
          | Ok old_url =>
              let rq0 := DeleteQueue old_url in
              match sqs_call rq0 s with
              | (Fault e, s1) => (Raise (ServiceError e), s1, [(rq0, Fault e)])
              | (Reply r0, s1) =>
                  let rq1 :=
                    CreateQueue
                      (PStr (derived_queue_name generate_default_name
                               (stack_name request)
                               (logical_resource_id request)
                               (py_truthy
                                  (py_get (desired_state request) "FifoQueue"))))
                      None None in
                  match sqs_call rq1 s1 with
                  | (Fault e, s2) =>
                      (Raise (ServiceError e), s2,
                       [(rq0, Reply r0); (rq1, Fault e)])
                  | (Reply r1, s2) =>
                      match py_subscript r1 "QueueUrl" with
                      | Raise e =>
                          (Raise e, s2, [(rq0, Reply r0); (rq1, Reply r1)])
                      | Ok url =>
                          let rq2 := GetQueueAttributes url ["QueueArn"] in
                          match sqs_call rq2 s2 with
                          | (Fault e, s3) =>
                              (Raise (ServiceError e), s3,
                               [(rq0, Reply r0); (rq1, Reply r1);
                                (rq2, Fault e)])
                          | (Reply r2, s3) =>
                              match response_arn r2 with
                              | Raise e =>
                                  (Raise e, s3,
                                   [(rq0, Reply r0); (rq1, Reply r1);
                                    (rq2, Reply r2)])
                              | Ok arn =>
                                  (Ok {| status := SUCCESS;
                                         resource_model :=
                                           Some (dict_set
                                                   (dict_set
                                                      (desired_state request)
                                                      "QueueUrl" url)
                                                   "Arn" arn);
                                         resource_models := None;
                                         event_custom_context := None |},
                                   s3,
                                   [(rq0, Reply r0); (rq1, Reply r1);
                                    (rq2, Reply r2)])
                              end
                          end
                      end
                  end
              end
          end
      end
  end.
Proof.
  unfold SQSQueueProvider.update.
  destruct (previous_state request) as [previous|]; [|reflexivity].
  destruct (should_replace (desired_state request) previous) as [[|]|e];
    [| now rewrite bind_lift_ok | reflexivity].
  rewrite bind_lift_ok. cbn [negb].
  destruct (getitem previous "QueueUrl") as [old_url|e]; [|reflexivity].
  rewrite bind_lift_ok. cbv zeta.
  destruct (sqs_call (DeleteQueue old_url) s) as [[r0|e] s1] eqn:E0;
    [|now rewrite (bind_call_fault _ _ _ _ _ E0)].
  rewrite (bind_call_reply _ _ _ _ _ E0).
  change (if py_truthy (py_get (desired_state request) "FifoQueue")
          then py_slice_drop_last 5
                 (generate_default_name (stack_name request)
                    (logical_resource_id request)) ++ ".fifo"
          else generate_default_name (stack_name request)
                 (logical_resource_id request))
    with (derived_queue_name generate_default_name (stack_name request)
            (logical_resource_id request)
            (py_truthy (py_get (desired_state request) "FifoQueue"))).
  destruct (sqs_call (CreateQueue _ _ _) s1) as [[r1|e] s2] eqn:E1;
    [|now rewrite (bind_call_fault _ _ _ _ _ E1)].
  rewrite (bind_call_reply _ _ _ _ _ E1).
  destruct (py_subscript r1 "QueueUrl") as [url|e]; [|reflexivity].
  rewrite bind_lift_ok. unfold getitem at 1. rewrite dict_get_set_same.
  rewrite bind_lift_ok.
  destruct (sqs_call (GetQueueAttributes _ _) s2) as [[r2|e] s3] eqn:E2;
    [|now rewrite (bind_call_fault _ _ _ _ _ E2)].
  rewrite (bind_call_reply _ _ _ _ _ E2). unfold response_arn.
  destruct (py_subscript r2 "Attributes") as [attrs|e]; [|reflexivity].
  rewrite bind_lift_ok.
  destruct (py_subscript attrs "QueueArn") as [arn|e]; reflexivity.
Qed.

End Runs.

(* ================================================================== *)
(** ** What raises what *)

Lemma getitem_raises (d : dict) (k : string) (e : exn) :
  getitem d k = Raise e -> e = KeyError k.
Proof.
  unfold getitem. destruct (dict_get d k); intros H; [discriminate|].
  now injection H.
Qed.

Lemma should_replace_raises (desired previous : dict) (e : exn) :
  should_replace desired previous = Raise e -> e = KeyError "QueueName".
Proof.
  unfold should_replace.
  destruct (getitem previous "QueueName") eqn:E; intros H; [discriminate|].
  injection H as <-. now apply getitem_raises in E.
Qed.

Lemma response_arn_raises (r : pyval) (e : exn) :
  response_arn r = Raise e ->
  match e with
  | KeyError _ | TypeError _ => True
  | _ => False
  end.
Proof.
  unfold response_arn.
  destruct (py_subscript r "Attributes") as [attrs|e'] eqn:E; intros H.
  - now apply py_subscript_raises in H.
  - injection H as <-. now apply py_subscript_raises in E.
Qed.

Lemma attribute_text_raise (k : string) (v : pyval) (e : exn) :
  attribute_text k v = Raise e ->
  exists l, v = PList l /\
            e = TypeError ("cannot convert attribute " ++ k ++
                           ", unhandled type " ++ py_type_repr (PList l)).
Proof.
  destruct v as [|b|n|s|l|d]; intros H; try discriminate H.
  exists l. split; [reflexivity|].
  unfold attribute_text in H. congruence.
Qed.

(** A list under a declared attribute makes the compilation fail. *)
Lemma compile_unsupported (properties : dict) (k : string) (l : list pyval) :
  In k _queue_attribute_list ->
  py_get properties k = PList l ->
  exists k' l',
    In k' _queue_attribute_list /\
    py_get properties k' = PList l' /\
    _compile_sqs_queue_attributes properties =
    Raise (TypeError ("cannot convert attribute " ++ k' ++
                      ", unhandled type " ++ py_type_repr (PList l'))).
Proof.
  intros Hk Hv. unfold _compile_sqs_queue_attributes.
  destruct (compile_attributes_loop _queue_attribute_list properties [])
    as [result|e] eqn:Erun.
  - exfalso.
    destruct (compile_loop_ok _ _ queue_attribute_list_nodup
                [] result (fun _ _ => eq_refl) Erun) as [Hin _].
    specialize (Hin k Hk). rewrite Hv in Hin. discriminate Hin.
  - destruct (compile_loop_raise _ _ _ _ Erun) as (k' & Hk' & Hraise).
    destruct (attribute_text_raise _ _ _ Hraise) as (l' & Ev & He).
    exists k', l'. subst e. repeat split; assumption.
Qed.

Lemma should_replace_with_name (desired previous : dict) (name : pyval) :
  dict_get previous "QueueName" = Some name ->
  should_replace desired previous =
  Ok (py_ne (dict_get_default desired "QueueName" name) name
      || py_ne (dict_get_default desired "FifoQueue" (py_get previous "FifoQueue"))
               (py_get previous "FifoQueue")).
Proof.
  intros H. unfold should_replace, getitem. now rewrite H.
Qed.

Lemma in_attribute_list (k : string) :
  existsb (String.eqb k) _queue_attribute_list = true ->
  In k _queue_attribute_list.
Proof.
  intros H. apply existsb_exists in H. destruct H as (k' & Hin & E).
  apply String.eqb_eq in E. now subst k'.
Qed.

(* ================================================================== *)
(** ** The properties of the specification *)

Section Claims.

Context {Sqs : Type} {client : SqsClient Sqs}.
Variable generate_default_name : name_generator.

#[local] Abbreviation create := (SQSQueueProvider.create generate_default_name).
#[local] Abbreviation update := (SQSQueueProvider.update generate_default_name).
#[local] Abbreviation delete := SQSQueueProvider.delete.

(** C1 (amended).  For an update request whose previous state is present
    and has a [QueueName], [should_replace] has a value, and this value is
    true exactly when the desired [QueueName] (the previous one when the
    desired state has no such key) differs from the previous [QueueName], or
    the desired [FifoQueue] (the previous value when the desired state has no
    such key) differs from the previous [FifoQueue]; and [update] returns
    the previous state without calling the service exactly when the value is
    false. *)
Theorem should_replace_iff (request : ResourceRequest) (previous : dict)
    (previous_name : pyval) (s : Sqs) :
  previous_state request = Some previous ->
  dict_get previous "QueueName" = Some previous_name ->
  let desired := desired_state request in
  let previous_fifo := py_get previous "FifoQueue" in
  exists b : bool,
    should_replace desired previous = Ok b /\
    (b = true <->
     py_ne (dict_get_default desired "QueueName" previous_name) previous_name
       = true \/
     py_ne (dict_get_default desired "FifoQueue" previous_fifo) previous_fifo
       = true) /\
    (b = false <->
     update request s =
     (Ok {| status := SUCCESS;
            resource_model := Some previous;
            resource_models := None;
            event_custom_context := None |}, s, [])).
Proof.
  intros Hprev Hname desired previous_fifo.
  rewrite (should_replace_with_name _ _ _ Hname).
  eexists. split; [reflexivity|]. split; [apply orb_true_iff|].
  rewrite update_run, Hprev, (should_replace_with_name _ _ _ Hname).
  fold desired previous_fifo.
  destruct (py_ne (dict_get_default desired "QueueName" previous_name)
              previous_name
            || py_ne (dict_get_default desired "FifoQueue" previous_fifo)
                 previous_fifo).
  - split; [discriminate|]. intros H. exfalso.
    destruct (getitem previous "QueueUrl") as [old_url|e];
      [|discriminate H].
    cbv zeta in H.
    destruct (sqs_call (DeleteQueue old_url) s) as [[r0|e] s1]; [|discriminate H].
    destruct (sqs_call (CreateQueue _ _ _) s1) as [[r1|e] s2];
      [|discriminate H].
    destruct (py_subscript r1 "QueueUrl"); [|discriminate H].
    destruct (sqs_call (GetQueueAttributes _ _) s2) as [[r2|e] s3];
      [|discriminate H].
    destruct (response_arn r2); discriminate H.
  - split; reflexivity.
Qed.

(** C2 (amended).  When the previous state has a [QueueName] and the desired
    [QueueName] and [FifoQueue] (each defaulting to the previous value) equal
    the previous ones, [update] returns SUCCESS with the previous state as
    the resource model, makes no service call and leaves the service as it
    was. *)
Theorem update_without_replacement (request : ResourceRequest)
    (previous : dict) (previous_name : pyval) (s : Sqs) :
  previous_state request = Some previous ->
  dict_get previous "QueueName" = Some previous_name ->
  py_eq (dict_get_default (desired_state request) "QueueName" previous_name)
        previous_name = true ->
  py_eq (dict_get_default (desired_state request) "FifoQueue"
           (py_get previous "FifoQueue"))
        (py_get previous "FifoQueue") = true ->
  update request s =
  (Ok {| status := SUCCESS;
         resource_model := Some previous;
         resource_models := None;
         event_custom_context := None |}, s, []).
Proof.
  intros Hprev Hname Hsame_name Hsame_fifo.
  rewrite update_run, Hprev, (should_replace_with_name _ _ _ Hname).
  unfold py_ne. now rewrite Hsame_name, Hsame_fifo.
Qed.

(** C9.  Without a previous state [update] raises [AssertionError] before
    any service call; with a previous state it never raises
    [AssertionError]. *)
Theorem update_requires_previous_state (request : ResourceRequest) (s : Sqs) :
  (previous_state request = None ->
   update request s = (Raise AssertionError, s, [])) /\
  (forall previous,
     previous_state request = Some previous ->
     run_result (update request s) <> Raise AssertionError).
Proof.
  split.
  - intros H. now rewrite update_run, H.
  - intros previous H. rewrite update_run, H.
    destruct (should_replace (desired_state request) previous) as [[|]|e] eqn:E.
    + destruct (getitem previous "QueueUrl") as [old_url|e] eqn:E0.
      2:{ apply getitem_raises in E0. subst e. discriminate. }
      cbv zeta.
      destruct (sqs_call (DeleteQueue old_url) s) as [[r0|e] s1];
        [|discriminate].
      destruct (sqs_call (CreateQueue _ _ _) s1) as [[r1|e] s2];
        [|discriminate].
      destruct (py_subscript r1 "QueueUrl") as [url|e] eqn:E1.
      2:{ apply py_subscript_raises in E1. now destruct e. }
      destruct (sqs_call (GetQueueAttributes _ _) s2) as [[r2|e] s3];
        [|discriminate].
      destruct (response_arn r2) as [arn|e] eqn:E2; [discriminate|].
      apply response_arn_raises in E2. now destruct e.
    + discriminate.
    + apply should_replace_raises in E. subst e. discriminate.
Qed.


(** C4.  Attribute compilation fails only on a declared attribute that
    holds a list.  When it succeeds, the compiled map has, for each declared
    attribute: no entry when the value is [None] or absent; the string
    itself for a string; ["true"] or ["false"] for a boolean; the decimal
    text for an integer, which reads back as that integer; for a dictionary
    a JSON text that [json.loads] reads back as the same dictionary.  It has
    no other entry.  The integer 300 gives ["300"]. *)
Theorem compile_attributes_renders (properties : dict) :
  wf_dict properties = true ->
  match _compile_sqs_queue_attributes properties with
  | Ok result =>
      (forall k, In k _queue_attribute_list ->
         match py_get properties k with
         | PNone => dict_get result k = None
         | PStr s => dict_get result k = Some s
         | PBool b => dict_get result k = Some (if b then "true" else "false")
         | PInt n =>
             dict_get result k = Some (py_str_int n) /\
             Json.loads (py_str_int n) = Some (PInt n)
         | PDict d =>
             exists text,
               dict_get result k = Some text /\
               Json.loads text = Some (PDict d)
         | PList _ => False
         end) /\
      (forall k, ~ In k _queue_attribute_list -> dict_get result k = None)
  | Raise _ =>
      exists k l, In k _queue_attribute_list /\ py_get properties k = PList l
  end /\
  py_str_int 300 = "300".
Proof.
  intros Hwf. split; [|reflexivity].
  unfold _compile_sqs_queue_attributes.
  destruct (compile_attributes_loop _queue_attribute_list properties [])
    as [result|e] eqn:Erun.
  - destruct (compile_loop_ok _ properties queue_attribute_list_nodup
                [] result (fun _ _ => eq_refl) Erun) as [Hin Hout].
    split; [|exact Hout].
    intros k Hk. specialize (Hin k Hk).
    destruct (py_get properties k) as [|b|n|s0|l|d] eqn:Ev;
      cbn [attribute_text] in Hin.
    + now injection Hin.
    + injection Hin as <-. now destruct b.
    + injection Hin as <-. split; [reflexivity|].
      exact (loads_dumps (PInt n) eq_refl).
    + now injection Hin.
    + discriminate Hin.
    + exists (Json.dumps (PDict d)). split; [congruence|].
      apply loads_dumps. unfold py_get, dict_get_default in Ev.
      destruct (dict_get properties k) as [v|] eqn:Eg; [|discriminate Ev].
      subst v. exact (wf_dict_get _ _ _ Hwf Eg).
  - destruct (compile_loop_raise _ _ _ _ Erun) as (k & Hk & Hraise).
    exists k. destruct (py_get properties k) as [|b|n|s0|l|d];
      try discriminate Hraise.
    exists l. now split.
Qed.

(** C5.  When a declared attribute holds a list, attribute compilation
    raises [TypeError] for a declared attribute that holds a list (the
    first one in the order of the attribute list), and [create] raises the
    same error without calling the service. *)
Theorem unsupported_attribute_raises (request : ResourceRequest)
    (k : string) (l : list pyval) (s : Sqs) :
  In k _queue_attribute_list ->
  py_get (desired_state request) k = PList l ->
  exists k' l',
    In k' _queue_attribute_list /\
    py_get (desired_state request) k' = PList l' /\
    let error :=
      TypeError ("cannot convert attribute " ++ k' ++
                 ", unhandled type " ++ py_type_repr (PList l')) in
    _compile_sqs_queue_attributes (desired_state request) = Raise error /\
    create request s = (Raise error, s, []).
Proof.
  intros Hk Hv.
  destruct (compile_unsupported _ _ _ Hk Hv) as (k' & l' & Hk' & Ev & Hc).
  exists k', l'. split; [assumption|]. split; [assumption|]. cbv zeta.
  split; [exact Hc|]. rewrite create_run, Hc. reflexivity.
Qed.


(** C7.  For a delete request whose previous state names the queue:
    when resolving the URL fails with [QueueDoesNotExist], [delete] returns
    the SUCCESS event; hence a second [delete], for which the service
    reports the queue as missing, returns SUCCESS after a first one that
    returned; and a failure other than [QueueDoesNotExist], of the
    resolution or of the deletion, is raised to the caller. *)
Theorem delete_missing_queue_succeeds (request : ResourceRequest)
    (previous : dict) (name : pyval) :
  previous_state request = Some previous ->
  dict_get previous "QueueName" = Some name ->
  status (delete_done request) = SUCCESS /\
  (forall s s1,
     sqs_call (GetQueueUrl name) s = (Fault QueueDoesNotExist, s1) ->
     delete request s =
     (Ok (delete_done request), s1,
      [(GetQueueUrl name, Fault QueueDoesNotExist)])) /\
  (forall s event s1 t1 s2,
     delete request s = (Ok event, s1, t1) ->
     sqs_call (GetQueueUrl name) s1 = (Fault QueueDoesNotExist, s2) ->
     status event = SUCCESS /\
     exists event' t2,
       delete request s1 = (Ok event', s2, t2) /\ status event' = SUCCESS) /\
  (forall s e s1,
     e <> QueueDoesNotExist ->
     sqs_call (GetQueueUrl name) s = (Fault e, s1) ->
     delete request s =
     (Raise (ServiceError e), s1, [(GetQueueUrl name, Fault e)])) /\
  (forall s r1 s1 url e s2,
     e <> QueueDoesNotExist ->
     sqs_call (GetQueueUrl name) s = (Reply r1, s1) ->
     py_subscript r1 "QueueUrl" = Ok url ->
     sqs_call (DeleteQueue url) s1 = (Fault e, s2) ->
     delete request s =
     (Raise (ServiceError e), s2,
      [(GetQueueUrl name, Reply r1); (DeleteQueue url, Fault e)])).
Proof.
  intros Hprev Hname.
  assert (Hsub : py_subscript (state_value (previous_state request))
                   "QueueName" = Ok name).
  { rewrite Hprev. cbn [state_value py_subscript]. unfold getitem.
    now rewrite Hname. }
  assert (Hmissing : forall s s1,
             sqs_call (GetQueueUrl name) s = (Fault QueueDoesNotExist, s1) ->
             delete request s =
             (Ok (delete_done request), s1,
              [(GetQueueUrl name, Fault QueueDoesNotExist)])).
  { intros s s1 H. rewrite delete_run, Hsub. cbv zeta. now rewrite H. }
  split; [reflexivity|]. split; [exact Hmissing|]. split; [|split].
  - intros s event s1 t1 s2 Hfirst Hsecond. split.
    + rewrite delete_run, Hsub in Hfirst. cbv zeta in Hfirst.
      destruct (sqs_call (GetQueueUrl name) s) as [[r1|e] s1'].
      * destruct (py_subscript r1 "QueueUrl") as [url|e];
          [|discriminate Hfirst].
        destruct (sqs_call (DeleteQueue url) s1') as [[r2|e] s2'].
        -- now injection Hfirst as <- _ _.
        -- destruct e; [now injection Hfirst as <- _ _ | discriminate Hfirst].
      * destruct e; [now injection Hfirst as <- _ _ | discriminate Hfirst].
    + exists (delete_done request). eexists.
      split; [exact (Hmissing s1 s2 Hsecond) | reflexivity].
  - intros s e s1 He H. rewrite delete_run, Hsub. cbv zeta. rewrite H.
    destruct e; [congruence | reflexivity].
  - intros s r1 s1 url e s2 He H1 Hurl H2.
    rewrite delete_run, Hsub. cbv zeta. rewrite H1, Hurl, H2.
    destruct e; [congruence | reflexivity].
Qed.

(** C8.  For an update request that requires replacement and whose
    previous state has a [QueueUrl]: the first service call deletes the
    queue at that URL; and when the calls succeed, [update] then creates a
    queue under the derived name (the rule of [create]) with neither
    attributes nor tags, looks up the [QueueArn] of the URL that the
    creation returned, and returns SUCCESS with the desired state in which
    [QueueUrl] and [Arn] are set to the new values.  These three are its only
    calls, in this order. *)
Theorem update_replaces_queue (request : ResourceRequest) (previous : dict)
    (old_url : pyval) (s : Sqs) :
  previous_state request = Some previous ->
  should_replace (desired_state request) previous = Ok true ->
  dict_get previous "QueueUrl" = Some old_url ->
  let name :=
    derived_queue_name generate_default_name (stack_name request)
      (logical_resource_id request)
      (py_truthy (py_get (desired_state request) "FifoQueue")) in
  (exists rp rest,
     run_trace (update request s) = (DeleteQueue old_url, rp) :: rest) /\
  (forall r0 s1 r1 s2 new_url r2 s3 arn,
     sqs_call (DeleteQueue old_url) s = (Reply r0, s1) ->
     sqs_call (CreateQueue (PStr name) None None) s1 = (Reply r1, s2) ->
     py_subscript r1 "QueueUrl" = Ok new_url ->
     sqs_call (GetQueueAttributes new_url ["QueueArn"]) s2 = (Reply r2, s3) ->
     response_arn r2 = Ok arn ->
     let model :=
       dict_set (dict_set (desired_state request) "QueueUrl" new_url)
         "Arn" arn in
     update request s =
     (Ok {| status := SUCCESS;
            resource_model := Some model;
            resource_models := None;
            event_custom_context := None |},
      s3,
      [(DeleteQueue old_url, Reply r0);
       (CreateQueue (PStr name) None None, Reply r1);
       (GetQueueAttributes new_url ["QueueArn"], Reply r2)]) /\
     dict_get model "QueueUrl" = Some new_url /\
     dict_get model "Arn" = Some arn).
Proof.
  intros Hprev Hreplace Hold name.
  assert (Hget : getitem previous "QueueUrl" = Ok old_url).
  { unfold getitem. now rewrite Hold. }
  split.
  - rewrite update_run, Hprev, Hreplace, Hget. cbv zeta. fold name.
    destruct (sqs_call (DeleteQueue old_url) s) as [[r0|e] s1];
      [|eexists; eexists; reflexivity].
    destruct (sqs_call (CreateQueue _ _ _) s1) as [[r1|e] s2];
      [|eexists; eexists; reflexivity].
    destruct (py_subscript r1 "QueueUrl"); [|eexists; eexists; reflexivity].
    destruct (sqs_call (GetQueueAttributes _ _) s2) as [[r2|e] s3];
      [|eexists; eexists; reflexivity].
    destruct (response_arn r2); eexists; eexists; reflexivity.
  - intros r0 s1 r1 s2 new_url r2 s3 arn H0 H1 Hurl H2 Harn model.
    split; [|split].
    + rewrite update_run, Hprev, Hreplace, Hget. cbv zeta. fold name.
      now rewrite H0, H1, Hurl, H2, Harn.
    + unfold model. rewrite dict_get_set_other by discriminate.
      apply dict_get_set_same.
    + apply dict_get_set_same.
Qed.

(** C10.  Every [CreateQueue] call of [update] names the queue by the
    derived default name, which depends on the stack name, the logical
    resource id and the FIFO flag only: a [QueueName] in the desired state
    plays no part in it.  In a replacement whose deletion succeeds, the call
    is made. *)
Theorem update_ignores_desired_name (request : ResourceRequest)
    (previous : dict) (old_url r0 : pyval) (s s1 : Sqs) :
  previous_state request = Some previous ->
  should_replace (desired_state request) previous = Ok true ->
  dict_get previous "QueueUrl" = Some old_url ->
  sqs_call (DeleteQueue old_url) s = (Reply r0, s1) ->
  let name :=
    derived_queue_name generate_default_name (stack_name request)
      (logical_resource_id request)
      (py_truthy (py_get (desired_state request) "FifoQueue")) in
  (exists rp,
     In (CreateQueue (PStr name) None None, rp)
        (run_trace (update request s))) /\
  (forall request' s' n a t rp,
     stack_name request' = stack_name request ->
     logical_resource_id request' = logical_resource_id request ->
     py_truthy (py_get (desired_state request') "FifoQueue") =
     py_truthy (py_get (desired_state request) "FifoQueue") ->
     In (CreateQueue n a t, rp) (run_trace (update request' s')) ->
     n = PStr name /\ a = None /\ t = None).
Proof.
  intros Hprev Hreplace Hold Hdelete name.
  assert (Hget : getitem previous "QueueUrl" = Ok old_url).
  { unfold getitem. now rewrite Hold. }
  split.
  - rewrite update_run, Hprev, Hreplace, Hget. cbv zeta. fold name.
    rewrite Hdelete.
    destruct (sqs_call (CreateQueue _ _ _) s1) as [[r1|e] s2];
      [|eexists; right; left; reflexivity].
    destruct (py_subscript r1 "QueueUrl");
      [|eexists; right; left; reflexivity].
    destruct (sqs_call (GetQueueAttributes _ _) s2) as [[r2|e] s3];
      [|eexists; right; left; reflexivity].
    destruct (response_arn r2); eexists; right; left; reflexivity.
  - intros request' s' n a t rp Hstack Hid Hfifo Hin.
    unfold name. rewrite <- Hstack, <- Hid, <- Hfifo.
    rewrite update_run in Hin.
    destruct (previous_state request') as [previous'|]; [|destruct Hin].
    destruct (should_replace (desired_state request') previous')
      as [[|]|e]; [| destruct Hin | destruct Hin].
    destruct (getitem previous' "QueueUrl"); [|destruct Hin].
    cbv zeta in Hin.
    destruct (sqs_call (DeleteQueue _) s') as [[r0'|e] s1'];
      [|cbn [run_trace snd] in Hin; now trace_cases].
    destruct (sqs_call (CreateQueue _ _ _) s1') as [[r1|e] s2];
      [|cbn [run_trace snd] in Hin; now trace_cases].
    destruct (py_subscript r1 "QueueUrl");
      [|cbn [run_trace snd] in Hin; now trace_cases].
    destruct (sqs_call (GetQueueAttributes _ _) s2) as [[r2|e] s3];
      [|cbn [run_trace snd] in Hin; now trace_cases].
    destruct (response_arn r2); cbn [run_trace snd] in Hin; now trace_cases.
Qed.

End Claims.

(* ================================================================== *)
(** ** Further lemmas on values and dictionaries *)

Lemma dict_get_in_nodup {V} (d : list (string * V)) (k : string) (v : V) :
  NoDup (map fst d) -> In (k, v) d -> dict_get d k = Some v.
Proof.
  induction d as [|[k' v'] d IH]; intros Hnd Hin; [destruct Hin|].
  cbn [map fst] in Hnd. inversion Hnd as [|? ? Hk' Hnd']; subst.
  cbn [dict_get]. destruct Hin as [E|Hin].
  - injection E as -> ->. now rewrite String.eqb_refl.
  - destruct (String.eqb_spec k k') as [->|_]; [|now apply IH].
    exfalso. apply Hk'. change k' with (fst (k', v)). now apply in_map.
Qed.

(** [v == v] for every well-formed value. *)
Lemma py_eq_refl (v : pyval) : wf_pyval v = true -> py_eq v v = true.
Proof.
  induction v as [ |b|n|s|l IHl|d IHd] using pyval_nested_ind; intros Hwf.
  - reflexivity.
  - cbn. now destruct b.
  - cbn. apply Z.eqb_refl.
  - cbn. apply String.eqb_refl.
  - cbn [wf_pyval] in Hwf. cbn [py_eq].
    induction IHl as [|x l Hx _ IH]; [reflexivity|].
    cbn [forallb] in Hwf. apply andb_true_iff in Hwf. destruct Hwf as [Hwx Hwl].
    rewrite (Hx Hwx). now apply IH.
  - cbn [wf_pyval] in Hwf. apply andb_true_iff in Hwf.
    destruct Hwf as [Hnd Hwf]. apply nodupb_NoDup in Hnd.
    cbn [py_eq]. rewrite Nat.eqb_refl. cbn [andb].
    assert (Hgo : forall d' : dict,
               (forall kv, In kv d' -> In kv d) ->
               (fix go (d0 : dict) : bool :=
                  match d0 with
                  | [] => true
                  | (k, v) :: d'' =>
                      match dict_get d k with
                      | Some w => py_eq v w
                      | None => false
                      end && go d''
                  end) d' = true).
    { induction d' as [|[k v] d' IH]; intros Hsub; [reflexivity|].
      assert (Hin : In (k, v) d) by (apply Hsub; now left).
      rewrite (dict_get_in_nodup d k v Hnd Hin).
      rewrite Forall_forall in IHd. rewrite forallb_forall in Hwf.
      pose proof (IHd (k, v) Hin (Hwf (k, v) Hin)) as Hv. cbn [snd] in Hv.
      rewrite Hv. cbn [andb].
      apply IH. intros kv Hkv. apply Hsub. now right. }
    apply Hgo. auto.
Qed.

Lemma wf_py_get (d : dict) (k : string) :
  wf_dict d = true -> wf_pyval (py_get d k) = true.
Proof.
  intros Hwf. unfold py_get, dict_get_default.
  destruct (dict_get d k) as [v|] eqn:E; [|reflexivity].
  exact (wf_dict_get d k v Hwf E).
Qed.

(** The dictionary that [dict_of_pairs] builds holds, for each key, the
    value of its last pair. *)
Lemma dict_of_pairs_acc_get {V} (pairs acc : list (string * V)) (k : string) :
  dict_get (fold_left (fun a kv => dict_set a (fst kv) (snd kv)) pairs acc) k =
  match dict_get (rev pairs) k with
  | Some v => Some v
  | None => dict_get acc k
  end.
Proof.
  revert acc. induction pairs as [|[k' v'] pairs IH]; intros acc.
  - reflexivity.
  - cbn [fold_left fst snd rev]. rewrite IH.
    assert (Hrev : forall l : list (string * V),
               dict_get (l ++ [(k', v')])%list k =
               match dict_get l k with
               | Some v => Some v
               | None => if String.eqb k k' then Some v' else None
               end).
    { induction l as [|[k0 v0] l IHl]; cbn [app dict_get]; [reflexivity|].
      destruct (String.eqb k k0); [reflexivity | exact IHl]. }
    rewrite Hrev. destruct (dict_get (rev pairs) k); [reflexivity|].
    destruct (String.eqb_spec k k') as [->|NE].
    + apply dict_get_set_same.
    + apply dict_get_set_other. congruence.
Qed.

Lemma dict_of_pairs_get {V} (pairs : list (string * V)) (k : string) :
  dict_get (dict_of_pairs pairs) k = dict_get (rev pairs) k.
Proof.
  unfold dict_of_pairs. rewrite dict_of_pairs_acc_get.
  now destruct (dict_get (rev pairs) k).
Qed.

(** On string keys [anydict_set] is [dict_set]. *)
Lemma anydict_set_strings (d : list (string * pyval)) (k : string) (v : pyval) :
  anydict_set (map (fun kv => (PStr (fst kv), snd kv)) d) (PStr k) v =
  map (fun kv => (PStr (fst kv), snd kv)) (dict_set d k v).
Proof.
  induction d as [|[k' v'] d IH]; [reflexivity|].
  cbn [map anydict_set dict_set fst snd py_eq].
  destruct (String.eqb k k'); [reflexivity|].
  cbn [map fst snd]. now rewrite IH.
Qed.

Lemma tags_loop_strings (ts : list pyval) (kvs : list (string * pyval)) :
  Forall2 (fun t kv => py_subscript t "Key" = Ok (PStr (fst kv)) /\
                       py_subscript t "Value" = Ok (snd kv)) ts kvs ->
  forall acc : list (string * pyval),
    tags_loop ts (map (fun kv => (PStr (fst kv), snd kv)) acc) =
    Ok (map (fun kv => (PStr (fst kv), snd kv))
          (fold_left (fun a kv => dict_set a (fst kv) (snd kv)) kvs acc)).
Proof.
  induction 1 as [|t kv ts kvs [Hk Hv] _ IH]; intros acc; [reflexivity|].
  cbn [tags_loop fold_left]. rewrite Hk, Hv. cbn [py_hashable].
  rewrite anydict_set_strings. apply IH.
Qed.

Lemma filter_ext_in_keys (f g : string -> bool) (l : list string) :
  (forall k, In k l -> f k = g k) -> filter f l = filter g l.
Proof.
  induction l as [|k l IH]; intros H; [reflexivity|]. cbn [filter].
  rewrite (H k (or_introl eq_refl)), IH; [reflexivity|].
  intros k' Hk'. apply H. now right.
Qed.

(** The keys of the compiled map, in their order. *)
Lemma compile_loop_keys (ks : list string) (properties : dict) :
  forall result out,
    compile_attributes_loop ks properties result = Ok out ->
    (forall k, In k ks -> ~ In k (map fst result)) ->
    NoDup ks ->
    map fst out =
    (map fst result ++
     filter (fun k => negb (is_none (py_get properties k))) ks)%list.
Proof.
  induction ks as [|k ks IH]; intros result out Hrun Hfresh Hnd.
  - cbn in Hrun. injection Hrun as <-. cbn [filter]. now rewrite List.app_nil_r.
  - inversion Hnd as [|? ? Hk Hnd']; subst.
    rewrite compile_loop_step in Hrun. cbn [filter].
    assert (Hset : forall text,
               map fst (dict_set result k text) = (map fst result ++ [k])%list).
    { intros text. rewrite dict_set_fresh; [|apply Hfresh; now left].
      rewrite map_app. reflexivity. }
    assert (Hfresh' : forall text k', In k' ks ->
                        ~ In k' (map fst (dict_set result k text))).
    { intros text k' Hk'. rewrite Hset. intros Hin.
      apply in_app_or in Hin. destruct Hin as [Hin|[<-|[]]].
      - revert Hin. apply Hfresh. now right.
      - contradiction. }
    destruct (py_get properties k) as [|b|n|s0|l|d] eqn:Ev;
      cbn [attribute_text] in Hrun; cbn [is_none negb];
      try discriminate Hrun;
      try (rewrite (IH _ _ Hrun (Hfresh' _) Hnd'), Hset, <- List.app_assoc;
           reflexivity).
    apply (IH _ _ Hrun); [|assumption].
    intros k' Hk'. apply Hfresh. now right.
Qed.

Lemma compile_loop_keys_nil (ks : list string) (properties : dict)
    (out : list (string * string)) :
  compile_attributes_loop ks properties [] = Ok out ->
  NoDup ks ->
  map fst out = filter (fun k => negb (is_none (py_get properties k))) ks.
Proof.
  intros Hrun Hnd.
  rewrite (compile_loop_keys ks properties [] out Hrun (fun _ _ H => H) Hnd).
  reflexivity.
Qed.

Lemma dict_get_default_py_get (d : dict) (k : string) :
  dict_get_default d k (py_get d k) = py_get d k.
Proof.
  unfold py_get, dict_get_default. now destruct (dict_get d k).
Qed.

Lemma tags_loop_app (ts1 ts2 : list pyval) :
  forall acc,
    tags_loop (ts1 ++ ts2)%list acc =
    match tags_loop ts1 acc with
    | Ok acc' => tags_loop ts2 acc'
    | Raise e => Raise e
    end.
Proof.
  induction ts1 as [|t ts1 IH]; intros acc; [reflexivity|].
  cbn [app tags_loop].
  destruct (py_subscript t "Key") as [k|e]; [|reflexivity].
  destruct (py_subscript t "Value") as [v|e]; [|reflexivity].
  destruct (py_hashable k); [apply IH | reflexivity].
Qed.

Lemma named_model_other (generate_default_name : name_generator)
    (request : ResourceRequest) (k : string) :
  k <> "QueueName" ->
  dict_get (named_model generate_default_name request) k =
  dict_get (desired_state request) k.
Proof.
  intros Hk. unfold named_model.
  destruct (negb (py_truthy (py_get (desired_state request) "QueueName")));
    [|reflexivity].
  apply dict_get_set_other. congruence.
Qed.

Lemma named_model_name (generate_default_name : name_generator)
    (request : ResourceRequest) :
  dict_get (named_model generate_default_name request) "QueueName" =
  Some (create_queue_name generate_default_name request).
Proof.
  pose proof (getitem_named_model generate_default_name request) as H.
  unfold getitem in H.
  destruct (dict_get (named_model generate_default_name request) "QueueName");
    [congruence | discriminate H].
Qed.

Lemma not_in_attribute_list (k : string) :
  existsb (String.eqb k) _queue_attribute_list = false ->
  ~ In k _queue_attribute_list.
Proof.
  intros H Hin. assert (existsb (String.eqb k) _queue_attribute_list = true).
  { apply existsb_exists. exists k. split; [assumption|].
    apply String.eqb_refl. }
  congruence.
Qed.

(* ================================================================== *)
(** ** Further properties of the provider *)

(** X1.  The compiled map lists the declared attributes that have a value, in
    the order of the attribute list, each once. *)
Theorem compile_attributes_keys (properties : dict)
    (result : list (string * string)) :
  _compile_sqs_queue_attributes properties = Ok result ->
  map fst result =
  filter (fun k => negb (is_none (py_get properties k)))
    _queue_attribute_list /\
  NoDup (map fst result).
Proof.
  unfold _compile_sqs_queue_attributes. intros Hrun.
  pose proof (compile_loop_keys_nil _ _ _ Hrun queue_attribute_list_nodup)
    as Hkeys.
  split; [exact Hkeys|].
  rewrite Hkeys. apply NoDup_filter. exact queue_attribute_list_nodup.
Qed.

(** X2.  An entry under a key that is no declared attribute ([Tags],
    [QueueName], [QueueUrl], [Arn], anything else) has no effect on the
    compiled map. *)
Theorem compile_attributes_ignores_undeclared (properties : dict)
    (k : string) (v : pyval) :
  ~ In k _queue_attribute_list ->
  _compile_sqs_queue_attributes (dict_set properties k v) =
  _compile_sqs_queue_attributes properties.
Proof.
  intros Hk. unfold _compile_sqs_queue_attributes.
  apply compile_loop_ext. intros k' Hk'. apply py_get_set_other.
  intros <-. contradiction.
Qed.

Section Further.

Context {Sqs : Type} {client : SqsClient Sqs}.
Variable generate_default_name : name_generator.

#[local] Abbreviation create := (SQSQueueProvider.create generate_default_name).
#[local] Abbreviation update := (SQSQueueProvider.update generate_default_name).
#[local] Abbreviation delete := SQSQueueProvider.delete.
#[local] Abbreviation list_ := SQSQueueProvider.list_.

(** X3.  When [ListQueues] answers with a dictionary whose [QueueUrls] is a
    list, [list] returns SUCCESS with one model per URL, in the order of
    the URLs, each model holding the URL under [QueueUrl] and nothing
    else. *)
Theorem list_one_model_per_url (request : ResourceRequest) (s s1 : Sqs)
    (d : dict) (urls : list pyval) :
  sqs_call ListQueues s = (Reply (PDict d), s1) ->
  dict_get d "QueueUrls" = Some (PList urls) ->
  exists models,
    list_ request s =
    (Listed {| status := SUCCESS;
               resource_model := None;
               resource_models := Some models;
               event_custom_context := None |},
     s1, [(ListQueues, Reply (PDict d))]) /\
    List.length models = List.length urls /\
    forall i url,
      nth_error urls i = Some url ->
      nth_error models i = Some [("QueueUrl", url)].
Proof.
  intros Hcall Hurls. eexists. split; [|split].
  - unfold SQSQueueProvider.list_. rewrite Hcall.
    unfold dict_get_default. rewrite Hurls. cbn [py_iter]. reflexivity.
  - apply length_map.
  - intros i url Hi. rewrite nth_error_map, Hi. reflexivity.
Qed.

(** X4.  When the answer of [ListQueues] has no [QueueUrls] entry, as for an
    account without queues, [list] returns SUCCESS with an empty
    collection. *)
Theorem list_without_queue_urls (request : ResourceRequest) (s s1 : Sqs)
    (d : dict) :
  sqs_call ListQueues s = (Reply (PDict d), s1) ->
  dict_get d "QueueUrls" = None ->
  list_ request s =
  (Listed {| status := SUCCESS;
             resource_model := None;
             resource_models := Some [];
             event_custom_context := None |},
   s1, [(ListQueues, Reply (PDict d))]).
Proof.
  intros Hcall Hurls. unfold SQSQueueProvider.list_. rewrite Hcall.
  unfold dict_get_default. now rewrite Hurls.
Qed.

(** X5.  Every run of [list] makes one service call, [ListQueues], whatever the
    request; it returns an event only when the call is answered, and a
    failure of the call is raised. *)
Theorem list_single_call (request : ResourceRequest) (s : Sqs) :
  exists rp,
    snd (list_ request s) = [(ListQueues, rp)] /\
    snd (fst (list_ request s)) = snd (sqs_call ListQueues s) /\
    (forall event,
       fst (fst (list_ request s)) = Listed event ->
       exists d, rp = Reply (PDict d) /\ status event = SUCCESS) /\
    (forall e,
       rp = Fault e ->
       fst (fst (list_ request s)) = ListRaise (ServiceError e)).
Proof.
  unfold SQSQueueProvider.list_.
  destruct (sqs_call ListQueues s) as [rp s1]. exists rp.
  cbn [fst snd]. split; [reflexivity|]. split; [reflexivity|]. split.
  - intros event H. destruct rp as [resources|e]; [|discriminate H].
    destruct resources as [|b|n|s0|l|d]; try discriminate H.
    exists d. split; [reflexivity|].
    destruct (py_iter (dict_get_default d "QueueUrls" (PList [])));
      [|discriminate H].
    now injection H as <-.
  - intros e ->. reflexivity.
Qed.

(** X6.  [delete] without a previous state raises [TypeError], and with a
    previous state that has no [QueueName] raises [KeyError]; in both cases
    before any service call. *)
Theorem delete_needs_previous_name (request : ResourceRequest) (s : Sqs) :
  (previous_state request = None ->
   delete request s =
   (Raise (TypeError "'NoneType' object is not subscriptable"), s, [])) /\
  (forall previous,
     previous_state request = Some previous ->
     dict_get previous "QueueName" = None ->
     delete request s = (Raise (KeyError "QueueName"), s, [])).
Proof.
  split.
  - intros H. now rewrite delete_run, H.
  - intros previous H Hname. rewrite delete_run, H.
    cbn [state_value py_subscript]. unfold getitem. now rewrite Hname.
Qed.

(** X7.  When the queue vanishes between the resolution of its URL and its
    deletion, so that [DeleteQueue] fails with [QueueDoesNotExist],
    [delete] returns SUCCESS as well. *)
Theorem delete_vanished_queue_succeeds (request : ResourceRequest)
    (previous : dict) (name r1 url : pyval) (s s1 s2 : Sqs) :
  previous_state request = Some previous ->
  dict_get previous "QueueName" = Some name ->
  sqs_call (GetQueueUrl name) s = (Reply r1, s1) ->
  py_subscript r1 "QueueUrl" = Ok url ->
  sqs_call (DeleteQueue url) s1 = (Fault QueueDoesNotExist, s2) ->
  delete request s =
  (Ok (delete_done request), s2,
   [(GetQueueUrl name, Reply r1);
    (DeleteQueue url, Fault QueueDoesNotExist)]) /\
  status (delete_done request) = SUCCESS.
Proof.
  intros Hprev Hname H1 Hurl H2. split; [|reflexivity].
  rewrite delete_run, Hprev. cbn [state_value py_subscript]. unfold getitem.
  rewrite Hname. cbv zeta. now rewrite H1, Hurl, H2.
Qed.

(** X8.  Every run of [delete] that returns gives SUCCESS with the desired
    state, not the previous one, as the model.  It makes at most two
    calls; it deletes nothing but the URL that the resolution of the
    previous [QueueName] returned, and never the previous [QueueUrl] as
    such. *)
Theorem delete_calls_and_result (request : ResourceRequest) (s : Sqs) :
  (forall event,
     run_result (delete request s) = Ok event ->
     status event = SUCCESS /\
     resource_model event = Some (desired_state request)) /\
  List.length (run_trace (delete request s)) <= 2 /\
  (forall rq rp,
     In (rq, rp) (run_trace (delete request s)) ->
     (exists previous name,
        previous_state request = Some previous /\
        dict_get previous "QueueName" = Some name /\
        rq = GetQueueUrl name) \/
     (exists name r1 url,
        In (GetQueueUrl name, Reply r1) (run_trace (delete request s)) /\
        py_subscript r1 "QueueUrl" = Ok url /\
        rq = DeleteQueue url)).
Proof.
  rewrite delete_run.
  destruct (py_subscript (state_value (previous_state request)) "QueueName")
    as [name|e] eqn:E0.
  2:{ split; [intros event H; discriminate H|].
      split; [cbn; lia | intros rq rp []]. }
  assert (Hname : exists previous,
             previous_state request = Some previous /\
             dict_get previous "QueueName" = Some name).
  { destruct (previous_state request) as [previous|]; [|discriminate E0].
    exists previous. split; [reflexivity|].
    cbn [state_value py_subscript] in E0. unfold getitem in E0.
    destruct (dict_get previous "QueueName"); [congruence | discriminate E0]. }
  destruct Hname as (previous & Hprev & Hname). cbv zeta.
  destruct (sqs_call (GetQueueUrl name) s) as [[r1|e] s1].
  - destruct (py_subscript r1 "QueueUrl") as [url|e] eqn:Eu.
    + destruct (sqs_call (DeleteQueue url) s1) as [[r2|e] s2].
      * split; [intros event H; injection H as <-; now split|].
        split; [cbn; lia|]. intros rq rp Hin. cbn [run_trace snd] in *.
        destruct Hin as [H|[H|[]]]; injection H as <- <-.
        -- left. now exists previous, name.
        -- right. exists name, r1, url. split; [now left | now split].
      * split.
        { intros event H. destruct e; [|discriminate H].
          injection H as <-. now split. }
        split; [cbn; lia|]. intros rq rp Hin. cbn [run_trace snd] in *.
        destruct Hin as [H|[H|[]]]; injection H as <- <-.
        -- left. now exists previous, name.
        -- right. exists name, r1, url. split; [now left | now split].
    + split; [intros event H; discriminate H|].
      split; [cbn; lia|]. intros rq rp Hin. cbn [run_trace snd] in *.
      destruct Hin as [H|[]]; injection H as <- <-.
      left. now exists previous, name.
  - split.
    { intros event H. destruct e; [|discriminate H].
      injection H as <-. now split. }
    split; [cbn; lia|]. intros rq rp Hin. cbn [run_trace snd] in *.
    destruct Hin as [H|[]]; injection H as <- <-.
    left. now exists previous, name.
Qed.

(** A run of [create] that returns: its event, its two calls. *)
Lemma create_returns (request : ResourceRequest) (s : Sqs)
    (event : ProgressEvent) :
  run_result (create request s) = Ok event ->
  exists attributes tags r1 url r2 arn,
    event =
    {| status := SUCCESS;
       resource_model :=
         Some (dict_set
                 (dict_set (named_model generate_default_name request)
                    "QueueUrl" url) "Arn" arn);
       resource_models := None;
       event_custom_context := Some (custom_context request) |} /\
    run_trace (create request s) =
    [(CreateQueue (create_queue_name generate_default_name request)
        (Some attributes) (Some tags), Reply r1);
     (GetQueueAttributes url ["QueueArn"], Reply r2)] /\
    _compile_sqs_queue_attributes (desired_state request) = Ok attributes /\
    compile_tags (desired_state request) = Ok tags /\
    py_subscript r1 "QueueUrl" = Ok url /\
    response_arn r2 = Ok arn.
Proof.
  rewrite create_run.
  destruct (_compile_sqs_queue_attributes (desired_state request))
    as [attributes|e]; [|discriminate].
  destruct (compile_tags (desired_state request)) as [tags|e]; [|discriminate].
  cbv zeta.
  destruct (sqs_call (CreateQueue _ _ _) s) as [[r1|e] s1]; [|discriminate].
  destruct (py_subscript r1 "QueueUrl") as [url|e] eqn:Eu; [|discriminate].
  destruct (sqs_call (GetQueueAttributes _ _) s1) as [[r2|e] s2];
    [|discriminate].
  destruct (response_arn r2) as [arn|e] eqn:Ea; [|discriminate].
  intros H. injection H as <-.
  exists attributes, tags, r1, url, r2, arn. repeat split; assumption.
Qed.

(** A run of [update] that replaces the queue and returns. *)
Lemma update_returns_replaced (request : ResourceRequest) (previous : dict)
    (s : Sqs) (event : ProgressEvent) :
  previous_state request = Some previous ->
  should_replace (desired_state request) previous = Ok true ->
  run_result (update request s) = Ok event ->
  exists url arn,
    event =
    {| status := SUCCESS;
       resource_model :=
         Some (dict_set (dict_set (desired_state request) "QueueUrl" url)
                 "Arn" arn);
       resource_models := None;
       event_custom_context := None |}.
Proof.
  intros Hprev Hreplace. rewrite update_run, Hprev, Hreplace.
  destruct (getitem previous "QueueUrl") as [old_url|e]; [|discriminate].
  cbv zeta.
  destruct (sqs_call (DeleteQueue old_url) s) as [[r0|e] s1]; [|discriminate].
  destruct (sqs_call (CreateQueue _ _ _) s1) as [[r1|e] s2]; [|discriminate].
  destruct (py_subscript r1 "QueueUrl") as [url|e]; [|discriminate].
  destruct (sqs_call (GetQueueAttributes _ _) s2) as [[r2|e] s3];
    [|discriminate].
  destruct (response_arn r2) as [arn|e]; [|discriminate].
  intros H. injection H as <-. now exists url, arn.
Qed.

(** Once the attributes and the tags are compiled, the first thing [create]
    does is to call [CreateQueue] with them. *)
Lemma create_first_call (request : ResourceRequest) (s : Sqs)
    (attributes : list (string * string)) (tags : list (pyval * pyval)) :
  _compile_sqs_queue_attributes (desired_state request) = Ok attributes ->
  compile_tags (desired_state request) = Ok tags ->
  exists rp rest,
    run_trace (create request s) =
    (CreateQueue (create_queue_name generate_default_name request)
       (Some attributes) (Some tags), rp) :: rest.
Proof.
  intros Hattrs Htags. rewrite create_run, Hattrs, Htags. cbv zeta.
  destruct (sqs_call (CreateQueue _ _ _) s) as [[r1|e] s1];
    [|eexists; eexists; reflexivity].
  destruct (py_subscript r1 "QueueUrl"); [|eexists; eexists; reflexivity].
  destruct (sqs_call (GetQueueAttributes _ _) s1) as [[r2|e] s2];
    [|eexists; eexists; reflexivity].
  destruct (response_arn r2); eexists; eexists; reflexivity.
Qed.

(** The shape of the calls of a run of [create]. *)
Lemma create_trace_shape (request : ResourceRequest) (s : Sqs) :
  let name := create_queue_name generate_default_name request in
  run_trace (create request s) = [] \/
  (exists a t rp,
     run_trace (create request s) = [(CreateQueue name (Some a) (Some t), rp)])
  \/
  (exists a t r1 url rp,
     py_subscript r1 "QueueUrl" = Ok url /\
     run_trace (create request s) =
     [(CreateQueue name (Some a) (Some t), Reply r1);
      (GetQueueAttributes url ["QueueArn"], rp)]).
Proof.
  intros name. rewrite create_run.
  destruct (_compile_sqs_queue_attributes (desired_state request))
    as [attributes|e]; [|now left].
  destruct (compile_tags (desired_state request)) as [tags|e]; [|now left].
  cbv zeta. fold name. right.
  destruct (sqs_call (CreateQueue _ _ _) s) as [[r1|e] s1];
    [|left; now exists attributes, tags, (Fault e)].
  destruct (py_subscript r1 "QueueUrl") as [url|e] eqn:Eu;
    [|left; now exists attributes, tags, (Reply r1)].
  right.
  destruct (sqs_call (GetQueueAttributes _ _) s1) as [[r2|e] s2];
    [|now exists attributes, tags, r1, url, (Fault e)].
  destruct (response_arn r2);
    now exists attributes, tags, r1, url, (Reply r2).
Qed.

(** X9.  When the desired state names the queue, [create] creates it under
    that name as it is, for a FIFO queue too (no suffix is added): once the
    attributes and the tags are compiled its first call is [CreateQueue]
    under the given name, no [CreateQueue] call of the run uses another
    name, and the returned model keeps the name. *)
Theorem create_keeps_given_name (request : ResourceRequest) :
  py_truthy (py_get (desired_state request) "QueueName") = true ->
  (forall s attributes tags,
     _compile_sqs_queue_attributes (desired_state request) = Ok attributes ->
     compile_tags (desired_state request) = Ok tags ->
     exists rp rest,
       run_trace (create request s) =
       (CreateQueue (py_get (desired_state request) "QueueName")
          (Some attributes) (Some tags), rp) :: rest) /\
  (forall s n a t rp,
     In (CreateQueue n a t, rp) (run_trace (create request s)) ->
     n = py_get (desired_state request) "QueueName") /\
  (forall s event,
     run_result (create request s) = Ok event ->
     exists model,
       resource_model event = Some model /\
       dict_get model "QueueName" =
       Some (py_get (desired_state request) "QueueName")).
Proof.
  intros Hname.
  assert (Hcn : create_queue_name generate_default_name request =
                py_get (desired_state request) "QueueName").
  { unfold create_queue_name. now rewrite Hname. }
  split; [|split].
  - intros s attributes tags Hattrs Htags. rewrite <- Hcn.
    now apply create_first_call.
  - intros s n a t rp Hin. rewrite create_run in Hin. rewrite Hcn in Hin.
    destruct (_compile_sqs_queue_attributes (desired_state request));
      [|destruct Hin].
    destruct (compile_tags (desired_state request)); [|destruct Hin].
    cbv zeta in Hin.
    destruct (sqs_call (CreateQueue _ _ _) s) as [[r1|e] s1];
      [|cbn [run_trace snd] in Hin; now trace_cases].
    destruct (py_subscript r1 "QueueUrl");
      [|cbn [run_trace snd] in Hin; now trace_cases].
    destruct (sqs_call (GetQueueAttributes _ _) s1) as [[r2|e] s2];
      [|cbn [run_trace snd] in Hin; now trace_cases].
    destruct (response_arn r2); cbn [run_trace snd] in Hin; now trace_cases.
  - intros s event Hrun.
    destruct (create_returns request s event Hrun)
      as (attributes & tags & r1 & url & r2 & arn & -> & _).
    eexists. split; [reflexivity|].
    rewrite !dict_get_set_other by discriminate.
    now rewrite named_model_name, Hcn.
Qed.

(** X10.  The model that [create] returns is the desired state with [QueueName]
    set to the name the queue was created under, [QueueUrl] set to the URL
    that [CreateQueue] answered and [Arn] set to the [QueueArn] that the
    lookup of this URL answered: every other entry is as the request gave
    it; the event is a SUCCESS and carries the context of the request. *)
Theorem create_model_frame (request : ResourceRequest) (s : Sqs)
    (event : ProgressEvent) :
  run_result (create request s) = Ok event ->
  status event = SUCCESS /\
  event_custom_context event = Some (custom_context request) /\
  exists model a t r1 url r2 arn,
    resource_model event = Some model /\
    run_trace (create request s) =
    [(CreateQueue (create_queue_name generate_default_name request) a t,
      Reply r1);
     (GetQueueAttributes url ["QueueArn"], Reply r2)] /\
    py_subscript r1 "QueueUrl" = Ok url /\
    response_arn r2 = Ok arn /\
    dict_get model "QueueName" =
    Some (create_queue_name generate_default_name request) /\
    dict_get model "QueueUrl" = Some url /\
    dict_get model "Arn" = Some arn /\
    forall k,
      k <> "QueueName" -> k <> "QueueUrl" -> k <> "Arn" ->
      dict_get model k = dict_get (desired_state request) k.
Proof.
  intros Hrun.
  destruct (create_returns request s event Hrun)
    as (attributes & tags & r1 & url & r2 & arn & -> & Htrace & _ & _ &
        Hurl & Harn).
  split; [reflexivity|]. split; [reflexivity|].
  eexists. exists (Some attributes), (Some tags), r1, url, r2, arn.
  split; [reflexivity|]. split; [exact Htrace|]. split; [exact Hurl|].
  split; [exact Harn|]. split; [|split; [|split]].
  - rewrite !dict_get_set_other by discriminate. apply named_model_name.
  - rewrite dict_get_set_other by discriminate. apply dict_get_set_same.
  - apply dict_get_set_same.
  - intros k Hk1 Hk2 Hk3. rewrite !dict_get_set_other by congruence.
    now apply named_model_other.
Qed.

(** X11.  Every run of [create] makes at most two calls, in this order:
    [CreateQueue] under the name of the model, then, once that call has
    answered a [QueueUrl], [GetQueueAttributes] of this URL for [QueueArn];
    it never deletes or lists.  It returns only when both calls were made
    and answered, and then with SUCCESS. *)
Theorem create_calls (request : ResourceRequest) (s : Sqs) :
  let name := create_queue_name generate_default_name request in
  List.length (run_trace (create request s)) <= 2 /\
  (forall rq rp,
     In (rq, rp) (run_trace (create request s)) ->
     (exists a t, rq = CreateQueue name a t) \/
     (exists u, rq = GetQueueAttributes u ["QueueArn"])) /\
  (run_trace (create request s) = [] \/
   (exists a t rp,
      run_trace (create request s) =
      [(CreateQueue name (Some a) (Some t), rp)]) \/
   (exists a t r1 url rp,
      py_subscript r1 "QueueUrl" = Ok url /\
      run_trace (create request s) =
      [(CreateQueue name (Some a) (Some t), Reply r1);
       (GetQueueAttributes url ["QueueArn"], rp)])) /\
  (forall event,
     run_result (create request s) = Ok event ->
     status event = SUCCESS /\
     List.length (run_trace (create request s)) = 2 /\
     (forall rq rp,
        In (rq, rp) (run_trace (create request s)) -> exists r, rp = Reply r) /\
     exists a t r1 url r2,
       py_subscript r1 "QueueUrl" = Ok url /\
       run_trace (create request s) =
       [(CreateQueue name (Some a) (Some t), Reply r1);
        (GetQueueAttributes url ["QueueArn"], Reply r2)]).
Proof.
  intros name. split; [|split; [|split]].
  - destruct (create_trace_shape request s)
      as [H|[(a & t & rp & H)|(a & t & r1 & url & rp & _ & H)]];
      rewrite H; cbn; lia.
  - intros rq rp Hin.
    destruct (create_trace_shape request s)
      as [H|[(a & t & rp0 & H)|(a & t & r1 & url & rp0 & _ & H)]];
      rewrite H in Hin; trace_cases;
      first [solve [left; eauto] | solve [right; eauto]].
  - exact (create_trace_shape request s).
  - intros event Hrun.
    destruct (create_returns request s event Hrun)
      as (attributes & tags & r1 & url & r2 & arn & -> & Htrace & _ & _ &
          Hurl & _).
    split; [reflexivity|]. rewrite Htrace. split; [reflexivity|]. split.
    + intros rq rp Hin. trace_cases; eauto.
    + now exists attributes, tags, r1, url, r2.
Qed.

(** X12.  [create] does not undo a creation: when [CreateQueue] succeeds and the
    lookup of the ARN fails, the failure is raised and the trace ends with
    the failed lookup, the created queue being left in place. *)
Theorem create_without_rollback (request : ResourceRequest) (s s1 s2 : Sqs)
    (attributes : list (string * string)) (tags : list (pyval * pyval))
    (r1 url : pyval) (e : service_error) :
  _compile_sqs_queue_attributes (desired_state request) = Ok attributes ->
  compile_tags (desired_state request) = Ok tags ->
  sqs_call (CreateQueue (create_queue_name generate_default_name request)
              (Some attributes) (Some tags)) s = (Reply r1, s1) ->
  py_subscript r1 "QueueUrl" = Ok url ->
  sqs_call (GetQueueAttributes url ["QueueArn"]) s1 = (Fault e, s2) ->
  create request s =
  (Raise (ServiceError e), s2,
   [(CreateQueue (create_queue_name generate_default_name request)
       (Some attributes) (Some tags), Reply r1);
    (GetQueueAttributes url ["QueueArn"], Fault e)]).
Proof.
  intros Hattrs Htags H1 Hurl H2.
  rewrite create_run, Hattrs, Htags. cbv zeta. now rewrite H1, Hurl, H2.
Qed.

(** X13.  A [Tags] entry that is [None], or a tag without [Value] after any
    number of well-formed tags, makes [create] raise before it calls the
    service. *)
Theorem create_rejects_malformed_tags (request : ResourceRequest) (s : Sqs)
    (attributes : list (string * string)) :
  _compile_sqs_queue_attributes (desired_state request) = Ok attributes ->
  (dict_get (desired_state request) "Tags" = Some PNone ->
   create request s =
   (Raise (TypeError "'NoneType' object is not iterable"), s, [])) /\
  (forall good kvs t key rest,
     Forall2 (fun t kv => py_subscript t "Key" = Ok (PStr (fst kv)) /\
                          py_subscript t "Value" = Ok (snd kv)) good kvs ->
     dict_get t "Key" = Some key ->
     dict_get t "Value" = None ->
     dict_get (desired_state request) "Tags" =
     Some (PList (good ++ PDict t :: rest)%list) ->
     create request s = (Raise (KeyError "Value"), s, [])).
Proof.
  intros Hattrs. split.
  - intros Htags. rewrite create_run, Hattrs. unfold compile_tags.
    unfold dict_get_default. now rewrite Htags.
  - intros good kvs t key rest Hgood Hkey Hvalue Htags.
    rewrite create_run, Hattrs. unfold compile_tags, dict_get_default.
    rewrite Htags. cbn [py_iter]. rewrite tags_loop_app.
    change (@nil (pyval * pyval))
      with (map (fun kv : string * pyval => (PStr (fst kv), snd kv)) []).
    rewrite (tags_loop_strings good kvs Hgood).
    cbn [tags_loop py_subscript]. unfold getitem. now rewrite Hkey, Hvalue.
Qed.

(** X14.  For well-formed tags [create] passes a dictionary of tags in which each
    key appears once, at the place of its first tag and with the value of
    its last tag; without a [Tags] entry it passes an empty dictionary.
    Once the attributes are compiled the first call of the run is the
    [CreateQueue] call that carries this dictionary, and no [CreateQueue]
    call of the run carries another. *)
Theorem create_tags_last_wins (request : ResourceRequest) :
  (forall ts kvs,
     Forall2 (fun t kv => py_subscript t "Key" = Ok (PStr (fst kv)) /\
                          py_subscript t "Value" = Ok (snd kv)) ts kvs ->
     dict_get (desired_state request) "Tags" = Some (PList ts) ->
     let tags := dict_of_pairs kvs in
     (forall s attributes,
        _compile_sqs_queue_attributes (desired_state request) =
        Ok attributes ->
        exists rp rest,
          run_trace (create request s) =
          (CreateQueue (create_queue_name generate_default_name request)
             (Some attributes)
             (Some (map (fun kv => (PStr (fst kv), snd kv)) tags)), rp)
          :: rest) /\
     (forall s n a t rp,
        In (CreateQueue n a t, rp) (run_trace (create request s)) ->
        t = Some (map (fun kv => (PStr (fst kv), snd kv)) tags)) /\
     (forall k, dict_get tags k = dict_get (rev kvs) k)) /\
  (dict_get (desired_state request) "Tags" = None ->
   (forall s attributes,
      _compile_sqs_queue_attributes (desired_state request) = Ok attributes ->
      exists rp rest,
        run_trace (create request s) =
        (CreateQueue (create_queue_name generate_default_name request)
           (Some attributes) (Some []), rp) :: rest) /\
   (forall s n a t rp,
      In (CreateQueue n a t, rp) (run_trace (create request s)) ->
      t = Some [])).
Proof.
  assert (Hcalls : forall tags,
             compile_tags (desired_state request) = Ok tags ->
             forall s n a t rp,
               In (CreateQueue n a t, rp) (run_trace (create request s)) ->
               t = Some tags).
  { intros tags Htags s n a t rp Hin. rewrite create_run, Htags in Hin.
    destruct (_compile_sqs_queue_attributes (desired_state request));
      [|destruct Hin].
    cbv zeta in Hin.
    destruct (sqs_call (CreateQueue _ _ _) s) as [[r1|e] s1];
      [|cbn [run_trace snd] in Hin; now trace_cases].
    destruct (py_subscript r1 "QueueUrl");
      [|cbn [run_trace snd] in Hin; now trace_cases].
    destruct (sqs_call (GetQueueAttributes _ _) s1) as [[r2|e] s2];
      [|cbn [run_trace snd] in Hin; now trace_cases].
    destruct (response_arn r2); cbn [run_trace snd] in Hin; now trace_cases. }
  split.
  - intros ts kvs Hts Htags tags.
    assert (Hc : compile_tags (desired_state request) =
                 Ok (map (fun kv : string * pyval => (PStr (fst kv), snd kv))
                       tags)).
    { unfold compile_tags, dict_get_default. rewrite Htags. cbn [py_iter].
      change (@nil (pyval * pyval))
        with (map (fun kv : string * pyval => (PStr (fst kv), snd kv)) []).
      exact (tags_loop_strings ts kvs Hts []). }
    split; [|split; [|apply dict_of_pairs_get]].
    + intros s attributes Hattrs. now apply create_first_call.
    + now apply Hcalls.
  - intros Htags.
    assert (Hc : compile_tags (desired_state request) = Ok []).
    { unfold compile_tags, dict_get_default. now rewrite Htags. }
    split.
    + intros s attributes Hattrs. now apply create_first_call.
    + now apply Hcalls.
Qed.

(** X15.  [update] does not undo a deletion: when the old queue is deleted and
    the creation of the new one fails, the failure is raised and the trace
    ends with the failed creation, nothing being created or restored
    afterwards. *)
Theorem update_without_rollback (request : ResourceRequest) (previous : dict)
    (old_url r0 : pyval) (s s1 s2 : Sqs) (e : service_error) :
  previous_state request = Some previous ->
  should_replace (desired_state request) previous = Ok true ->
  dict_get previous "QueueUrl" = Some old_url ->
  sqs_call (DeleteQueue old_url) s = (Reply r0, s1) ->
  let name :=
    derived_queue_name generate_default_name (stack_name request)
      (logical_resource_id request)
      (py_truthy (py_get (desired_state request) "FifoQueue")) in
  sqs_call (CreateQueue (PStr name) None None) s1 = (Fault e, s2) ->
  update request s =
  (Raise (ServiceError e), s2,
   [(DeleteQueue old_url, Reply r0);
    (CreateQueue (PStr name) None None, Fault e)]).
Proof.
  intros Hprev Hreplace Hold H0 name H1.
  rewrite update_run, Hprev, Hreplace. unfold getitem. rewrite Hold.
  cbv zeta. fold name. now rewrite H0, H1.
Qed.

(** X16.  [update] calls the service only in a replacement, at most three times,
    and deletes nothing but the queue at the [QueueUrl] of the previous
    state; it never resolves a name and never lists. *)
Theorem update_calls (request : ResourceRequest) (s : Sqs) :
  List.length (run_trace (update request s)) <= 3 /\
  forall rq rp,
    In (rq, rp) (run_trace (update request s)) ->
    exists previous old_url,
      previous_state request = Some previous /\
      should_replace (desired_state request) previous = Ok true /\
      dict_get previous "QueueUrl" = Some old_url /\
      (rq = DeleteQueue old_url \/
       (exists n, rq = CreateQueue n None None) \/
       (exists u, rq = GetQueueAttributes u ["QueueArn"])).
Proof.
  split.
  - rewrite update_run.
    destruct (previous_state request) as [previous|]; [|cbn; lia].
    destruct (should_replace (desired_state request) previous) as [[|]|e];
      [| cbn; lia | cbn; lia].
    destruct (getitem previous "QueueUrl") as [old_url|e]; [|cbn; lia].
    cbv zeta.
    destruct (sqs_call (DeleteQueue old_url) s) as [[r0|e] s1]; [|cbn; lia].
    destruct (sqs_call (CreateQueue _ _ _) s1) as [[r1|e] s2]; [|cbn; lia].
    destruct (py_subscript r1 "QueueUrl") as [url|e]; [|cbn; lia].
    destruct (sqs_call (GetQueueAttributes _ _) s2) as [[r2|e] s3];
      [|cbn; lia].
    destruct (response_arn r2); cbn; lia.
  - intros rq rp Hin. rewrite update_run in Hin.
    destruct (previous_state request) as [previous|]; [|destruct Hin].
    destruct (should_replace (desired_state request) previous)
      as [[|]|e] eqn:Hreplace; [| destruct Hin | destruct Hin].
    destruct (getitem previous "QueueUrl") as [old_url|e] eqn:Eold;
      [|destruct Hin].
    assert (Hold : dict_get previous "QueueUrl" = Some old_url).
    { unfold getitem in Eold.
      destruct (dict_get previous "QueueUrl");
        [congruence | discriminate Eold]. }
    exists previous, old_url. split; [reflexivity|]. split; [exact Hreplace|].
    split; [exact Hold|]. cbv zeta in Hin.
    destruct (sqs_call (DeleteQueue old_url) s) as [[r0|e] s1];
      [|cbn [run_trace snd] in Hin; trace_cases; now left].
    destruct (sqs_call (CreateQueue _ _ _) s1) as [[r1|e] s2];
      [|cbn [run_trace snd] in Hin; trace_cases;
        first [solve [now left] | solve [right; left; eauto]]].
    destruct (py_subscript r1 "QueueUrl") as [url|e];
      [|cbn [run_trace snd] in Hin; trace_cases;
        first [solve [now left] | solve [right; left; eauto]]].
    destruct (sqs_call (GetQueueAttributes _ _) s2) as [[r2|e] s3];
      [|cbn [run_trace snd] in Hin; trace_cases;
        first [solve [now left] | solve [right; left; eauto]
              | solve [right; right; eauto]]].
    destruct (response_arn r2); cbn [run_trace snd] in Hin; trace_cases;
      first [solve [now left] | solve [right; left; eauto]
            | solve [right; right; eauto]].
Qed.

(** X17.  A replacement needs the [QueueUrl] of the previous state: without it
    [update] raises [KeyError] before any service call. *)
Theorem update_needs_previous_url (request : ResourceRequest)
    (previous : dict) (s : Sqs) :
  previous_state request = Some previous ->
  should_replace (desired_state request) previous = Ok true ->
  dict_get previous "QueueUrl" = None ->
  update request s = (Raise (KeyError "QueueUrl"), s, []).
Proof.
  intros Hprev Hreplace Hold.
  rewrite update_run, Hprev, Hreplace. unfold getitem. now rewrite Hold.
Qed.

(** X18.  The model that a replacing [update] returns has the [QueueName] of the
    desired state, not the name the new queue was created under.  When the
    desired state has no [QueueName], the model has none either, and
    every later [update] that has this model as its previous state raises
    [KeyError] before any service call. *)
Theorem update_replacement_forgets_name (request : ResourceRequest)
    (previous : dict) (s : Sqs) (event : ProgressEvent) :
  previous_state request = Some previous ->
  should_replace (desired_state request) previous = Ok true ->
  run_result (update request s) = Ok event ->
  exists model,
    resource_model event = Some model /\
    dict_get model "QueueName" = dict_get (desired_state request) "QueueName" /\
    (dict_get (desired_state request) "QueueName" = None ->
     forall request' s',
       previous_state request' = Some model ->
       update request' s' = (Raise (KeyError "QueueName"), s', [])).
Proof.
  intros Hprev Hreplace Hrun.
  destruct (update_returns_replaced request previous s event
              Hprev Hreplace Hrun) as (url & arn & ->).
  eexists. split; [reflexivity|].
  assert (Hname : dict_get
                    (dict_set (dict_set (desired_state request) "QueueUrl" url)
                       "Arn" arn) "QueueName" =
                  dict_get (desired_state request) "QueueName").
  { now rewrite !dict_get_set_other by discriminate. }
  split; [exact Hname|].
  intros Hnone request' s' Hprev'.
  rewrite update_run, Hprev'. unfold should_replace, getitem.
  now rewrite Hname, Hnone.
Qed.

(** X19.  After a replacing [update] whose desired state names the queue,
    [delete] looks the queue up under that desired name, whereas the new
    queue was created under the derived default name.  When the service
    knows no queue of the desired name, [delete] returns SUCCESS without
    a [DeleteQueue] call. *)
Theorem delete_after_renaming_update (request : ResourceRequest)
    (previous : dict) (s : Sqs) (event : ProgressEvent) (name : pyval) :
  previous_state request = Some previous ->
  should_replace (desired_state request) previous = Ok true ->
  dict_get (desired_state request) "QueueName" = Some name ->
  run_result (update request s) = Ok event ->
  exists model,
    resource_model event = Some model /\
    forall request' s',
      previous_state request' = Some model ->
      exists rp rest,
        run_trace (delete request' s') = (GetQueueUrl name, rp) :: rest /\
        (rp = Fault QueueDoesNotExist ->
         run_result (delete request' s') = Ok (delete_done request') /\
         rest = []).
Proof.
  intros Hprev Hreplace Hname Hrun.
  destruct (update_returns_replaced request previous s event
              Hprev Hreplace Hrun) as (url & arn & ->).
  eexists. split; [reflexivity|].
  intros request' s' Hprev'. rewrite delete_run, Hprev'.
  cbn [state_value py_subscript]. unfold getitem.
  rewrite !dict_get_set_other by discriminate. rewrite Hname. cbv zeta.
  destruct (sqs_call (GetQueueUrl name) s') as [[r1|e] s1].
  - destruct (py_subscript r1 "QueueUrl") as [u|e].
    + destruct (sqs_call (DeleteQueue u) s1) as [[r2|e] s2];
        (eexists; eexists; split; [reflexivity | discriminate]).
    + eexists; eexists; split; [reflexivity | discriminate].
  - eexists; eexists; split; [reflexivity|].
    intros H. injection H as ->. now split.
Qed.

(** X20.  An [update] with the desired state that [create] was given, and the
    model that [create] returned as the previous state, changes nothing:
    it returns SUCCESS with that model and calls no service, provided the
    desired state either has no [QueueName] entry or a true one. *)
Theorem create_then_update_is_noop (request : ResourceRequest) (s : Sqs)
    (event : ProgressEvent) (model : dict) :
  wf_dict (desired_state request) = true ->
  dict_get (desired_state request) "QueueName" = None \/
  py_truthy (py_get (desired_state request) "QueueName") = true ->
  run_result (create request s) = Ok event ->
  resource_model event = Some model ->
  forall request' s',
    desired_state request' = desired_state request ->
    previous_state request' = Some model ->
    update request' s' =
    (Ok {| status := SUCCESS;
           resource_model := Some model;
           resource_models := None;
           event_custom_context := None |}, s', []).
Proof.
  intros Hwf Hname Hrun Hmodel request' s' Hdesired Hprev'.
  destruct (create_returns request s event Hrun)
    as (attributes & tags & r1 & url & r2 & arn & -> & _).
  cbn [resource_model] in Hmodel. injection Hmodel as <-.
  rewrite update_run, Hprev', Hdesired.
  rewrite (should_replace_with_name _ _
             (create_queue_name generate_default_name request)).
  2:{ rewrite !dict_get_set_other by discriminate. apply named_model_name. }
  assert (Hfifo : py_get
                    (dict_set
                       (dict_set (named_model generate_default_name request)
                          "QueueUrl" url) "Arn" arn) "FifoQueue" =
                  py_get (desired_state request) "FifoQueue").
  { unfold py_get, dict_get_default.
    rewrite !dict_get_set_other by discriminate.
    now rewrite named_model_other by discriminate. }
  rewrite Hfifo.
  assert (E1 : py_ne (dict_get_default (desired_state request) "QueueName"
                        (create_queue_name generate_default_name request))
                 (create_queue_name generate_default_name request) = false).
  { unfold py_ne. apply negb_false_iff. unfold dict_get_default.
    destruct Hname as [Hnone|Htruthy].
    - rewrite Hnone. unfold create_queue_name, py_get, dict_get_default.
      rewrite Hnone. cbn [py_truthy negb py_eq]. apply String.eqb_refl.
    - unfold create_queue_name. rewrite Htruthy. cbn [negb].
      unfold py_get, dict_get_default in *.
      destruct (dict_get (desired_state request) "QueueName") as [v|] eqn:Ev;
        [|discriminate Htruthy].
      apply py_eq_refl. exact (wf_dict_get _ _ _ Hwf Ev). }
  assert (E2 : py_ne (dict_get_default (desired_state request) "FifoQueue"
                        (py_get (desired_state request) "FifoQueue"))
                 (py_get (desired_state request) "FifoQueue") = false).
  { unfold py_ne. apply negb_false_iff. rewrite dict_get_default_py_get.
    apply py_eq_refl. now apply wf_py_get. }
  now rewrite E1, E2.
Qed.

(** X21.  When the desired state holds [None] under [QueueName], [create] names
    the queue itself, and an [update] with the same desired state then
    takes the new name for a change: it starts by deleting the queue that
    [create] created. *)
Theorem create_then_update_with_null_name (request : ResourceRequest)
    (s : Sqs) (event : ProgressEvent) (model : dict) :
  dict_get (desired_state request) "QueueName" = Some PNone ->
  run_result (create request s) = Ok event ->
  resource_model event = Some model ->
  exists url,
    dict_get model "QueueUrl" = Some url /\
    (exists n a t r1,
       In (CreateQueue n a t, Reply r1) (run_trace (create request s)) /\
       py_subscript r1 "QueueUrl" = Ok url) /\
    forall request' s',
      desired_state request' = desired_state request ->
      previous_state request' = Some model ->
      should_replace (desired_state request') model = Ok true /\
      exists rp rest,
        run_trace (update request' s') = (DeleteQueue url, rp) :: rest.
Proof.
  intros Hname Hrun Hmodel.
  destruct (create_returns request s event Hrun)
    as (attributes & tags & r1 & url & r2 & arn & -> & Htrace & _ & _ & Hurl & _).
  cbn [resource_model] in Hmodel. injection Hmodel as <-.
  exists url. split; [|split].
  - rewrite dict_get_set_other by discriminate. apply dict_get_set_same.
  - rewrite Htrace. eexists. eexists. eexists. exists r1.
    split; [left; reflexivity | exact Hurl].
  - intros request' s' Hdesired Hprev'.
    assert (Hreplace : should_replace (desired_state request')
                         (dict_set
                            (dict_set (named_model generate_default_name request)
                               "QueueUrl" url) "Arn" arn) = Ok true).
    { rewrite Hdesired.
      rewrite (should_replace_with_name _ _
                 (create_queue_name generate_default_name request)).
      2:{ rewrite !dict_get_set_other by discriminate. apply named_model_name. }
      unfold dict_get_default at 1. rewrite Hname.
      unfold create_queue_name, py_get, dict_get_default. rewrite Hname.
      reflexivity. }
    split; [exact Hreplace|].
    rewrite update_run, Hprev', Hreplace. unfold getitem.
    rewrite dict_get_set_other by discriminate. rewrite dict_get_set_same.
    cbv zeta.
    destruct (sqs_call (DeleteQueue url) s') as [[r0|e] s1];
      [|eexists; eexists; reflexivity].
    destruct (sqs_call (CreateQueue _ _ _) s1) as [[r1'|e] s2];
      [|eexists; eexists; reflexivity].
    destruct (py_subscript r1' "QueueUrl"); [|eexists; eexists; reflexivity].
    destruct (sqs_call (GetQueueAttributes _ _) s2) as [[r2'|e] s3];
      [|eexists; eexists; reflexivity].
    destruct (response_arn r2'); eexists; eexists; reflexivity.
Qed.

(** X22.  [delete] with the model that [create] returned as the previous state
    looks the queue up under the name it was created under. *)
Theorem create_then_delete_resolves_name (request : ResourceRequest)
    (s : Sqs) (event : ProgressEvent) (model : dict) :
  run_result (create request s) = Ok event ->
  resource_model event = Some model ->
  exists name a t r1,
    In (CreateQueue name a t, Reply r1) (run_trace (create request s)) /\
    forall request' s',
      previous_state request' = Some model ->
      exists rp rest,
        run_trace (delete request' s') = (GetQueueUrl name, rp) :: rest.
Proof.
  intros Hrun Hmodel.
  destruct (create_returns request s event Hrun)
    as (attributes & tags & r1 & url & r2 & arn & -> & Htrace & _).
  cbn [resource_model] in Hmodel. injection Hmodel as <-.
  exists (create_queue_name generate_default_name request).
  eexists. eexists. exists r1. split; [rewrite Htrace; left; reflexivity|].
  intros request' s' Hprev'. rewrite delete_run, Hprev'.
  cbn [state_value py_subscript]. unfold getitem.
  rewrite !dict_get_set_other by discriminate. rewrite named_model_name.
  cbv zeta.
  destruct (sqs_call (GetQueueUrl _) s') as [[r1'|e] s1];
    [|eexists; eexists; reflexivity].
  destruct (py_subscript r1' "QueueUrl") as [u|e];
    [|eexists; eexists; reflexivity].
  destruct (sqs_call (DeleteQueue u) s1) as [[r2'|e] s2];
    eexists; eexists; reflexivity.
Qed.

(** X23.  An [update] whose desired state mentions neither [QueueName] nor
    [FifoQueue] never replaces the queue, whatever else it asks for: it
    returns the previous state and calls no service. *)
Theorem update_without_name_and_fifo (request : ResourceRequest)
    (previous : dict) (previous_name : pyval) (s : Sqs) :
  wf_dict previous = true ->
  previous_state request = Some previous ->
  dict_get previous "QueueName" = Some previous_name ->
  dict_get (desired_state request) "QueueName" = None ->
  dict_get (desired_state request) "FifoQueue" = None ->
  update request s =
  (Ok {| status := SUCCESS;
         resource_model := Some previous;
         resource_models := None;
         event_custom_context := None |}, s, []).
Proof.
  intros Hwf Hprev Hname Hdn Hdf.
  rewrite update_run, Hprev, (should_replace_with_name _ _ _ Hname).
  unfold py_ne, dict_get_default. rewrite Hdn, Hdf.
  rewrite (py_eq_refl previous_name (wf_dict_get _ _ _ Hwf Hname)).
  now rewrite (py_eq_refl _ (wf_py_get previous "FifoQueue" Hwf)).
Qed.

End Further.

(* ================================================================== *)
(** ** Examples on the small SQS *)

Lemma should_replace_iff_witness :
  let request :=
    sample_request [("QueueName", PStr "orders-v2")] (Some sample_previous) in
  previous_state request = Some sample_previous /\
  dict_get sample_previous "QueueName" = Some (PStr "orders") /\
  exists b : bool,
    should_replace (desired_state request) sample_previous = Ok b /\
    (b = true <->
     py_ne (dict_get_default (desired_state request) "QueueName"
              (PStr "orders")) (PStr "orders") = true \/
     py_ne (dict_get_default (desired_state request) "FifoQueue"
              (py_get sample_previous "FifoQueue"))
           (py_get sample_previous "FifoQueue") = true) /\
    (b = false <->
     SQSQueueProvider.update sample_generator request ["orders"] =
     (Ok {| status := SUCCESS;
            resource_model := Some sample_previous;
            resource_models := None;
            event_custom_context := None |}, ["orders"], [])).
Proof.
  intros request. split; [reflexivity|]. split; [reflexivity|].
  exact (@should_replace_iff (list string) mock_client sample_generator
           request sample_previous (PStr "orders") ["orders"]
           eq_refl eq_refl).
Defined.

(** The claim C1 as it is stated fails on a previous state without
    [QueueName], such as the one a replacing [update] returns: the FIFO flag
    differs, and yet [should_replace] has no value, [update] raising
    [KeyError] instead. *)
Lemma should_replace_without_previous_name :
  let desired := [("FifoQueue", PBool false)] in
  run_result
    (SQSQueueProvider.update sample_generator
       (sample_request [("FifoQueue", PBool true)] (Some created_state))
       ["stack-Queue-0a1b2c3d"]) =
  Ok {| status := SUCCESS;
        resource_model := Some replaced_state;
        resource_models := None;
        event_custom_context := None |} /\
  py_ne (dict_get_default desired "FifoQueue"
           (py_get replaced_state "FifoQueue"))
        (py_get replaced_state "FifoQueue") = true /\
  should_replace desired replaced_state = Raise (KeyError "QueueName") /\
  ~ (exists b, should_replace desired replaced_state = Ok b) /\
  SQSQueueProvider.update sample_generator
    (sample_request desired (Some replaced_state)) ["stack-Queue-0a1.fifo"] =
  (Raise (KeyError "QueueName"), ["stack-Queue-0a1.fifo"], []).
Proof.
  cbv zeta. split; [vm_compute; reflexivity|]. split; [reflexivity|].
  split; [reflexivity|]. split; [|vm_compute; reflexivity].
  intros [b H]. discriminate H.
Qed.

(** The claim C2 as it is stated fails on a previous state without
    [QueueName], such as the one a replacing [update] returns: the desired
    state changes [VisibilityTimeout] only, neither state names the queue
    and the FIFO flag is the previous one, and yet [update] raises
    [KeyError] instead of returning the previous state. *)
Lemma update_without_previous_name_raises :
  let desired := [("VisibilityTimeout", PInt 60)] in
  let request := sample_request desired (Some replaced_state) in
  run_result
    (SQSQueueProvider.update sample_generator
       (sample_request [("FifoQueue", PBool true)] (Some created_state))
       ["stack-Queue-0a1b2c3d"]) =
  Ok {| status := SUCCESS;
        resource_model := Some replaced_state;
        resource_models := None;
        event_custom_context := None |} /\
  dict_get desired "QueueName" = None /\
  dict_get replaced_state "QueueName" = None /\
  py_eq (dict_get_default desired "FifoQueue"
           (py_get replaced_state "FifoQueue"))
        (py_get replaced_state "FifoQueue") = true /\
  SQSQueueProvider.update sample_generator request ["stack-Queue-0a1.fifo"] =
  (Raise (KeyError "QueueName"), ["stack-Queue-0a1.fifo"], []) /\
  run_result
    (SQSQueueProvider.update sample_generator request
       ["stack-Queue-0a1.fifo"]) <>
  Ok {| status := SUCCESS;
        resource_model := Some replaced_state;
        resource_models := None;
        event_custom_context := None |}.
Proof.
  cbv zeta. split; [vm_compute; reflexivity|]. split; [reflexivity|].
  split; [reflexivity|]. split; [reflexivity|].
  split; [vm_compute; reflexivity|]. vm_compute. discriminate.
Qed.

Lemma update_without_replacement_witness :
  let desired := [("QueueName", PStr "orders"); ("VisibilityTimeout", PInt 60)] in
  let request := sample_request desired (Some sample_previous) in
  previous_state request = Some sample_previous /\
  dict_get sample_previous "QueueName" = Some (PStr "orders") /\
  py_eq (dict_get_default desired "QueueName" (PStr "orders")) (PStr "orders")
    = true /\
  py_eq (dict_get_default desired "FifoQueue"
           (py_get sample_previous "FifoQueue"))
        (py_get sample_previous "FifoQueue") = true /\
  SQSQueueProvider.update sample_generator request ["orders"] =
  (Ok {| status := SUCCESS;
         resource_model := Some sample_previous;
         resource_models := None;
         event_custom_context := None |}, ["orders"], []).
Proof.
  intros desired request. repeat (split; [reflexivity|]).
  exact (@update_without_replacement (list string) mock_client
           sample_generator request sample_previous (PStr "orders")
           ["orders"] eq_refl eq_refl eq_refl eq_refl).
Defined.

Lemma update_requires_previous_state_witness :
  let request := sample_request [("QueueName", PStr "orders")] None in
  previous_state request = None /\
  SQSQueueProvider.update sample_generator request ["orders"] =
  (Raise AssertionError, ["orders"], []).
Proof.
  intros request. split; [reflexivity|].
  exact (proj1 (@update_requires_previous_state (list string) mock_client
                  sample_generator request ["orders"]) eq_refl).
Defined.



Lemma compile_attributes_renders_witness :
  wf_dict sample_properties = true /\
  exists result,
    _compile_sqs_queue_attributes sample_properties = Ok result /\
    dict_get result "VisibilityTimeout" = Some "300" /\
    dict_get result "ContentBasedDeduplication" = Some "true" /\
    dict_get result "KmsMasterKeyId" = Some "alias/aws/sqs" /\
    dict_get result "DelaySeconds" = None /\
    dict_get result "QueueName" = None /\
    exists text,
      dict_get result "RedrivePolicy" = Some text /\
      Json.loads text = Some sample_policy.
Proof.
  split; [reflexivity|].
  destruct (compile_attributes_renders sample_properties eq_refl) as [H _].
  destruct (_compile_sqs_queue_attributes sample_properties)
    as [result|e] eqn:E; [|vm_compute in E; discriminate E].
  destruct H as [Hin Hout]. exists result. split; [reflexivity|].
  split; [exact (proj1 (Hin "VisibilityTimeout" (in_attribute_list "VisibilityTimeout" eq_refl)))|].
  split; [exact (Hin "ContentBasedDeduplication" (in_attribute_list "ContentBasedDeduplication" eq_refl))|].
  split; [exact (Hin "KmsMasterKeyId" (in_attribute_list "KmsMasterKeyId" eq_refl))|].
  split; [exact (Hin "DelaySeconds" (in_attribute_list "DelaySeconds" eq_refl))|].
  split; [apply Hout; exact queue_name_not_attribute|].
  exact (Hin "RedrivePolicy" (in_attribute_list "RedrivePolicy" eq_refl)).
Defined.

Lemma unsupported_attribute_raises_witness :
  let request :=
    sample_request [("QueueName", PStr "orders");
                    ("VisibilityTimeout", PList [PInt 30])] None in
  In "VisibilityTimeout" _queue_attribute_list /\
  py_get (desired_state request) "VisibilityTimeout" = PList [PInt 30] /\
  exists k' l',
    In k' _queue_attribute_list /\
    py_get (desired_state request) k' = PList l' /\
    let error :=
      TypeError ("cannot convert attribute " ++ k' ++
                 ", unhandled type " ++ py_type_repr (PList l')) in
    _compile_sqs_queue_attributes (desired_state request) = Raise error /\
    SQSQueueProvider.create sample_generator request ["other"] =
    (Raise error, ["other"], []).
Proof.
  intros request.
  split; [exact (in_attribute_list "VisibilityTimeout" eq_refl)|].
  split; [reflexivity|].
  exact (@unsupported_attribute_raises (list string) mock_client
           sample_generator request "VisibilityTimeout" [PInt 30] ["other"]
           (in_attribute_list "VisibilityTimeout" eq_refl) eq_refl).
Defined.


Lemma delete_missing_queue_succeeds_witness :
  let request := sample_request [] (Some sample_previous) in
  previous_state request = Some sample_previous /\
  dict_get sample_previous "QueueName" = Some (PStr "orders") /\
  SQSQueueProvider.delete (client := mock_client) request [] =
  (Ok (delete_done request), [],
   [(GetQueueUrl (PStr "orders"), Fault QueueDoesNotExist)]) /\
  (exists event event' t1 t2,
     SQSQueueProvider.delete (client := mock_client) request ["orders"] =
     (Ok event, [], t1) /\
     SQSQueueProvider.delete (client := mock_client) request [] =
     (Ok event', [], t2) /\
     status event = SUCCESS /\ status event' = SUCCESS) /\
  SQSQueueProvider.delete (client := denying_client) request tt =
  (Raise (ServiceError (ClientError "AccessDenied")), tt,
   [(GetQueueUrl (PStr "orders"), Fault (ClientError "AccessDenied"))]).
Proof.
  intros request. split; [reflexivity|]. split; [reflexivity|].
  pose proof (@delete_missing_queue_succeeds (list string) mock_client
                request sample_previous (PStr "orders") eq_refl eq_refl)
    as (_ & Hmissing & Htwice & _).
  pose proof (@delete_missing_queue_succeeds unit denying_client
                request sample_previous (PStr "orders") eq_refl eq_refl)
    as (_ & _ & _ & Hother & _).
  split; [exact (Hmissing [] [] eq_refl)|]. split.
  - assert (Hfirst :
             SQSQueueProvider.delete (client := mock_client) request ["orders"]
             = (Ok (delete_done request), [],
                [(GetQueueUrl (PStr "orders"),
                  Reply (PDict [("QueueUrl", PStr (mock_url "orders"))]));
                 (DeleteQueue (PStr (mock_url "orders")), Reply (PDict []))])).
    { vm_compute. reflexivity. }
    destruct (Htwice ["orders"] _ [] _ [] Hfirst eq_refl)
      as (Hs & event' & t2 & Hsecond & Hs').
    exists (delete_done request), event'. eexists. exists t2.
    split; [exact Hfirst|]. split; [exact Hsecond|]. split; assumption.
  - apply Hother; [discriminate | reflexivity].
Defined.

Lemma update_replaces_queue_witness :
  let request := renamed_request in
  let model :=
    [("QueueName", PStr "orders-v2");
     ("QueueUrl", PStr (mock_url "stack-Queue-0a1b2c3d"));
     ("Arn", PStr (mock_arn "stack-Queue-0a1b2c3d"))] in
  previous_state request = Some sample_previous /\
  should_replace (desired_state request) sample_previous = Ok true /\
  dict_get sample_previous "QueueUrl" = Some (PStr (mock_url "orders")) /\
  SQSQueueProvider.update sample_generator request ["orders"] =
  (Ok {| status := SUCCESS;
         resource_model := Some model;
         resource_models := None;
         event_custom_context := None |},
   ["stack-Queue-0a1b2c3d"],
   [(DeleteQueue (PStr (mock_url "orders")), Reply (PDict []));
    (CreateQueue (PStr "stack-Queue-0a1b2c3d") None None,
     Reply (PDict [("QueueUrl", PStr (mock_url "stack-Queue-0a1b2c3d"))]));
    (GetQueueAttributes (PStr (mock_url "stack-Queue-0a1b2c3d")) ["QueueArn"],
     Reply (PDict [("Attributes",
                    PDict [("QueueArn",
                            PStr (mock_arn "stack-Queue-0a1b2c3d"))])]))]).
Proof.
  intros request model. split; [reflexivity|]. split; [reflexivity|].
  split; [reflexivity|].
  exact (proj1
           (proj2 (@update_replaces_queue (list string) mock_client
                     sample_generator request sample_previous
                     (PStr (mock_url "orders")) ["orders"]
                     eq_refl eq_refl eq_refl)
              (PDict []) []
              (PDict [("QueueUrl", PStr (mock_url "stack-Queue-0a1b2c3d"))])
              ["stack-Queue-0a1b2c3d"]
              (PStr (mock_url "stack-Queue-0a1b2c3d"))
              (PDict [("Attributes",
                       PDict [("QueueArn",
                               PStr (mock_arn "stack-Queue-0a1b2c3d"))])])
              ["stack-Queue-0a1b2c3d"]
              (PStr (mock_arn "stack-Queue-0a1b2c3d"))
              eq_refl eq_refl eq_refl eq_refl eq_refl)).
Defined.

Lemma update_ignores_desired_name_witness :
  let request := renamed_request in
  previous_state request = Some sample_previous /\
  should_replace (desired_state request) sample_previous = Ok true /\
  dict_get sample_previous "QueueUrl" = Some (PStr (mock_url "orders")) /\
  sqs_call (DeleteQueue (PStr (mock_url "orders"))) ["orders"] =
  (Reply (PDict []), []) /\
  dict_get (desired_state request) "QueueName" = Some (PStr "orders-v2") /\
  exists rp,
    In (CreateQueue (PStr "stack-Queue-0a1b2c3d") None None, rp)
       (run_trace (SQSQueueProvider.update sample_generator request ["orders"])).
Proof.
  intros request. repeat (split; [reflexivity|]).
  exact (proj1 (@update_ignores_desired_name (list string) mock_client
                  sample_generator request sample_previous
                  (PStr (mock_url "orders")) (PDict []) ["orders"] []
                  eq_refl eq_refl eq_refl eq_refl)).
Defined.

(* ------------------------------------------------------------------ *)
(** *** Examples for the further properties *)

Lemma compile_attributes_keys_witness :
  let properties :=
    [("QueueName", PStr "orders"); ("VisibilityTimeout", PInt 300);
     ("DelaySeconds", PNone); ("ContentBasedDeduplication", PBool true)] in
  let result :=
    [("ContentBasedDeduplication", "true"); ("VisibilityTimeout", "300")] in
  _compile_sqs_queue_attributes properties = Ok result /\
  map fst result =
  filter (fun k => negb (is_none (py_get properties k)))
    _queue_attribute_list /\
  NoDup (map fst result).
Proof.
  intros properties result. split; [reflexivity|].
  exact (compile_attributes_keys properties result eq_refl).
Defined.

Lemma compile_attributes_ignores_undeclared_witness :
  ~ In "Tags" _queue_attribute_list /\
  _compile_sqs_queue_attributes
    (dict_set plain_desired "Tags" (PList [tag_of ("team", PStr "billing")])) =
  _compile_sqs_queue_attributes plain_desired.
Proof.
  split; [exact (not_in_attribute_list "Tags" eq_refl)|].
  exact (compile_attributes_ignores_undeclared plain_desired "Tags"
           (PList [tag_of ("team", PStr "billing")])
           (not_in_attribute_list "Tags" eq_refl)).
Defined.

Lemma list_one_model_per_url_witness :
  let request := sample_request [] None in
  let urls := [PStr (mock_url "a"); PStr (mock_url "b")] in
  let d := [("QueueUrls", PList urls)] in
  sqs_call ListQueues ["a"; "b"] = (Reply (PDict d), ["a"; "b"]) /\
  dict_get d "QueueUrls" = Some (PList urls) /\
  exists models,
    SQSQueueProvider.list_ request ["a"; "b"] =
    (Listed (success_event_list models), ["a"; "b"],
     [(ListQueues, Reply (PDict d))]) /\
    List.length models = 2 /\
    nth_error models 1 = Some [("QueueUrl", PStr (mock_url "b"))].
Proof.
  intros request urls d. split; [reflexivity|]. split; [reflexivity|].
  destruct (@list_one_model_per_url (list string) mock_client request
              ["a"; "b"] ["a"; "b"] d urls eq_refl eq_refl)
    as (models & Hrun & Hlen & Hnth).
  exists models. split; [exact Hrun|]. split; [exact Hlen|].
  exact (Hnth 1 (PStr (mock_url "b")) eq_refl).
Defined.

Lemma list_without_queue_urls_witness :
  let request := sample_request [] None in
  @sqs_call unit flaky_client ListQueues tt = (Reply (PDict []), tt) /\
  dict_get ([] : dict) "QueueUrls" = None /\
  SQSQueueProvider.list_ (client := flaky_client) request tt =
  (Listed (success_event_list []), tt, [(ListQueues, Reply (PDict []))]).
Proof.
  intros request. split; [reflexivity|]. split; [reflexivity|].
  exact (@list_without_queue_urls unit flaky_client request tt tt []
           eq_refl eq_refl).
Defined.

Lemma list_single_call_witness :
  let request := sample_request [] None in
  exists rp,
    snd (SQSQueueProvider.list_ (client := denying_client) request tt) =
    [(ListQueues, rp)] /\
    (rp = Fault (ClientError "AccessDenied") ->
     fst (fst (SQSQueueProvider.list_ (client := denying_client) request tt)) =
     ListRaise (ServiceError (ClientError "AccessDenied"))).
Proof.
  intros request.
  destruct (@list_single_call unit denying_client request tt)
    as (rp & Htrace & _ & _ & Hfault).
  exists rp. split; [exact Htrace | exact (Hfault _)].
Defined.

Lemma delete_needs_previous_name_witness :
  let request := sample_request [] None in
  previous_state request = None /\
  SQSQueueProvider.delete (client := mock_client) request ["orders"] =
  (Raise (TypeError "'NoneType' object is not subscriptable"), ["orders"], []).
Proof.
  intros request. split; [reflexivity|].
  exact (proj1 (@delete_needs_previous_name (list string) mock_client
                  request ["orders"]) eq_refl).
Defined.

Lemma delete_vanished_queue_succeeds_witness :
  let request := sample_request [] (Some sample_previous) in
  let r1 := PDict [("QueueUrl", PStr "http://sqs.localhost/q")] in
  previous_state request = Some sample_previous /\
  dict_get sample_previous "QueueName" = Some (PStr "orders") /\
  @sqs_call unit flaky_client (GetQueueUrl (PStr "orders")) tt = (Reply r1, tt) /\
  py_subscript r1 "QueueUrl" = Ok (PStr "http://sqs.localhost/q") /\
  @sqs_call unit flaky_client (DeleteQueue (PStr "http://sqs.localhost/q")) tt =
  (Fault QueueDoesNotExist, tt) /\
  SQSQueueProvider.delete (client := flaky_client) request tt =
  (Ok (delete_done request), tt,
   [(GetQueueUrl (PStr "orders"), Reply r1);
    (DeleteQueue (PStr "http://sqs.localhost/q"), Fault QueueDoesNotExist)]).
Proof.
  intros request r1. repeat (split; [reflexivity|]).
  exact (proj1 (@delete_vanished_queue_succeeds unit flaky_client request
                  sample_previous (PStr "orders") r1
                  (PStr "http://sqs.localhost/q") tt tt tt
                  eq_refl eq_refl eq_refl eq_refl eq_refl)).
Defined.

Lemma delete_calls_and_result_witness :
  let request := sample_request plain_desired (Some sample_previous) in
  run_result (SQSQueueProvider.delete (client := mock_client) request ["orders"])
  = Ok (delete_done request) /\
  status (delete_done request) = SUCCESS /\
  resource_model (delete_done request) = Some plain_desired.
Proof.
  intros request.
  assert (H : run_result
                (SQSQueueProvider.delete (client := mock_client) request
                   ["orders"]) = Ok (delete_done request))
    by (vm_compute; reflexivity).
  split; [exact H|].
  exact (proj1 (@delete_calls_and_result (list string) mock_client request
                  ["orders"]) (delete_done request) H).
Defined.

Lemma create_keeps_given_name_witness :
  let request :=
    sample_request [("QueueName", PStr "orders"); ("FifoQueue", PBool true)]
      None in
  py_truthy (py_get (desired_state request) "QueueName") = true /\
  (exists rp rest,
     run_trace (SQSQueueProvider.create sample_generator request []) =
     (CreateQueue (PStr "orders") (Some [("FifoQueue", "true")]) (Some []),
      rp) :: rest) /\
  forall (s : list string) n a t rp,
    In (CreateQueue n a t, rp)
       (run_trace (SQSQueueProvider.create sample_generator request s)) ->
    n = PStr "orders".
Proof.
  intros request. split; [reflexivity|]. split.
  - exact (proj1 (@create_keeps_given_name (list string) mock_client
                    sample_generator request eq_refl)
             [] [("FifoQueue", "true")] [] eq_refl eq_refl).
  - exact (proj1 (proj2 (@create_keeps_given_name (list string) mock_client
                           sample_generator request eq_refl))).
Defined.

Lemma create_model_frame_witness :
  let request := sample_request plain_desired None in
  let event := success_event plain_model (Some (PDict [])) in
  run_result (SQSQueueProvider.create sample_generator request []) = Ok event /\
  status event = SUCCESS /\
  event_custom_context event = Some (custom_context request) /\
  exists model a t r1 url r2 arn,
    resource_model event = Some model /\
    run_trace (SQSQueueProvider.create sample_generator request []) =
    [(CreateQueue (PStr "orders") a t, Reply r1);
     (GetQueueAttributes url ["QueueArn"], Reply r2)] /\
    py_subscript r1 "QueueUrl" = Ok url /\
    response_arn r2 = Ok arn /\
    dict_get model "QueueName" = Some (PStr "orders") /\
    dict_get model "QueueUrl" = Some url /\
    dict_get model "Arn" = Some arn.
Proof.
  intros request event.
  assert (H : run_result (SQSQueueProvider.create sample_generator request [])
              = Ok event) by (vm_compute; reflexivity).
  split; [exact H|].
  pose proof (@create_model_frame (list string) mock_client sample_generator
                request [] event H)
    as (Hs & Hc & model & a & t & r1 & url & r2 & arn & Hm & Ht & Hu & Ha &
        Hn & Hmu & Hma & _).
  split; [exact Hs|]. split; [exact Hc|].
  exists model, a, t, r1, url, r2, arn.
  split; [exact Hm|]. split; [exact Ht|]. split; [exact Hu|].
  split; [exact Ha|]. split; [exact Hn|]. split; [exact Hmu | exact Hma].
Defined.

Lemma create_calls_witness :
  let request := sample_request plain_desired None in
  let event := success_event plain_model (Some (PDict [])) in
  let run := SQSQueueProvider.create sample_generator request [] in
  run_result run = Ok event /\
  List.length (run_trace run) <= 2 /\
  List.length (run_trace run) = 2 /\
  exists a t r1 url r2,
    py_subscript r1 "QueueUrl" = Ok url /\
    run_trace run =
    [(CreateQueue (PStr "orders") (Some a) (Some t), Reply r1);
     (GetQueueAttributes url ["QueueArn"], Reply r2)].
Proof.
  intros request event run.
  assert (H : run_result run = Ok event) by (vm_compute; reflexivity).
  split; [exact H|].
  pose proof (@create_calls (list string) mock_client sample_generator
                request []) as (Hle & _ & _ & Hok).
  split; [exact Hle|].
  split; [exact (proj1 (proj2 (Hok event H)))|].
  exact (proj2 (proj2 (proj2 (Hok event H)))).
Defined.

Lemma create_without_rollback_witness :
  let request := sample_request plain_desired None in
  let attributes := [("VisibilityTimeout", "300")] in
  let r1 := PDict [("QueueUrl", PStr "http://sqs.localhost/q")] in
  let url := PStr "http://sqs.localhost/q" in
  _compile_sqs_queue_attributes (desired_state request) = Ok attributes /\
  compile_tags (desired_state request) = Ok [] /\
  @sqs_call unit flaky_client
    (CreateQueue (PStr "orders") (Some attributes) (Some [])) tt =
  (Reply r1, tt) /\
  py_subscript r1 "QueueUrl" = Ok url /\
  @sqs_call unit flaky_client (GetQueueAttributes url ["QueueArn"]) tt =
  (Fault (ClientError "AccessDenied"), tt) /\
  SQSQueueProvider.create (client := flaky_client) sample_generator request tt =
  (Raise (ServiceError (ClientError "AccessDenied")), tt,
   [(CreateQueue (PStr "orders") (Some attributes) (Some []), Reply r1);
    (GetQueueAttributes url ["QueueArn"], Fault (ClientError "AccessDenied"))]).
Proof.
  intros request attributes r1 url. repeat (split; [reflexivity|]).
  exact (@create_without_rollback unit flaky_client sample_generator request
           tt tt tt attributes [] r1 url (ClientError "AccessDenied")
           eq_refl eq_refl eq_refl eq_refl eq_refl).
Defined.

Lemma create_rejects_malformed_tags_witness :
  let request :=
    sample_request [("QueueName", PStr "orders"); ("Tags", PNone)] None in
  let request' :=
    sample_request
      [("QueueName", PStr "orders");
       ("Tags", PList [tag_of ("team", PStr "billing");
                       PDict [("Key", PStr "env")]])] None in
  _compile_sqs_queue_attributes (desired_state request) = Ok [] /\
  dict_get (desired_state request) "Tags" = Some PNone /\
  SQSQueueProvider.create sample_generator request ["other"] =
  (Raise (TypeError "'NoneType' object is not iterable"), ["other"], []) /\
  SQSQueueProvider.create sample_generator request' ["other"] =
  (Raise (KeyError "Value"), ["other"], []).
Proof.
  intros request request'. split; [reflexivity|]. split; [reflexivity|].
  split.
  - exact (proj1 (@create_rejects_malformed_tags (list string) mock_client
                    sample_generator request ["other"] [] eq_refl) eq_refl).
  - refine (proj2 (@create_rejects_malformed_tags (list string) mock_client
                     sample_generator request' ["other"] [] eq_refl)
              [tag_of ("team", PStr "billing")] [("team", PStr "billing")]
              [("Key", PStr "env")] (PStr "env") [] _ eq_refl eq_refl eq_refl).
    constructor; [split; reflexivity | constructor].
Defined.

Lemma create_tags_last_wins_witness :
  let request :=
    sample_request [("QueueName", PStr "orders");
                    ("Tags", PList (map tag_of sample_tags))] None in
  Forall2 (fun t kv => py_subscript t "Key" = Ok (PStr (fst kv)) /\
                       py_subscript t "Value" = Ok (snd kv))
    (map tag_of sample_tags) sample_tags /\
  dict_get (desired_state request) "Tags" =
  Some (PList (map tag_of sample_tags)) /\
  dict_of_pairs sample_tags = [("team", PStr "orders"); ("env", PStr "prod")] /\
  (exists rp rest,
     run_trace (SQSQueueProvider.create sample_generator request []) =
     (CreateQueue (PStr "orders") (Some [])
        (Some [(PStr "team", PStr "orders"); (PStr "env", PStr "prod")]), rp)
     :: rest) /\
  forall (s : list string) n a t rp,
    In (CreateQueue n a t, rp)
       (run_trace (SQSQueueProvider.create sample_generator request s)) ->
    t = Some (map (fun kv => (PStr (fst kv), snd kv))
                (dict_of_pairs sample_tags)).
Proof.
  intros request.
  assert (H : Forall2
                (fun t kv => py_subscript t "Key" = Ok (PStr (fst kv)) /\
                             py_subscript t "Value" = Ok (snd kv))
                (map tag_of sample_tags) sample_tags).
  { repeat (constructor; [split; reflexivity|]). constructor. }
  split; [exact H|]. split; [reflexivity|]. split; [reflexivity|].
  pose proof (proj1 (@create_tags_last_wins (list string) mock_client
                       sample_generator request)
                (map tag_of sample_tags) sample_tags H eq_refl)
    as (Hfirst & Hall & _).
  split; [exact (Hfirst [] [] eq_refl) | exact Hall].
Defined.

Lemma update_without_rollback_witness :
  let request := renamed_request in
  previous_state request = Some sample_previous /\
  should_replace (desired_state request) sample_previous = Ok true /\
  dict_get sample_previous "QueueUrl" = Some (PStr (mock_url "orders")) /\
  @sqs_call unit quota_client (DeleteQueue (PStr (mock_url "orders"))) tt =
  (Reply (PDict []), tt) /\
  @sqs_call unit quota_client
    (CreateQueue (PStr "stack-Queue-0a1b2c3d") None None) tt =
  (Fault (ClientError "OverLimit"), tt) /\
  SQSQueueProvider.update (client := quota_client) sample_generator request tt =
  (Raise (ServiceError (ClientError "OverLimit")), tt,
   [(DeleteQueue (PStr (mock_url "orders")), Reply (PDict []));
    (CreateQueue (PStr "stack-Queue-0a1b2c3d") None None,
     Fault (ClientError "OverLimit"))]).
Proof.
  intros request. repeat (split; [reflexivity|]).
  exact (@update_without_rollback unit quota_client sample_generator request
           sample_previous (PStr (mock_url "orders")) (PDict []) tt tt tt
           (ClientError "OverLimit") eq_refl eq_refl eq_refl eq_refl eq_refl).
Defined.

Lemma update_calls_witness :
  let run :=
    SQSQueueProvider.update sample_generator renamed_request ["orders"] in
  List.length (run_trace run) <= 3 /\
  forall rq rp,
    In (rq, rp) (run_trace run) ->
    exists previous old_url,
      previous_state renamed_request = Some previous /\
      should_replace (desired_state renamed_request) previous = Ok true /\
      dict_get previous "QueueUrl" = Some old_url /\
      (rq = DeleteQueue old_url \/
       (exists n, rq = CreateQueue n None None) \/
       (exists u, rq = GetQueueAttributes u ["QueueArn"])).
Proof.
  intros run.
  exact (@update_calls (list string) mock_client sample_generator
           renamed_request ["orders"]).
Defined.

Lemma update_needs_previous_url_witness :
  let previous := [("QueueName", PStr "orders")] in
  let request :=
    sample_request [("QueueName", PStr "orders-v2")] (Some previous) in
  previous_state request = Some previous /\
  should_replace (desired_state request) previous = Ok true /\
  dict_get previous "QueueUrl" = None /\
  SQSQueueProvider.update sample_generator request ["orders"] =
  (Raise (KeyError "QueueUrl"), ["orders"], []).
Proof.
  intros previous request. repeat (split; [reflexivity|]).
  exact (@update_needs_previous_url (list string) mock_client sample_generator
           request previous ["orders"] eq_refl eq_refl eq_refl).
Defined.

Lemma update_replacement_forgets_name_witness :
  let request := sample_request [("FifoQueue", PBool true)] (Some created_state) in
  let event := success_event replaced_state None in
  previous_state request = Some created_state /\
  should_replace (desired_state request) created_state = Ok true /\
  run_result (SQSQueueProvider.update sample_generator request
                ["stack-Queue-0a1b2c3d"]) = Ok event /\
  exists model,
    resource_model event = Some model /\
    dict_get model "QueueName" = None /\
    SQSQueueProvider.update sample_generator
      (sample_request [("VisibilityTimeout", PInt 60)] (Some model))
      ["stack-Queue-0a1.fifo"] =
    (Raise (KeyError "QueueName"), ["stack-Queue-0a1.fifo"], []).
Proof.
  intros request event. split; [reflexivity|]. split; [reflexivity|].
  assert (H : run_result (SQSQueueProvider.update sample_generator request
                            ["stack-Queue-0a1b2c3d"]) = Ok event)
    by (vm_compute; reflexivity).
  split; [exact H|].
  destruct (@update_replacement_forgets_name (list string) mock_client
              sample_generator request created_state
              ["stack-Queue-0a1b2c3d"] event eq_refl eq_refl H)
    as (model & Hmodel & Hname & Hlater).
  exists model. split; [exact Hmodel|]. split; [exact Hname|].
  exact (Hlater eq_refl
           (sample_request [("VisibilityTimeout", PInt 60)] (Some model))
           ["stack-Queue-0a1.fifo"] eq_refl).
Defined.

Lemma delete_after_renaming_update_witness :
  let request := renamed_request in
  let model :=
    [("QueueName", PStr "orders-v2");
     ("QueueUrl", PStr (mock_url "stack-Queue-0a1b2c3d"));
     ("Arn", PStr (mock_arn "stack-Queue-0a1b2c3d"))] in
  let event := success_event model None in
  previous_state request = Some sample_previous /\
  should_replace (desired_state request) sample_previous = Ok true /\
  dict_get (desired_state request) "QueueName" = Some (PStr "orders-v2") /\
  run_result (SQSQueueProvider.update sample_generator request ["orders"])
  = Ok event /\
  SQSQueueProvider.delete (client := mock_client)
    (sample_request [] (Some model)) ["stack-Queue-0a1b2c3d"] =
  (Ok (delete_done (sample_request [] (Some model))),
   ["stack-Queue-0a1b2c3d"],
   [(GetQueueUrl (PStr "orders-v2"), Fault QueueDoesNotExist)]) /\
  exists model',
    resource_model event = Some model' /\
    exists rp rest,
      run_trace (SQSQueueProvider.delete (client := mock_client)
                   (sample_request [] (Some model'))
                   ["stack-Queue-0a1b2c3d"]) =
      (GetQueueUrl (PStr "orders-v2"), rp) :: rest.
Proof.
  intros request model event. do 3 (split; [reflexivity|]).
  assert (H : run_result (SQSQueueProvider.update sample_generator request
                            ["orders"]) = Ok event)
    by (vm_compute; reflexivity).
  split; [exact H|]. split; [vm_compute; reflexivity|].
  destruct (@delete_after_renaming_update (list string) mock_client
              sample_generator request sample_previous ["orders"] event
              (PStr "orders-v2") eq_refl eq_refl eq_refl H)
    as (model' & Hmodel & Hdelete).
  exists model'. split; [exact Hmodel|].
  destruct (Hdelete (sample_request [] (Some model'))
              ["stack-Queue-0a1b2c3d"] eq_refl) as (rp & rest & Htrace & _).
  exists rp, rest. exact Htrace.
Defined.

Lemma create_then_update_is_noop_witness :
  let request := sample_request plain_desired None in
  let event := success_event plain_model (Some (PDict [])) in
  let request' := with_states request plain_desired (Some plain_model) in
  wf_dict (desired_state request) = true /\
  py_truthy (py_get (desired_state request) "QueueName") = true /\
  run_result (SQSQueueProvider.create sample_generator request []) = Ok event /\
  resource_model event = Some plain_model /\
  desired_state request' = desired_state request /\
  previous_state request' = Some plain_model /\
  SQSQueueProvider.update sample_generator request' ["orders"] =
  (Ok (success_event plain_model None), ["orders"], []).
Proof.
  intros request event request'. split; [reflexivity|]. split; [reflexivity|].
  assert (H : run_result (SQSQueueProvider.create sample_generator request [])
              = Ok event) by (vm_compute; reflexivity).
  split; [exact H|]. repeat (split; [reflexivity|]).
  exact (@create_then_update_is_noop (list string) mock_client
           sample_generator request [] event plain_model eq_refl
           (or_intror eq_refl) H eq_refl request' ["orders"]
           eq_refl eq_refl).
Defined.

Lemma create_then_update_with_null_name_witness :
  let request := sample_request [("QueueName", PNone)] None in
  let event := success_event created_state (Some (PDict [])) in
  dict_get (desired_state request) "QueueName" = Some PNone /\
  run_result (SQSQueueProvider.create sample_generator request []) = Ok event /\
  resource_model event = Some created_state /\
  exists url,
    dict_get created_state "QueueUrl" = Some url /\
    exists rp rest,
      run_trace (SQSQueueProvider.update sample_generator
                   (with_states request [("QueueName", PNone)]
                      (Some created_state))
                   ["stack-Queue-0a1b2c3d"]) =
      (DeleteQueue url, rp) :: rest.
Proof.
  intros request event. split; [reflexivity|].
  assert (H : run_result (SQSQueueProvider.create sample_generator request [])
              = Ok event) by (vm_compute; reflexivity).
  split; [exact H|]. split; [reflexivity|].
  destruct (@create_then_update_with_null_name (list string) mock_client
              sample_generator request [] event created_state
              eq_refl H eq_refl) as (url & Hurl & _ & Hupdate).
  exists url. split; [exact Hurl|].
  exact (proj2 (Hupdate (with_states request [("QueueName", PNone)]
                           (Some created_state))
                  ["stack-Queue-0a1b2c3d"] eq_refl eq_refl)).
Defined.

Lemma create_then_delete_resolves_name_witness :
  let request := sample_request plain_desired None in
  let event := success_event plain_model (Some (PDict [])) in
  run_result (SQSQueueProvider.create sample_generator request []) = Ok event /\
  resource_model event = Some plain_model /\
  exists name a t r1,
    In (CreateQueue name a t, Reply r1)
       (run_trace (SQSQueueProvider.create sample_generator request [])) /\
    exists rp rest,
      run_trace (SQSQueueProvider.delete (client := mock_client)
                   (sample_request [] (Some plain_model)) ["orders"]) =
      (GetQueueUrl name, rp) :: rest.
Proof.
  intros request event.
  assert (H : run_result (SQSQueueProvider.create sample_generator request [])
              = Ok event) by (vm_compute; reflexivity).
  split; [exact H|]. split; [reflexivity|].
  destruct (@create_then_delete_resolves_name (list string) mock_client
              sample_generator request [] event plain_model H eq_refl)
    as (name & a & t & r1 & Hin & Hdelete).
  exists name, a, t, r1. split; [exact Hin|].
  exact (Hdelete (sample_request [] (Some plain_model)) ["orders"] eq_refl).
Defined.

Lemma update_without_name_and_fifo_witness :
  let desired :=
    [("VisibilityTimeout", PInt 60);
     ("Tags", PList [tag_of ("team", PStr "billing")])] in
  let request := sample_request desired (Some sample_previous) in
  wf_dict sample_previous = true /\
  previous_state request = Some sample_previous /\
  dict_get sample_previous "QueueName" = Some (PStr "orders") /\
  dict_get desired "QueueName" = None /\
  dict_get desired "FifoQueue" = None /\
  SQSQueueProvider.update sample_generator request ["orders"] =
  (Ok (success_event sample_previous None), ["orders"], []).
Proof.
  intros desired request. repeat (split; [reflexivity|]).
  exact (@update_without_name_and_fifo (list string) mock_client
           sample_generator request sample_previous (PStr "orders")
           ["orders"] eq_refl eq_refl eq_refl eq_refl eq_refl).
Defined.
